(** * pdf_to_text: command construction and validation for pdftk,
      ImageMagick and Tesseract

    A shallow embedding of [cli.py], [utils.py], [pdftk.py], [magick.py]
    and [tesseract.py], followed by the properties of the command layer.

    Conventions of the embedding.
    - A Python [str] is a [string] whose characters are read as the code
      points 0..255; text outside that range is not modelled.  Floats,
      bytes and user-defined classes are not modelled either.
    - A Python [dict] is an association list in insertion order; a
      well-formed one has pairwise distinct keys.  Keys are strings, as
      every [Mapping[str, ...]] annotation of the sources says.
    - An exception is a value of [exn]; code that may raise returns a
      [result].  Code that touches the outside world (the file system
      probe [os.path.isfile], [subprocess.run]) runs in the monad [M],
      which also records those calls in the order they are made.
    - [str], [repr] and the fields of an f-string raise a [ValueError]
      on an integer of more than 4300 decimal digits, the default limit
      of the interpreter, which the sources do not change.  Other limits
      of the interpreter (recursion depth, memory) are not modelled.
    - [subprocess.run] raises on a command with a token that is not a
      string, or a string holding a NUL character.  The three tools are
      taken to be installed: a command of proper tokens is started.
    - The pipeline script [pdf_to_text.py] and [check_output] are
      embedded in the module [Pipeline], with the answers of the outside
      world (exit statuses, glob results, which files can be written or
      removed) taken as given; [concat], which nothing calls, is not
      embedded. *)

From Stdlib Require Import String Ascii List ZArith Bool Lia DecimalString.
From Stdlib.Strings Require Byte.
Import ListNotations.

Set Warnings "-register-all".

Local Open Scope list_scope.
Local Open Scope string_scope.

(* ------------------------------------------------------------------ *)
(** ** Python values *)

Module Py.

(** A Python object.  Sequences (lists, tuples) are [PList]; a mapping
    is [PDict], in insertion order. *)
Inductive pyval : Type :=
| PNone
| PStr (s : string)
| PInt (n : Z)
| PBool (b : bool)
| PList (xs : list pyval)
| PDict (kvs : list (string * pyval)).

(** One argument of a command line. *)
Definition token := pyval.

Definition pydict := list (string * pyval).

(** *** Exceptions and results *)

(** Modelled from the spec: the module [exceptions] (which declares
    [ValidationError] and [OutputError]) is not among the sources.  The
    spec describes [ValidationError] as the failure raised when an
    assigned value breaks a grammar rule, a class of its own;
    [Exception_] is the builtin [Exception] raised as such. *)
Inductive exn : Type :=
| AssertionError
| ValidationError (msg : string)
| Exception_ (msg : string)
| TypeError
| ValueError
| IndexError
| AttributeError
| KeyError (key : string).

Inductive result (A : Type) : Type :=
| Ok (a : A)
| Err (e : exn).
Arguments Ok {A} a.
Arguments Err {A} e.

Definition rbind {A B} (r : result A) (k : A -> result B) : result B :=
  match r with
  | Ok a => k a
  | Err e => Err e
  end.

(** [[f(x) for x in l]] for an [f] that may raise. *)
Fixpoint rmap {A B} (f : A -> result B) (l : list A) : result (list B) :=
  match l with
  | [] => Ok []
  | x :: rest =>
      match f x with
      | Ok y =>
          match rmap f rest with
          | Ok ys => Ok (y :: ys)
          | Err e => Err e
          end
      | Err e => Err e
      end
  end.

(** [raise E(msg)], where building the message may itself raise. *)
Definition raise_with {A} (E : string -> exn) (msg : result string) : result A :=
  match msg with
  | Ok s => Err (E s)
  | Err e => Err e
  end.

Definition is_ok {A} (r : result A) : bool :=
  match r with Ok _ => true | Err _ => false end.

Definition is_validation_error (e : exn) : bool :=
  match e with ValidationError _ => true | _ => false end.

(** *** Dictionaries *)

Fixpoint dict_get (k : string) (d : pydict) : option pyval :=
  match d with
  | [] => None
  | (k', v) :: rest => if String.eqb k k' then Some v else dict_get k rest
  end.

(** [d[k] = v]: an existing key keeps its place, a new one goes last. *)
Fixpoint dict_set (k : string) (v : pyval) (d : pydict) : pydict :=
  match d with
  | [] => [(k, v)]
  | (k', v') :: rest =>
      if String.eqb k k' then (k', v) :: rest else (k', v') :: dict_set k v rest
  end.

(** [dict(pairs)]. *)
Definition dict_of_pairs (pairs : list (string * pyval)) : pydict :=
  fold_left (fun d kv => dict_set (fst kv) (snd kv) d) pairs [].

Definition keys (d : pydict) : list string := map fst d.

Definition wf_dict (d : pydict) : Prop := NoDup (keys d).

(** [m.get(k)]: [None] when the key is missing; only mappings have the
    method. *)
Definition dict_get_or_none (d : pydict) (k : string) : pyval :=
  match dict_get k d with
  | Some v => v
  | None => PNone
  end.

Definition get (m : pyval) (k : string) : result pyval :=
  match m with
  | PDict d => Ok (dict_get_or_none d k)
  | _ => Err AttributeError
  end.

(** [m[k]] for a string [k]. *)
Definition getitem (m : pyval) (k : string) : result pyval :=
  match m with
  | PDict d =>
      match dict_get k d with
      | Some v => Ok v
      | None => Err (KeyError k)
      end
  | _ => Err TypeError
  end.

(** [m[k] = v] for a string [k]. *)
Definition setitem (m : pyval) (k : string) (v : pyval) : result pyval :=
  match m with
  | PDict d => Ok (PDict (dict_set k v d))
  | _ => Err TypeError
  end.

(** [m.items()]. *)
Definition items (m : pyval) : result (list (string * pyval)) :=
  match m with
  | PDict d => Ok d
  | _ => Err AttributeError
  end.

(** *** Builtins *)

Definition is_none (v : pyval) : bool :=
  match v with PNone => true | _ => false end.

Definition is_str (v : pyval) : bool :=
  match v with PStr _ => true | _ => false end.

(** [isinstance(v, Iterable)]. *)
Definition is_iterable (v : pyval) : bool :=
  match v with PStr _ | PList _ | PDict _ => true | _ => false end.

Definition is_dict (v : pyval) : bool :=
  match v with PDict _ => true | _ => false end.

(** Truth value of an object. *)
Definition truthy (v : pyval) : bool :=
  match v with
  | PNone => false
  | PStr s => negb (String.eqb s "")
  | PInt n => negb (Z.eqb n 0)
  | PBool b => b
  | PList xs => match xs with [] => false | _ => true end
  | PDict kvs => match kvs with [] => false | _ => true end
  end.

(** [l == []]. *)
Definition is_empty {A} (l : list A) : bool :=
  match l with [] => true | _ => false end.

(** [a == b]; [bool] is a subclass of [int], lists compare element by
    element, mappings whatever the order of their keys. *)
Definition num_of (a : pyval) : option Z :=
  match a with
  | PInt n => Some n
  | PBool b => Some (if b then 1 else 0)%Z
  | _ => None
  end.

Fixpoint py_eq (a b : pyval) : bool :=
  match a, b with
  | PNone, PNone => true
  | PStr s, PStr t => String.eqb s t
  | PList xs, PList ys =>
      (fix all2 (xs ys : list pyval) : bool :=
         match xs, ys with
         | [], [] => true
         | x :: xs', y :: ys' => py_eq x y && all2 xs' ys'
         | _, _ => false
         end) xs ys
  | PDict d1, PDict d2 =>
      Nat.eqb (length d1) (length d2)
      && (fix sub (d : list (string * pyval)) : bool :=
            match d with
            | [] => true
            | (k, v) :: d' =>
                match dict_get k d2 with
                | Some v' => py_eq v v'
                | None => false
                end && sub d'
            end) d1
  | _, _ =>
      match num_of a, num_of b with
      | Some m, Some n => Z.eqb m n
      | _, _ => false
      end
  end.

(** [x in l]. *)
Definition py_in (x : pyval) (l : list pyval) : bool := existsb (py_eq x) l.

(** The decimal digits of an integer. *)
Definition decimal (n : Z) : string := NilZero.string_of_int (Z.to_int n).

(** The interpreter turns no integer of more than [max_str_digits]
    decimal digits into text
    ([sys.int_info.default_max_str_digits]): the integers it converts
    are those below [str_limit] in absolute value. *)
Definition max_str_digits : Z := 4300.

Definition str_limit : Z := 10 ^ max_str_digits.
Arguments str_limit : simpl never.

(** [repr] of a string, for code points below 256. *)
Definition hex_digit (n : nat) : ascii :=
  match nth_error (list_ascii_of_string "0123456789abcdef") n with
  | Some c => c
  | None => "0"%char
  end.

Definition hex2 (c : ascii) : string :=
  let n := nat_of_ascii c in
  String (hex_digit (n / 16)) (String (hex_digit (n mod 16)) "").

Definition printable (c : ascii) : bool :=
  let n := nat_of_ascii c in
  if Nat.ltb n 32 then false
  else if Nat.ltb n 127 then true
  else if Nat.leb n 160 then false
  else negb (Nat.eqb n 173).

Fixpoint contains_char (c : ascii) (s : string) : bool :=
  match s with
  | EmptyString => false
  | String c' s' => Ascii.eqb c c' || contains_char c s'
  end.

Definition double_quote : ascii := ascii_of_nat 34.

Definition nul : ascii := ascii_of_nat 0.

Definition quote_of (s : string) : ascii :=
  if contains_char "'"%char s && negb (contains_char double_quote s)
  then double_quote else "'"%char.

Definition escape_char (q c : ascii) : string :=
  let n := nat_of_ascii c in
  if Ascii.eqb c q || Ascii.eqb c "\"%char then String "\"%char (String c "")
  else if Nat.eqb n 9 then "\t"
  else if Nat.eqb n 10 then "\n"
  else if Nat.eqb n 13 then "\r"
  else if printable c then String c ""
  else "\x" ++ hex2 c.

Fixpoint escape (q : ascii) (s : string) : string :=
  match s with
  | EmptyString => ""
  | String c s' => escape_char q c ++ escape q s'
  end.

Definition repr_str (s : string) : string :=
  let q := quote_of s in
  String q (escape q s ++ String q "").

(** [", ".join(parts)]. *)
Fixpoint join (sep : string) (parts : list string) : string :=
  match parts with
  | [] => ""
  | [p] => p
  | p :: rest => p ++ sep ++ join sep rest
  end.

(** What [repr(v)] writes when it writes something. *)
Fixpoint repr_text (v : pyval) : string :=
  match v with
  | PNone => "None"
  | PStr s => repr_str s
  | PInt n => decimal n
  | PBool b => if b then "True" else "False"
  | PList xs => "[" ++ join ", " (map repr_text xs) ++ "]"
  | PDict kvs =>
      "{" ++ join ", " (map (fun kv : string * pyval =>
                              let (k, x) := kv in repr_str k ++ ": " ++ repr_text x) kvs)
          ++ "}"
  end.

(** What [str(v)] writes when it writes something. *)
Definition str_text (v : pyval) : string :=
  match v with
  | PStr s => s
  | _ => repr_text v
  end.

(** Whether [v] can be written: every integer in it, however deep, is
    within the limit. *)
Fixpoint renders (v : pyval) : bool :=
  match v with
  | PInt n => (Z.abs n <? str_limit)%Z
  | PList xs => forallb renders xs
  | PDict kvs => forallb (fun kv : string * pyval => let (_, x) := kv in renders x) kvs
  | _ => true
  end.

(** [repr(v)]. *)
Definition py_repr (v : pyval) : result string :=
  if renders v then Ok (repr_text v) else Err ValueError.

(** [str(v)], which is also what an f-string writes for [{v}]. *)
Definition py_str (v : pyval) : result string :=
  if renders v then Ok (str_text v) else Err ValueError.

(** [list(v)]: the elements of a sequence, the keys of a mapping, the
    characters of a string; a [TypeError] on anything else. *)
Fixpoint chars (s : string) : list pyval :=
  match s with
  | EmptyString => []
  | String c s' => PStr (String c "") :: chars s'
  end.

Definition py_list (v : pyval) : result (list pyval) :=
  match v with
  | PStr s => Ok (chars s)
  | PList xs => Ok xs
  | PDict kvs => Ok (map PStr (keys kvs))
  | _ => Err TypeError
  end.

(** [str(type(v))]. *)
Definition type_name (v : pyval) : string :=
  match v with
  | PNone => "NoneType"
  | PStr _ => "str"
  | PInt _ => "int"
  | PBool _ => "bool"
  | PList _ => "list"
  | PDict _ => "dict"
  end.

Definition str_of_type (v : pyval) : string := "<class '" ++ type_name v ++ "'>".

(** *** Effects *)

(** The calls that reach outside the process. *)
Inductive event : Type :=
| IsFile (path : string)
| Subprocess (argv : list token).

Definition M (A : Type) : Type := list event * result A.

Definition ret {A} (a : A) : M A := ([], Ok a).

Definition raise {A} (e : exn) : M A := ([], Err e).

Definition lift {A} (r : result A) : M A := ([], r).

Definition bind {A B} (m : M A) (k : A -> M B) : M B :=
  match m with
  | (tr, Ok a) => let (tr', r) := k a in ((tr ++ tr')%list, r)
  | (tr, Err e) => (tr, Err e)
  end.

Definition emit (ev : event) : M unit := ([ev], Ok tt).

(** [assert c]. *)
Definition assert (c : bool) : M unit :=
  if c then ret tt else raise AssertionError.

(** [try: m  except AssertionError: raise E(msg)]; the message is built
    in the handler, and building it may raise. *)
Definition except_assertion {A} (m : M A) (E : string -> exn) (msg : result string)
  : M A :=
  match m with
  | (tr, Err AssertionError) => (tr, raise_with E msg)
  | _ => m
  end.

(** [for i in xs: body(i)], with the value the loop variable holds when
    the loop is left, by its end or by an exception; [i] is its value
    before the loop. *)
Fixpoint for_in (xs : list pyval) (i : pyval) (body : pyval -> M unit)
  : pyval * M unit :=
  match xs with
  | [] => (i, ret tt)
  | x :: rest =>
      match body x with
      | (tr, Ok _) =>
          let '(i', (tr', r)) := for_in rest x body in (i', ((tr ++ tr')%list, r))
      | (tr, Err e) => (x, (tr, Err e))
      end
  end.

End Py.

Import Py.

Declare Scope py_scope.
Delimit Scope py_scope with py.
Notation "x <- m ;; k" := (bind m (fun x => k))
  (at level 61, m at next level, right associativity) : py_scope.
Notation "m ;; k" := (bind m (fun _ => k))
  (at level 61, right associativity) : py_scope.
Notation "x <-? r ;; k" := (rbind r (fun x => k))
  (at level 61, r at next level, right associativity) : py_scope.
Notation "' pat <-? r ;; k" := (rbind r (fun x => match x with pat => k end))
  (at level 61, pat pattern, r at next level, right associativity) : py_scope.
Local Open Scope py_scope.

(* ------------------------------------------------------------------ *)
(** ** Regular expressions: the part of [re] the sources use *)

Module Re.

Inductive regex : Type :=
| Void
| Eps
| Class (p : ascii -> bool)
| Cat (r1 r2 : regex)
| Alt (r1 r2 : regex)
| Star (r : regex).

Definition Plus (r : regex) : regex := Cat r (Star r).

Fixpoint Lit (s : string) : regex :=
  match s with
  | EmptyString => Eps
  | String c s' => Cat (Class (Ascii.eqb c)) (Lit s')
  end.

(** [.] without [re.DOTALL]: any character but the line feed. *)
Definition Dot : regex := Class (fun c => negb (Ascii.eqb c (ascii_of_nat 10))).

Definition Any : regex := Class (fun _ => true).

(** [\s] on a [str] pattern is [str.isspace]: below 256 that is
    9..13, 28..32, 133 and 160. *)
Definition is_space (c : ascii) : bool :=
  let n := nat_of_ascii c in
  (Nat.leb 9 n && Nat.leb n 13) || (Nat.leb 28 n && Nat.leb n 32)
  || Nat.eqb n 133 || Nat.eqb n 160.

(** [\S]. *)
Definition NonSpace : regex := Class (fun c => negb (is_space c)).

Fixpoint nullable (r : regex) : bool :=
  match r with
  | Void => false
  | Eps => true
  | Class _ => false
  | Cat r1 r2 => nullable r1 && nullable r2
  | Alt r1 r2 => nullable r1 || nullable r2
  | Star _ => true
  end.

Fixpoint deriv (c : ascii) (r : regex) : regex :=
  match r with
  | Void => Void
  | Eps => Void
  | Class p => if p c then Eps else Void
  | Cat r1 r2 =>
      if nullable r1 then Alt (Cat (deriv c r1) r2) (deriv c r2)
      else Cat (deriv c r1) r2
  | Alt r1 r2 => Alt (deriv c r1) (deriv c r2)
  | Star r1 => Cat (deriv c r1) (Star r1)
  end.

(** [re.fullmatch(r, s) is not None]. *)
Fixpoint fullmatch (r : regex) (s : string) : bool :=
  match s with
  | EmptyString => nullable r
  | String c s' => fullmatch (deriv c r) s'
  end.

(** [re.search(r, s) is not None]: some substring of [s] is in the
    language of [r]. *)
Definition search_str (r : regex) (s : string) : bool :=
  fullmatch (Cat (Star Any) (Cat r (Star Any))) s.

(** [re.search(r, t)] as a truth value; anything but a string is a
    [TypeError]. *)
Definition search (r : regex) (t : token) : result bool :=
  match t with
  | PStr s => Ok (search_str r s)
  | _ => Err TypeError
  end.

End Re.
(* ------------------------------------------------------------------ *)
(** ** cli.py *)

Module Cli.

(** What [subprocess.run] hands back; the exit status belongs to the
    external tool and is not modelled here. *)
Record CompletedProcess : Type := { args : list token }.

(** Why a token cannot be handed to the operating system: it is not a
    string ([TypeError]), or it is a string with a NUL character in it
    ([ValueError]). *)
Definition arg_error (t : token) : option exn :=
  match t with
  | PStr s => if contains_char nul s then Some ValueError else None
  | _ => Some TypeError
  end.

(** The exception of the first token that cannot be handed over. *)
Fixpoint argv_error (argv : list token) : option exn :=
  match argv with
  | [] => None
  | t :: rest =>
      match arg_error t with
      | Some e => Some e
      | None => argv_error rest
      end
  end.

(** [subprocess.run(argv)]: the tokens are converted in order before
    the process is started; an empty command has no program name. *)
Definition subprocess_run (argv : list token) : M CompletedProcess :=
  match argv with
  | [] => raise IndexError
  | _ :: _ =>
      match argv_error argv with
      | Some e => raise e
      | None => emit (Subprocess argv) ;; ret {| args := argv |}
      end
  end.

(** The classes used as keys of a default mapping. *)
Inductive class_ : Type := Str | Iterable | Dict | Object.

Definition isinstance (var : pyval) (c : class_) : bool :=
  match c with
  | Str => is_str var
  | Iterable => is_iterable var
  | Dict => is_dict var
  | Object => true
  end.

Definition rule : Type := pyval -> result (list token).

(** [DefaultMapping]: from a class, or [None], to a rule, in insertion
    order. *)
Definition DefaultMapping : Type := list (option class_ * rule).

(** [CLI.default_vars]: the loop over the keys of [default_mapping];
    each key comes with the rule stored under it. *)
Fixpoint default_vars (var : pyval) (default_mapping : DefaultMapping)
  : result (list token) :=
  match default_mapping with
  | [] => Err (Exception_ ("Default not defined for type " ++ str_of_type var))
  | (type_, f) :: rest =>
      match type_ with
      | Some c => if isinstance var c then f var else default_vars var rest
      | None => if is_none var then f var else default_vars var rest
      end
  end.

(** [CLI.default_var]. *)
Definition default_var (var : pyval) (default : list token) : result (list token) :=
  let default_mapping : DefaultMapping :=
    [ (Some Str, fun x => Ok [x]);
      (Some Iterable, fun x => py_list x);
      (None, fun x => Ok default);
      (Some Object, fun x => s <-? py_str x ;; Ok [PStr s]) ] in
  default_vars var default_mapping.

(** [CLI.format_op_args]. *)
Definition format_op_args (op : string) (arg : pyval) : result (list token) :=
  if is_none arg then Ok []
  else if is_str arg then Ok [PStr op; arg]
  else if is_iterable arg then (l <-? py_list arg ;; Ok (PStr op :: l))
  else (s <-? py_str arg ;; Ok [PStr op; PStr s]).

(** [CLI.format_option]. *)
Definition format_option (options : pyval) (option : string) (default : list token)
  : result (list token) :=
  v <-? get options option ;;
  Ok (if truthy v then [PStr option] else default).

(** The abstract methods and the class attribute that [run] uses. *)
Class CLI (T : Type) : Type := {
  empty_command : list token;
  prepare_command : T -> M (list token);
  validate_input : T -> M unit;
  validate_output : T -> M unit;
  validate_operators : T -> M unit;
  validate_options : T -> M unit;
  test_args_empty : T -> bool
}.
Arguments empty_command T {CLI}.

(** [CLI.run]. *)
Definition run {T} `{CLI T} (self : T) : M CompletedProcess :=
  if test_args_empty self then subprocess_run (empty_command T)
  else
    validate_input self ;;
    validate_output self ;;
    validate_operators self ;;
    validate_options self ;;
    command <- prepare_command self ;;
    subprocess_run command.

End Cli.

(* ------------------------------------------------------------------ *)
(** ** utils.py *)

Module Utils.

(** The loop of [flatten] over [arg_map.keys()]. *)
Fixpoint flatten_loop (arg_map : pyval) (ks : list string) (flattened : list token)
  : result (list token) :=
  match ks with
  | [] => Ok flattened
  | key :: rest =>
      v <-? getitem arg_map key ;;
      flatten_loop arg_map rest (flattened ++ [PStr ("-" ++ key); v])%list
  end.

(** [flatten]. *)
Definition flatten (arg_map : pyval) : result (list token) :=
  let flattened := [] in
  if negb (is_none arg_map) then
    kvs <-? items arg_map ;;
    flatten_loop arg_map (keys kvs) flattened
  else Ok flattened.

End Utils.

(* ------------------------------------------------------------------ *)
(** ** pdftk.py *)

Module Pdftk.

Import Cli.

Record PDFTK : Type := {
  windows : bool;
  input : list token;
  output : list token;
  input_pw : list token;
  operation : list token;
  operation_arguments : list token;
  allow : list token;
  owner_pw : list token;
  user_pw : list token;
  encrypt : list token;
  flatten : list token;
  need_appearances : list token;
  compress : list token;
  uncompress : list token;
  keep_first_id : list token;
  keep_final_id : list token;
  drop_xfa : list token;
  verbose : list token;
  ask : list token
}.

Definition PDFTKOperators : Type :=
  list token * list token * list token * list token * list token * list token.

Definition PDFTKOptions : Type :=
  list token * list token * list token * list token * list token * list token
  * list token * list token * list token * list token.

(** [PDFTK.format_input_vars]. *)
Definition format_input_vars (var : pyval) : result (list token) :=
  let default_mapping : DefaultMapping :=
    [ (Some Str, fun x => Ok [x]);
      (Some Iterable, fun x => py_list x);
      (Some Dict, fun x =>
         kvs <-? items x ;;
         rmap (fun kv : string * pyval =>
                 let (k, v) := kv in s <-? py_str v ;; Ok (PStr (k ++ "=" ++ s)))
              kvs);
      (None, fun x => Ok []);
      (Some Object, fun x => s <-? py_str x ;; Ok [PStr s]) ] in
  default_vars var default_mapping.

(** [PDFTK.format_ask]. *)
Definition format_ask (ask : pyval) : list token :=
  if truthy ask then [PStr "ask"] else [PStr "dont_ask"].

(** [PDFTK.format_encrypt]. *)
Definition format_encrypt (encrypt : pyval) : result (list token) :=
  if is_none encrypt then Ok []
  else if py_eq encrypt (PInt 40) then Ok [PStr "encrypt_40bit"]
  else if py_eq encrypt (PInt 128) then Ok [PStr "encrypt_128bit"]
  else raise_with Exception_
         (s <-? py_str encrypt ;;
          Ok ("Invalid encrypt option " ++ s ++ ". " ++ "Value must be 40 or 128")).

(** [PDFTK.assign_input]. *)
Definition assign_input (input_ : pyval) : result (list token) :=
  if negb (is_none input_) then format_input_vars input_ else Ok [].

(** [PDFTK.assign_output]. *)
Definition assign_output (output : pyval) : result (list token) :=
  if negb (is_none output) then format_op_args "output" output else Ok [].

(** [PDFTK.assign_operators]. *)
Definition assign_operators (operators : pyval) : result PDFTKOperators :=
  if is_none operators then Ok ([], [], [], [], [], [])
  else
    v1 <-? get operators "input_pw" ;;
    t1 <-? format_input_vars v1 ;;
    v2 <-? get operators "operation" ;;
    t2 <-? default_var v2 [] ;;
    v3 <-? get operators "operation_arguments" ;;
    t3 <-? default_var v3 [] ;;
    v4 <-? get operators "allow" ;;
    t4 <-? format_op_args "allow" v4 ;;
    v5 <-? get operators "owner_pw" ;;
    t5 <-? format_op_args "owner_pw" v5 ;;
    v6 <-? get operators "user_pw" ;;
    t6 <-? format_op_args "user_pw" v6 ;;
    Ok (t1, t2, t3, t4, t5, t6).

(** [PDFTK.assign_options]. *)
Definition assign_options (options : pyval) : result PDFTKOptions :=
  if is_none options then Ok ([], [], [], [], [], [], [], [], [], [])
  else
    v1 <-? get options "encrypt" ;;
    t1 <-? format_encrypt v1 ;;
    t2 <-? format_option options "flatten" [] ;;
    t3 <-? format_option options "need_appearances" [] ;;
    t4 <-? format_option options "compress" [] ;;
    t5 <-? format_option options "uncompress" [] ;;
    t6 <-? format_option options "drop_xfa" [] ;;
    t7 <-? format_option options "keep_first_id" [] ;;
    t8 <-? format_option options "keep_final_id" [] ;;
    t9 <-? format_option options "verbose" [] ;;
    v10 <-? get options "ask" ;;
    Ok (t1, t2, t3, t4, t5, t6, t7, t8, t9, format_ask v10).

(** [PDFTK.__init__]: the two tuples are unpacked by position. *)
Definition __init__ (input_ output operators options : pyval) (windows : bool)
  : result PDFTK :=
  self_input <-? assign_input input_ ;;
  self_output <-? assign_output output ;;
  ' (self_input_pw,
     self_operation,
     self_operation_arguments,
     self_allow,
     self_owner_pw,
     self_user_pw) <-? assign_operators operators ;;
  ' (self_encrypt,
     self_flatten,
     self_need_appearances,
     self_compress,
     self_uncompress,
     self_keep_first_id,
     self_keep_final_id,
     self_drop_xfa,
     self_verbose,
     self_ask) <-? assign_options options ;;
  Ok {| windows := windows;
        input := self_input;
        output := self_output;
        input_pw := self_input_pw;
        operation := self_operation;
        operation_arguments := self_operation_arguments;
        allow := self_allow;
        owner_pw := self_owner_pw;
        user_pw := self_user_pw;
        encrypt := self_encrypt;
        flatten := self_flatten;
        need_appearances := self_need_appearances;
        compress := self_compress;
        uncompress := self_uncompress;
        keep_first_id := self_keep_first_id;
        keep_final_id := self_keep_final_id;
        drop_xfa := self_drop_xfa;
        verbose := self_verbose;
        ask := self_ask |}.

(** The pattern [r'.+\.pdf|PROMPT']. *)
Definition output_pattern : Re.regex :=
  Re.Alt (Re.Cat (Re.Plus Re.Dot) (Re.Lit ".pdf")) (Re.Lit "PROMPT").

(** The pattern [r'\S+']. *)
Definition pw_pattern : Re.regex := Re.Plus Re.NonSpace.

Definition newline : string := String (ascii_of_nat 10) "".

Definition allowable_ops : list pyval :=
  map PStr
    [ "cat"; "shuffle"; "burst"; "rotate"; "generate_fdf"; "fill_form";
      "background"; "multibackground"; "stamp"; "multistamp"; "dump_data";
      "dump_data_utf8"; "dump_data_fields"; "dump_data_fields_utf8";
      "dump_data_anots"; "update_info"; "update_info_utf8"; "attach_files";
      "unpack_files" ].

Definition allowable : list pyval :=
  map PStr
    [ "allow"; "Printing"; "DegradedPrinting"; "ModifyContents"; "Assembly";
      "CopyContents"; "ScreenReaders"; "ModifyAnnotations"; "FillIn";
      "AllFeatures" ].

Section Validation.

(** The state of the file system, as [os.path.isfile] sees it. *)
Variable isfile : string -> bool.

(** [isfile(p)]; the sources call it on strings only. *)
Definition os_path_isfile (p : pyval) : M bool :=
  match p with
  | PStr s => emit (IsFile s) ;; ret (isfile s)
  | _ => raise TypeError
  end.

(** [PDFTK.validate_input]. *)
Definition validate_input (self : PDFTK) : M unit :=
  let '(i, block) :=
    for_in (input self) PNone (fun i =>
      assert (isinstance i Str) ;;
      found <- os_path_isfile i ;;
      assert (found || py_eq i (PStr "PROMPT"))) in
  except_assertion block ValidationError
    (s <-? py_str i ;; Ok ("Invalid input value: " ++ s)).

(** [PDFTK.validate_output]. *)
Definition validate_output (self : PDFTK) : M unit :=
  if truthy (PList (output self)) then
    let '(i, block) :=
      for_in (tl (output self)) PNone (fun i =>
        m <- lift (Re.search output_pattern i) ;;
        assert m ;;
        assert (negb (py_in i (input self)))) in
    except_assertion block ValidationError
      (s <-? py_str i ;; Ok ("Invalid output value: " ++ s))
  else ret tt.

(** [PDFTK.validate_operation]. *)
Definition validate_operation (self : PDFTK) : M unit :=
  except_assertion
    (match operation self with
     | [] => ret tt
     | op0 :: _ =>
         assert (Nat.eqb (length (operation self)) 1) ;;
         assert (py_in op0 allowable_ops)
     end)
    ValidationError
    (given <-? py_str (PList (operation self)) ;;
     allowed <-? py_str (PList allowable_ops) ;;
     Ok ("Invalid operation: " ++ given ++ newline
         ++ "Operation must be in " ++ allowed)).

(** [PDFTK.validate_operation_args]. *)
Definition validate_operation_args (self : PDFTK) : M unit := ret tt.

(** [PDFTK.validate_permissions]. *)
Definition validate_permissions (self : PDFTK) : M unit :=
  let not_in_allowable := filter (fun i => negb (py_in i allowable)) (allow self) in
  except_assertion
    (assert (Nat.eqb (length not_in_allowable) 0))
    ValidationError
    (refused <-? py_str (PList not_in_allowable) ;;
     allowed <-? py_str (PList allowable) ;;
     Ok ("Invalid permission(s): " ++ refused ++ newline
         ++ "Permission must be in " ++ allowed)).

(** [PDFTK.validate_pw]. *)
Definition validate_pw (pw_type : string) (pw : list token) : M unit :=
  except_assertion
    (match pw with
     | [] => ret tt
     | pw0 :: _ =>
         m <- lift (Re.search pw_pattern pw0) ;;
         assert m
     end)
    ValidationError
    (s <-? py_str (PList pw) ;; Ok ("Invalid " ++ pw_type ++ ": " ++ s)).

(** [PDFTK.validate_pws]. *)
Definition validate_pws (self : PDFTK) : M unit :=
  validate_pw "input_pw" (input_pw self) ;;
  validate_pw "owner_pw" (owner_pw self) ;;
  validate_pw "user_pw" (user_pw self).

(** [PDFTK.validate_operators]. *)
Definition validate_operators (self : PDFTK) : M unit :=
  validate_operation self ;;
  validate_operation_args self ;;
  validate_permissions self ;;
  validate_pws self.

(** [PDFTK.validate_option]. *)
Definition validate_option (option : list token) (valid : list string) : M unit :=
  except_assertion
    (match option with
     | [] => ret tt
     | option0 :: _ => assert (py_in option0 (map PStr valid))
     end)
    ValidationError
    (s <-? py_str (PList option) ;; Ok ("Invalid option " ++ s)).

(** [PDFTK.validate_options]. *)
Definition validate_options (self : PDFTK) : M unit :=
  validate_option (encrypt self) ["encrypt_40bit"; "encrypt_128bit"] ;;
  validate_option (flatten self) ["flatten"] ;;
  validate_option (need_appearances self) ["need_appearances"] ;;
  validate_option (compress self) ["compress"] ;;
  validate_option (uncompress self) ["uncompress"] ;;
  validate_option (keep_first_id self) ["keep_first_id"] ;;
  validate_option (keep_final_id self) ["keep_final_id"] ;;
  validate_option (drop_xfa self) ["drop_xfa"] ;;
  validate_option (ask self) ["ask"; "dont_ask"].

(** [PDFTK.test_args_empty]. *)
Definition test_args_empty (self : PDFTK) : bool :=
  is_empty (input self) && is_empty (output self) && is_empty (operation self).

(** [PDFTK.prepare_command]. *)
Definition prepare_command (self : PDFTK) : list token :=
  let command :=
    ([PStr "pdftk"]
     ++ input self
     ++ input_pw self
     ++ operation self
     ++ operation_arguments self
     ++ output self
     ++ encrypt self
     ++ allow self
     ++ owner_pw self
     ++ user_pw self
     ++ flatten self
     ++ need_appearances self
     ++ compress self
     ++ uncompress self
     ++ keep_first_id self
     ++ keep_final_id self
     ++ drop_xfa self
     ++ verbose self
     ++ ask self)%list in
  command.

#[export] Instance PDFTK_CLI : CLI PDFTK := {
  empty_command := [PStr "pdftk"; PStr "--version"];
  prepare_command := fun self => ret (prepare_command self);
  validate_input := validate_input;
  validate_output := validate_output;
  validate_operators := validate_operators;
  validate_options := validate_options;
  test_args_empty := test_args_empty
}.

(** [make_command(command)], the function behind [cat], [burst] and
    the other shortcuts: it stores the operation and its arguments in
    [operators] and runs the binding. *)
Definition make_command (command : string)
           (input_ output operators options command_args : pyval)
  : M CompletedProcess :=
  let operators := if is_none operators then PDict [] else operators in
  operators <- lift (setitem operators "operation" (PStr command)) ;;
  operators <- lift (setitem operators "operation_arguments" command_args) ;;
  self <- lift (__init__ input_ output operators options false) ;;
  run self.

Definition burst : pyval -> pyval -> pyval -> pyval -> pyval -> M CompletedProcess :=
  make_command "burst".

End Validation.

End Pdftk.

(* ------------------------------------------------------------------ *)
(** ** magick.py *)

Module Magick.

Import Cli.

Record Magick : Type := {
  windows : bool;
  input : list token;
  output : list token;
  pre_image_settings : list token;
  post_image_settings : list token
}.

(** [Magick.assign_input]. *)
Definition assign_input (input_ : pyval) : result (list token) :=
  default_var input_ [].

(** [Magick.assign_output]. *)
Definition assign_output (output : pyval) : list token :=
  if negb (is_none output) then [output] else [].

(** The generator inside [Magick.get_settings]: the pairs
    [(k, str(v["value"]))] of the items that pass the filter. *)
Fixpoint settings_of (its : list (string * pyval)) (position : string)
  : result (list (string * pyval)) :=
  match its with
  | [] => Ok []
  | (k, v) :: rest =>
      type_ <-? getitem v "type" ;;
      keep <-? (if py_eq type_ (PStr "setting")
                then (pos <-? getitem v "position" ;; Ok (py_eq pos (PStr position)))
                else Ok false) ;;
      if keep : bool then
        value <-? getitem v "value" ;;
        s <-? py_str value ;;
        more <-? settings_of rest position ;;
        Ok ((k, PStr s) :: more)
      else settings_of rest position
  end.

(** [Magick.get_settings]. *)
Definition get_settings (operators : pyval) (position : string) : result pyval :=
  its <-? items operators ;;
  pairs <-? settings_of its position ;;
  Ok (PDict (dict_of_pairs pairs)).

(** [Magick.assign_operators]. *)
Definition assign_operators (operators : pyval) : result (list token * list token) :=
  if negb (is_none operators) then
    pre_image_settings <-? get_settings operators "pre" ;;
    post_image_settings <-? get_settings operators "post" ;;
    flat_pre <-? Utils.flatten pre_image_settings ;;
    flat_post <-? Utils.flatten post_image_settings ;;
    Ok (flat_pre, flat_post)
  else Ok ([], []).

(** [Magick.__init__]; [options] is accepted and not used. *)
Definition __init__ (input_ output operators options : pyval) (windows : bool)
  : result Magick :=
  self_input <-? assign_input input_ ;;
  let self_output := assign_output output in
  ' (self_pre_image_settings,
     self_post_image_settings) <-? assign_operators operators ;;
  Ok {| windows := windows;
        input := self_input;
        output := self_output;
        pre_image_settings := self_pre_image_settings;
        post_image_settings := self_post_image_settings |}.

(** [Magick.prepare_command]. *)
Definition prepare_command (self : Magick) : list token :=
  ([PStr "magick"]
   ++ pre_image_settings self
   ++ input self
   ++ post_image_settings self
   ++ output self)%list.

(** [Magick.test_args_empty]. *)
Definition test_args_empty (self : Magick) : bool :=
  is_empty (pre_image_settings self)
  && is_empty (input self)
  && is_empty (post_image_settings self)
  && is_empty (output self).

(** The four validation methods have the body [...]. *)
#[export] Instance Magick_CLI : CLI Magick := {
  empty_command := [PStr "magick"; PStr "-version"];
  prepare_command := fun self => ret (prepare_command self);
  validate_input := fun _ => ret tt;
  validate_output := fun _ => ret tt;
  validate_operators := fun _ => ret tt;
  validate_options := fun _ => ret tt;
  test_args_empty := test_args_empty
}.

Definition setting (position : string) (value : pyval) : pyval :=
  PDict [("type", PStr "setting"); ("position", PStr position); ("value", value)].

(** The function [magick]. *)
Definition magick (input_ output density type_ compress background alpha depth : pyval)
  : M CompletedProcess :=
  let operators :=
    PDict [ ("density", setting "pre" density);
            ("type", setting "post" type_);
            ("compress", setting "post" compress);
            ("background", setting "post" background);
            ("alpha", setting "post" alpha);
            ("depth", setting "post" depth) ] in
  self <- lift (__init__ input_ output operators PNone false) ;;
  run self.

End Magick.

(* ------------------------------------------------------------------ *)
(** ** tesseract.py *)

Module Tesseract.

Import Cli.

Record Tesseract : Type := {
  windows : bool;
  input : list token;
  output : list token;
  options : list token;
  config_file : list token
}.

(** [Tesseract.assign_input]. *)
Definition assign_input (input_ : pyval) : result (list token) :=
  default_var input_ [].

(** [Tesseract.assign_output]. *)
Definition assign_output (output : pyval) : list token :=
  if negb (is_none output) then [output] else [].

(** [Tesseract.assign_operators]. *)
Definition assign_operators (operators : pyval) : result (list token) :=
  flat <-? Utils.flatten operators ;;
  default_var (PList flat) [].

(** [Tesseract.assign_options]. *)
Definition assign_options (options : pyval) : result (list token) :=
  default_var options [].

(** [Tesseract.__init__]. *)
Definition __init__ (input_ output operators options : pyval) (windows : bool)
  : result Tesseract :=
  self_input <-? assign_input input_ ;;
  let self_output := assign_output output in
  self_options <-? assign_operators operators ;;
  self_config_file <-? assign_options options ;;
  Ok {| windows := windows;
        input := self_input;
        output := self_output;
        options := self_options;
        config_file := self_config_file |}.

(** [Tesseract.prepare_command]. *)
Definition prepare_command (self : Tesseract) : list token :=
  ([PStr "tesseract"]
   ++ input self
   ++ output self
   ++ options self
   ++ config_file self)%list.

(** [Tesseract.test_args_empty]. *)
Definition test_args_empty (self : Tesseract) : bool :=
  is_empty (input self)
  && is_empty (output self)
  && is_empty (options self)
  && is_empty (config_file self).

(** The four validation methods have the body [...]. *)
#[export] Instance Tesseract_CLI : CLI Tesseract := {
  empty_command := [PStr "tesseract"; PStr "--version"];
  prepare_command := fun self => ret (prepare_command self);
  validate_input := fun _ => ret tt;
  validate_output := fun _ => ret tt;
  validate_operators := fun _ => ret tt;
  validate_options := fun _ => ret tt;
  test_args_empty := test_args_empty
}.

(** The function [tesseract]. *)
Definition tesseract (input output format : pyval) : M CompletedProcess :=
  self <- lift (__init__ input output (PDict [("l", PStr "eng")]) format false) ;;
  run self.

End Tesseract.

(* ------------------------------------------------------------------ *)
(** ** utils.py ([check_output]) and pdf_to_text.py *)

Module Pipeline.

Import Cli.

(** How a child process ended: with an exit status, or killed by a
    signal; both numbers fit a byte. *)
Inductive ending : Type :=
| Exited (status : Byte.byte)
| Killed (signal : Byte.byte).

(** [proc.returncode]: the exit status, or minus the number of the
    signal. *)
Definition returncode_of (e : ending) : Z :=
  match e with
  | Exited status => Z.of_N (Byte.to_N status)
  | Killed signal => - Z.of_N (Byte.to_N signal)
  end.

(** What the pipeline asks of the outside world during one run: whether
    a path is a file, how a command ends, the paths a glob pattern
    matches, whether a file can be opened for writing, whether the text
    written to it reaches it, whether a path can be removed.  One run
    asks each question once, so the answers are functions of the
    question. *)
Record world : Type := {
  isfile : string -> bool;
  exit : list token -> ending;
  glob : string -> list string;
  opens : string -> bool;
  stores : string -> string -> bool;
  removable : string -> bool
}.

Definition returncode (w : world) (argv : list token) : Z :=
  returncode_of (exit w argv).

(** The calls that reach outside the process: those of the command
    layer, and the file operations of the script. *)
Inductive step : Type :=
| Cli (ev : event)
| Open (path : string)
| Glob (pattern : string)
| Write (path content : string)
| Remove (path : string).

(** Modelled from the spec: [OutputError] is declared in the module
    [exceptions], which is not among the sources; the spec has it as
    the failure raised when a tool ends with a non-zero exit status.
    [Raised] is an exception of the command layer or of a builtin,
    [OSError] the failure of a file operation on [path] (the path is a
    directory, the permission is missing, the disk is full). *)
Inductive failure : Type :=
| Raised (e : exn)
| OutputError (msg : string)
| OSError (path : string).

Inductive outcome (A : Type) : Type :=
| Done (a : A)
| Failed (f : failure).
Arguments Done {A} a.
Arguments Failed {A} f.

Definition P (A : Type) : Type := list step * outcome A.

Definition pret {A} (a : A) : P A := ([], Done a).

Definition pbind {A B} (m : P A) (k : A -> P B) : P B :=
  match m with
  | (tr, Done a) => let (tr', r) := k a in ((tr ++ tr')%list, r)
  | (tr, Failed f) => (tr, Failed f)
  end.

(** A call into the command layer. *)
Definition call {A} (m : M A) : P A :=
  (map Cli (fst m),
   match snd m with
   | Ok a => Done a
   | Err e => Failed (Raised e)
   end).

(** A file operation: the call is made, and fails when the outside
    world refuses it. *)
Definition file_op (st : step) (path : string) (allowed : bool) : P unit :=
  ([st], if allowed then Done tt else Failed (OSError path)).

(** [repr] of a [CompletedProcess] whose streams were not captured. *)
Definition repr_process (proc : CompletedProcess) (code : Z) : result string :=
  command <-? py_repr (PList (args proc)) ;;
  status <-? py_repr (PInt code) ;;
  Ok ("CompletedProcess(args=" ++ command ++ ", returncode=" ++ status ++ ")").

(** [s[:-k]] for a positive [k]. *)
Definition drop_last (k : nat) (s : string) : string :=
  substring 0 (String.length s - k) s.

Section Run.

Variable w : world.

(** [utils.check_output]. *)
Definition check_output (proc : CompletedProcess) : P unit :=
  if Z.eqb (returncode w (args proc)) 0 then pret tt
  else
    match repr_process proc (returncode w (args proc)) with
    | Ok s => ([], Failed (OutputError ("Invalid output: " ++ s)))
    | Err e => ([], Failed (Raised e))
    end.

(** [burst_pdf]; [signature] is the value of
    [int(random.random() * 100000000)]. *)
Definition burst_pdf (signature : Z) (pdf : pyval) : P string :=
  pbind (call (lift (py_str (PInt signature)))) (fun n =>
  pbind (call (Pdftk.burst (isfile w) pdf (PStr ("tmp" ++ n ++ "_%04d.pdf"))
                 PNone PNone PNone))
        (fun proc =>
  pbind (check_output proc) (fun _ =>
  pbind (call (lift (py_str (PInt signature)))) (fun n' =>
  pret ("tmp" ++ n' ++ "*.pdf"))))).

(** [tiff_pages]. *)
Definition tiff_pages (pages : string) : P string :=
  let tiff_file := drop_last 5 pages ++ "_%04d.tiff" in
  pbind (call (Magick.magick (PStr pages) (PStr tiff_file)
                 (PInt 300) (PStr "Grayscale") (PStr "lzw") (PStr "white")
                 (PStr "off") (PInt 8)))
        (fun proc =>
  pbind (check_output proc) (fun _ =>
  pret (drop_last 5 pages ++ "*.tiff"))).

(** [make_tess_list]: [list_file] is opened for writing, then every
    matched name is written on a line of its own; what is written
    reaches the file when it is closed. *)
Definition make_tess_list (files_glob list_file : string) : P unit :=
  pbind (file_op (Open list_file) list_file (opens w list_file)) (fun _ =>
  pbind ([Glob files_glob], Done tt) (fun _ =>
  let content :=
    String.concat "" (map (fun fname => fname ++ Pdftk.newline)
                          (glob w files_glob)) in
  file_op (Write list_file content) list_file (stores w list_file content))).

(** [tess_pages]. *)
Definition tess_pages (tiffs : string) (file_format output : pyval) : P string :=
  let fname_file := drop_last 6 tiffs ++ ".txt" in
  pbind (make_tess_list tiffs fname_file) (fun _ =>
  pbind (call (Tesseract.tesseract (PStr fname_file) output file_format))
        (fun proc =>
  pbind (check_output proc) (fun _ =>
  pret (drop_last 10 tiffs ++ "*")))).

(** The loop of [clean_up]: [os.remove] on each path, up to the first
    one that cannot be removed. *)
Fixpoint remove_each (paths : list string) : P unit :=
  match paths with
  | [] => pret tt
  | f :: rest =>
      pbind (file_op (Remove f) f (removable w f)) (fun _ => remove_each rest)
  end.

(** [clean_up] on a string: neither [glob] nor [os.remove] raises a
    [TypeError] on one, and the handler catches nothing else. *)
Definition clean_up (files : string) : P unit :=
  pbind ([Glob files], Done tt) (fun _ => remove_each (glob w files)).

(** [main]; [argv] is [sys.argv]. *)
Definition main (signature : Z) (argv : list string) : P Z :=
  match firstn 3 (skipn 1 argv) with
  | [in_file; out_file; file_format] =>
      pbind (burst_pdf signature (PStr in_file)) (fun pages =>
      pbind (tiff_pages pages) (fun tiffed =>
      pbind (tess_pages tiffed (PStr file_format) (PStr out_file)) (fun tessed =>
      pbind (clean_up tessed) (fun _ =>
      pret 0%Z))))
  | _ => ([], Failed (Raised ValueError))
  end.

End Run.

End Pipeline.

(* ------------------------------------------------------------------ *)
(** * Vocabulary of the properties *)

Import Cli.

(** ** Shape dispatch *)


(** An integer that [str] refuses: one of more than 4300 digits. *)
Definition beyond_limit (var : pyval) : bool :=
  match var with
  | PInt n => negb (Z.abs n <? str_limit)%Z
  | _ => false
  end.

(** ** Commands *)

(** A command [subprocess.run] starts: it has a program name and all
    its tokens are strings without a NUL character. *)
Definition proper (t : token) : bool :=
  match arg_error t with
  | None => true
  | Some _ => false
  end.

Definition startable (argv : list token) : bool :=
  negb (is_empty argv) && forallb proper argv.

(** ** Option and operator groups *)

(** The group a presence flag gives. *)
Definition option_tokens (opts : pydict) (option : string) : list token :=
  if truthy (dict_get_or_none opts option) then [PStr option] else [].

(** The message of the exception [format_encrypt] raises. *)
Definition encrypt_message (v : pyval) : string :=
  "Invalid encrypt option " ++ str_text v ++ ". " ++ "Value must be 40 or 128".

(** The two tokens of one entry. *)
Definition pair_tokens (kv : string * pyval) : list token :=
  [PStr ("-" ++ fst kv); snd kv].

(** What [d["value"]] holds, [None] standing for a missing key. *)
Definition value_of (d : pyval) : pyval :=
  match getitem d "value" with
  | Ok x => x
  | Err _ => PNone
  end.

(** The filter of [get_settings]. *)
Definition is_setting_at (position : string) (d : pyval) : bool :=
  match getitem d "type", getitem d "position" with
  | Ok t, Ok p => py_eq t (PStr "setting") && py_eq p (PStr position)
  | _, _ => false
  end.

(** A descriptor [{type: "setting", position: "pre"|"post", value}];
    the order of its keys, and further keys, do not matter. *)
Definition descriptor (d : pyval) : Prop :=
  getitem d "type" = Ok (PStr "setting")
  /\ (getitem d "position" = Ok (PStr "pre")
      \/ getitem d "position" = Ok (PStr "post"))
  /\ exists value, getitem d "value" = Ok value.

(** The settings at [position], in insertion order, each value as a
    string. *)
Definition settings_at (position : string) (ops : pydict) : pydict :=
  map (fun kv => (fst kv, PStr (str_text (value_of (snd kv)))))
      (filter (fun kv => is_setting_at position (snd kv)) ops).

(** Whether the values of the settings at [position] can all be
    written. *)
Definition settings_render (position : string) (ops : pydict) : bool :=
  forallb (fun kv => renders (value_of (snd kv)))
          (filter (fun kv => is_setting_at position (snd kv)) ops).

(** [-name value] for each of them. *)
Definition setting_tokens (position : string) (ops : pydict) : list token :=
  flat_map pair_tokens (settings_at position ops).

(** ** Validation of the PDF binding *)

(** An input token the binding accepts: a string that names an existing
    file or is the sentinel. *)
Definition acceptable (isfile : string -> bool) (t : token) : bool :=
  match t with
  | PStr s => isfile s || String.eqb s "PROMPT"
  | _ => false
  end.

(** The calls of [isfile] made while the tokens are checked in order:
    one per string, up to the first token that is refused. *)
Fixpoint probes (isfile : string -> bool) (l : list token) : list event :=
  match l with
  | PStr s :: rest =>
      IsFile s :: (if acceptable isfile (PStr s) then probes isfile rest else [])
  | _ => []
  end.

(** The body of the loop of [validate_input]. *)
Definition check_input (isfile : string -> bool) (i : pyval) : M unit :=
  assert (isinstance i Str) ;;
  found <- Pdftk.os_path_isfile isfile i ;;
  assert (found || py_eq i (PStr "PROMPT")).


(** The health check of the PDF binding. *)
Definition health_check : list token := [PStr "pdftk"; PStr "--version"].

(** The six values [assign_operators] reads from a mapping. *)
Definition operator_values (ops : pydict) : list pyval :=
  map (dict_get_or_none ops)
      ["input_pw"; "operation"; "operation_arguments"; "allow"; "owner_pw"; "user_pw"].

(** The tokens of a [pdftk] command before and after the encryption
    flag. *)
Definition before_encrypt (self : Pdftk.PDFTK) : list token :=
  ([PStr "pdftk"] ++ Pdftk.input self ++ Pdftk.input_pw self
   ++ Pdftk.operation self ++ Pdftk.operation_arguments self
   ++ Pdftk.output self)%list.

Definition after_encrypt (self : Pdftk.PDFTK) : list token :=
  (Pdftk.allow self ++ Pdftk.owner_pw self ++ Pdftk.user_pw self
   ++ Pdftk.flatten self ++ Pdftk.need_appearances self ++ Pdftk.compress self
   ++ Pdftk.uncompress self ++ Pdftk.keep_first_id self
   ++ Pdftk.keep_final_id self ++ Pdftk.drop_xfa self ++ Pdftk.verbose self
   ++ Pdftk.ask self)%list.

(** The three groups [test_args_empty] looks at. *)
Definition no_work (self : Pdftk.PDFTK) : Prop :=
  Pdftk.input self = [] /\ Pdftk.output self = [] /\ Pdftk.operation self = [].

(** ** Patterns *)

(** The language of a pattern. *)
Inductive Matches : Re.regex -> string -> Prop :=
| MEps : Matches Re.Eps ""
| MClass (p : ascii -> bool) (c : ascii) :
    p c = true -> Matches (Re.Class p) (String c "")
| MCat (r1 r2 : Re.regex) (s1 s2 : string) :
    Matches r1 s1 -> Matches r2 s2 -> Matches (Re.Cat r1 r2) (s1 ++ s2)
| MAltL (r1 r2 : Re.regex) (s : string) :
    Matches r1 s -> Matches (Re.Alt r1 r2) s
| MAltR (r1 r2 : Re.regex) (s : string) :
    Matches r2 s -> Matches (Re.Alt r1 r2) s
| MStarNil (r : Re.regex) : Matches (Re.Star r) ""
| MStarCons (r : Re.regex) (s1 s2 : string) :
    Matches r s1 -> Matches (Re.Star r) s2 -> Matches (Re.Star r) (s1 ++ s2).

Definition line_feed : ascii := ascii_of_nat 10.

(** Only white space, the empty string included. *)
Fixpoint blank (s : string) : bool :=
  match s with
  | EmptyString => true
  | String c s' => Re.is_space c && blank s'
  end.

(** ** Sample invocations *)

(** A file system without files. *)
Definition no_files : string -> bool := fun _ => false.

Definition logins : pydict := [("A", PStr "foopass"); ("B", PStr "barpass")].

Definition density_and_depth : pydict :=
  [ ("density", Magick.setting "pre" (PInt 300));
    ("depth", Magick.setting "post" (PInt 8)) ].

(** [PDFTK("missing.pdf", "report.txt")]. *)
Definition missing_and_wrong_extension : Pdftk.PDFTK :=
  {| Pdftk.windows := false;
     Pdftk.input := [PStr "missing.pdf"];
     Pdftk.output := [PStr "output"; PStr "report.txt"];
     Pdftk.input_pw := []; Pdftk.operation := [];
     Pdftk.operation_arguments := []; Pdftk.allow := [];
     Pdftk.owner_pw := []; Pdftk.user_pw := []; Pdftk.encrypt := [];
     Pdftk.flatten := []; Pdftk.need_appearances := [];
     Pdftk.compress := []; Pdftk.uncompress := [];
     Pdftk.keep_first_id := []; Pdftk.keep_final_id := [];
     Pdftk.drop_xfa := []; Pdftk.verbose := []; Pdftk.ask := [] |}.

(** [PDFTK(operators={"owner_pw": "secret"},
    options={"flatten": True, "ask": True})]. *)
Definition options_only : Pdftk.PDFTK :=
  {| Pdftk.windows := false;
     Pdftk.input := []; Pdftk.output := [];
     Pdftk.input_pw := []; Pdftk.operation := [];
     Pdftk.operation_arguments := []; Pdftk.allow := [];
     Pdftk.owner_pw := [PStr "owner_pw"; PStr "secret"];
     Pdftk.user_pw := []; Pdftk.encrypt := [];
     Pdftk.flatten := [PStr "flatten"]; Pdftk.need_appearances := [];
     Pdftk.compress := []; Pdftk.uncompress := [];
     Pdftk.keep_first_id := []; Pdftk.keep_final_id := [];
     Pdftk.drop_xfa := []; Pdftk.verbose := [];
     Pdftk.ask := [PStr "ask"] |}.



(** [PDFTK("PROMPT", options={"drop_xfa": True})]. *)
Definition with_drop_xfa : Pdftk.PDFTK :=
  {| Pdftk.windows := false;
     Pdftk.input := [PStr "PROMPT"]; Pdftk.output := [];
     Pdftk.input_pw := []; Pdftk.operation := [];
     Pdftk.operation_arguments := []; Pdftk.allow := [];
     Pdftk.owner_pw := []; Pdftk.user_pw := []; Pdftk.encrypt := [];
     Pdftk.flatten := []; Pdftk.need_appearances := [];
     Pdftk.compress := []; Pdftk.uncompress := [];
     Pdftk.keep_first_id := [PStr "drop_xfa"]; Pdftk.keep_final_id := [];
     Pdftk.drop_xfa := []; Pdftk.verbose := [];
     Pdftk.ask := [PStr "dont_ask"] |}.

Definition all_flags : pyval :=
  PDict [ ("flatten", PBool true); ("need_appearances", PBool true);
          ("compress", PBool true); ("uncompress", PBool true);
          ("keep_first_id", PBool true); ("keep_final_id", PBool true);
          ("drop_xfa", PBool true); ("verbose", PBool true) ].

Definition blank_owner_password : pyval :=
  PDict [ ("operation", PStr "cat"); ("owner_pw", PStr "   ");
          ("user_pw", PStr "") ].

(** [PDFTK(input_, output)] for two strings. *)
Definition pdf_self (input_ output : string) : Pdftk.PDFTK :=
  {| Pdftk.windows := false;
     Pdftk.input := [PStr input_];
     Pdftk.output := [PStr "output"; PStr output];
     Pdftk.input_pw := []; Pdftk.operation := [];
     Pdftk.operation_arguments := []; Pdftk.allow := [];
     Pdftk.owner_pw := []; Pdftk.user_pw := []; Pdftk.encrypt := [];
     Pdftk.flatten := []; Pdftk.need_appearances := [];
     Pdftk.compress := []; Pdftk.uncompress := [];
     Pdftk.keep_first_id := []; Pdftk.keep_final_id := [];
     Pdftk.drop_xfa := []; Pdftk.verbose := []; Pdftk.ask := [] |}.

(* ------------------------------------------------------------------ *)
(** * Properties *)

(** ** Conversion to text *)

Section Text.


Lemma hundred_million_below_limit : (100000000 <= str_limit)%Z.
Proof.
  change 100000000%Z with (10 ^ 8)%Z. unfold str_limit.
  apply Z.pow_le_mono_r; [lia|discriminate].
Qed.


Lemma small_int_renders (n : Z) :
  (Z.abs n < 100000000)%Z -> renders (PInt n) = true.
Proof.
  intros Hn. unfold renders. apply Z.ltb_lt.
  pose proof hundred_million_below_limit. lia.
Qed.


Lemma py_str_of_str (s : string) : py_str (PStr s) = Ok s.
Proof. reflexivity. Qed.

(** A list of strings can always be written. *)
Lemma strings_render (names : list string) : renders (PList (map PStr names)) = true.
Proof. induction names as [|name names IH]; [reflexivity|exact IH]. Qed.


End Text.

(** ** Exceptions *)

Section Exceptions.

Lemma raise_with_not_ok {A} (E : string -> exn) (msg : result string) (a : A) :
  raise_with E msg <> Ok a.
Proof. destruct msg; discriminate. Qed.

(** The handler of [except_assertion] only replaces an
    [AssertionError]; a block that ends well is left as it is. *)
Lemma except_assertion_ok {A} (m : M A) (E : string -> exn) (msg : result string)
      (t : list event) (a : A) :
  except_assertion m E msg = (t, Ok a) <-> m = (t, Ok a).
Proof.
  destruct m as [tr [x|e]]; simpl; [tauto|].
  destruct e; simpl; split; try discriminate.
  intros H. inversion H as [[Ht Hr]]. destruct (raise_with_not_ok _ _ _ Hr).
Qed.

Lemma except_assertion_outcome {A} (t : list event) (r : result A)
      (E : string -> exn) (msg : result string) :
  except_assertion (t, r) E msg
  = (t, match r with
        | Err AssertionError => raise_with E msg
        | _ => r
        end).
Proof. destruct r as [a|[]]; reflexivity. Qed.

Lemma except_assertion_trace {A} (m : M A) (E : string -> exn)
      (msg : result string) :
  fst (except_assertion m E msg) = fst m.
Proof. destruct m as [t r]. rewrite except_assertion_outcome. reflexivity. Qed.


End Exceptions.

(** ** Shape dispatch ([default_vars]) *)

Section Dispatch.








End Dispatch.





(** The outcome of the three formatters, by the value they get. *)
Lemma default_var_outcome (var : pyval) (default : list token) :
  if beyond_limit var
  then default_var var default = Err ValueError
  else exists tokens, default_var var default = Ok tokens.
Proof.
  destruct var as [|s|n|b|xs|kvs]; unfold default_var, beyond_limit; simpl;
    unfold py_str; simpl; try (eexists; reflexivity).
  destruct (Z.abs n <? str_limit)%Z; simpl; eauto.
Qed.

Lemma format_input_vars_outcome (var : pyval) :
  if beyond_limit var
  then Pdftk.format_input_vars var = Err ValueError
  else exists tokens, Pdftk.format_input_vars var = Ok tokens.
Proof.
  destruct var as [|s|n|b|xs|kvs]; unfold Pdftk.format_input_vars, beyond_limit; simpl;
    unfold py_str; simpl; try (eexists; reflexivity).
  destruct (Z.abs n <? str_limit)%Z; simpl; eauto.
Qed.

Lemma format_op_args_outcome (op : string) (arg : pyval) :
  if beyond_limit arg
  then format_op_args op arg = Err ValueError
  else exists tokens, format_op_args op arg = Ok tokens.
Proof.
  destruct arg as [|s|n|b|xs|kvs]; unfold format_op_args, beyond_limit; simpl;
    unfold py_str; simpl; try (eexists; reflexivity).
  destruct (Z.abs n <? str_limit)%Z; simpl; eauto.
Qed.



(** ** Mappings given as PDF input *)

Lemma format_input_vars_dict (kvs : pydict) :
  Pdftk.format_input_vars (PDict kvs) = Ok (map PStr (keys kvs)).
Proof. reflexivity. Qed.

(** The rule stored under [dict] is dead: dropping it changes nothing. *)
Lemma format_input_vars_without_dict_rule (var : pyval) :
  Pdftk.format_input_vars var
  = default_vars var
      [ (Some Str, fun x => Ok [x]);
        (Some Iterable, fun x => py_list x);
        (None, fun x => Ok []);
        (Some Object, fun x => s <-? py_str x ;; Ok [PStr s]) ].
Proof. destruct var; reflexivity. Qed.

(** What a successful construction says about each of its steps. *)
Lemma init_inv (input_ output operators options : pyval) (w : bool)
      (self : Pdftk.PDFTK) :
  Pdftk.__init__ input_ output operators options w = Ok self ->
  Pdftk.assign_input input_ = Ok (Pdftk.input self)
  /\ Pdftk.assign_output output = Ok (Pdftk.output self)
  /\ Pdftk.assign_operators operators
     = Ok (Pdftk.input_pw self, Pdftk.operation self,
           Pdftk.operation_arguments self, Pdftk.allow self,
           Pdftk.owner_pw self, Pdftk.user_pw self)
  /\ Pdftk.assign_options options
     = Ok (Pdftk.encrypt self, Pdftk.flatten self, Pdftk.need_appearances self,
           Pdftk.compress self, Pdftk.uncompress self, Pdftk.keep_first_id self,
           Pdftk.keep_final_id self, Pdftk.drop_xfa self, Pdftk.verbose self,
           Pdftk.ask self).
Proof.
  unfold Pdftk.__init__. intros H.
  destruct (Pdftk.assign_input input_) as [i|]; simpl in H; [|discriminate].
  destruct (Pdftk.assign_output output) as [o|]; simpl in H; [|discriminate].
  destruct (Pdftk.assign_operators operators) as [[[[[[? ?] ?] ?] ?] ?]|];
    simpl in H; [|discriminate].
  destruct (Pdftk.assign_options options) as [[[[[[[[[[? ?] ?] ?] ?] ?] ?] ?] ?] ?]|];
    simpl in H; [|discriminate].
  inversion H; subst; simpl. auto.
Qed.

Ltac step_rbind H :=
  match type of H with
  | rbind ?r _ = Ok _ =>
      let E := fresh "E" in
      destruct r eqn:E; simpl in H; [|discriminate]
  end.

Lemma assign_operators_inv (ops : pydict) (t1 t2 t3 t4 t5 t6 : list token) :
  Pdftk.assign_operators (PDict ops) = Ok (t1, t2, t3, t4, t5, t6) ->
  Pdftk.format_input_vars (dict_get_or_none ops "input_pw") = Ok t1
  /\ default_var (dict_get_or_none ops "operation") [] = Ok t2
  /\ default_var (dict_get_or_none ops "operation_arguments") [] = Ok t3
  /\ format_op_args "allow" (dict_get_or_none ops "allow") = Ok t4
  /\ format_op_args "owner_pw" (dict_get_or_none ops "owner_pw") = Ok t5
  /\ format_op_args "user_pw" (dict_get_or_none ops "user_pw") = Ok t6.
Proof.
  unfold Pdftk.assign_operators. simpl is_none. cbv iota. unfold get. simpl rbind.
  intros H. repeat step_rbind H. inversion H; subst. repeat split; assumption.
Qed.

Lemma format_option_dict (opts : pydict) (option : string) :
  format_option (PDict opts) option [] = Ok (option_tokens opts option).
Proof. reflexivity. Qed.

(** The tuple [assign_options] returns, entry by entry, in the order
    in which it lists them. *)
Lemma assign_options_inv (opts : pydict)
      (t1 t2 t3 t4 t5 t6 t7 t8 t9 t10 : list token) :
  Pdftk.assign_options (PDict opts) = Ok (t1, t2, t3, t4, t5, t6, t7, t8, t9, t10) ->
  Pdftk.format_encrypt (dict_get_or_none opts "encrypt") = Ok t1
  /\ t2 = option_tokens opts "flatten"
  /\ t3 = option_tokens opts "need_appearances"
  /\ t4 = option_tokens opts "compress"
  /\ t5 = option_tokens opts "uncompress"
  /\ t6 = option_tokens opts "drop_xfa"
  /\ t7 = option_tokens opts "keep_first_id"
  /\ t8 = option_tokens opts "keep_final_id"
  /\ t9 = option_tokens opts "verbose"
  /\ t10 = Pdftk.format_ask (dict_get_or_none opts "ask").
Proof.
  unfold Pdftk.assign_options. simpl is_none. cbv iota.
  rewrite !format_option_dict. unfold get. simpl rbind.
  intros H. step_rbind H. inversion H; subst. repeat split; auto.
Qed.

Lemma assign_input_outcome (input_ : pyval) :
  if beyond_limit input_
  then Pdftk.assign_input input_ = Err ValueError
  else exists tokens, Pdftk.assign_input input_ = Ok tokens.
Proof.
  pose proof (format_input_vars_outcome input_) as H.
  unfold Pdftk.assign_input. destruct input_; simpl in *; eauto.
Qed.

Lemma assign_output_outcome (output : pyval) :
  if beyond_limit output
  then Pdftk.assign_output output = Err ValueError
  else exists tokens, Pdftk.assign_output output = Ok tokens.
Proof.
  pose proof (format_op_args_outcome "output" output) as H.
  unfold Pdftk.assign_output. destruct output; simpl in *; eauto.
Qed.

(** [assign_operators] on a mapping fails exactly when one of the six
    entries it reads is an integer beyond the limit. *)
Lemma assign_operators_outcome (ops : pydict) :
  if existsb beyond_limit (operator_values ops)
  then Pdftk.assign_operators (PDict ops) = Err ValueError
  else exists tuple, Pdftk.assign_operators (PDict ops) = Ok tuple.
Proof.
  unfold Pdftk.assign_operators, operator_values. simpl is_none. cbv iota.
  unfold get. simpl rbind. simpl existsb.
  pose proof (format_input_vars_outcome (dict_get_or_none ops "input_pw")) as H1.
  pose proof (default_var_outcome (dict_get_or_none ops "operation") []) as H2.
  pose proof (default_var_outcome (dict_get_or_none ops "operation_arguments") [])
    as H3.
  pose proof (format_op_args_outcome "allow" (dict_get_or_none ops "allow")) as H4.
  pose proof (format_op_args_outcome "owner_pw" (dict_get_or_none ops "owner_pw"))
    as H5.
  pose proof (format_op_args_outcome "user_pw" (dict_get_or_none ops "user_pw"))
    as H6.
  destruct (beyond_limit (dict_get_or_none ops "input_pw"));
    [rewrite H1; reflexivity|destruct H1 as [t1 ->]].
  destruct (beyond_limit (dict_get_or_none ops "operation"));
    [rewrite H2; reflexivity|destruct H2 as [t2 ->]].
  destruct (beyond_limit (dict_get_or_none ops "operation_arguments"));
    [rewrite H3; reflexivity|destruct H3 as [t3 ->]].
  destruct (beyond_limit (dict_get_or_none ops "allow"));
    [rewrite H4; reflexivity|destruct H4 as [t4 ->]].
  destruct (beyond_limit (dict_get_or_none ops "owner_pw"));
    [rewrite H5; reflexivity|destruct H5 as [t5 ->]].
  destruct (beyond_limit (dict_get_or_none ops "user_pw"));
    [rewrite H6; reflexivity|destruct H6 as [t6 ->]].
  simpl. eauto.
Qed.

(** What [assign_operators] can raise. *)
Lemma assign_operators_error (operators : pyval) (e : exn) :
  Pdftk.assign_operators operators = Err e ->
  (e = AttributeError /\ is_none operators || is_dict operators = false)
  \/ (e = ValueError
      /\ exists ops, operators = PDict ops
                     /\ existsb beyond_limit (operator_values ops) = true).
Proof.
  destruct operators as [|s|n|b|xs|ops]; intros H;
    try (left; split; [inversion H|]; reflexivity); [discriminate|].
  right. pose proof (assign_operators_outcome ops) as Hout.
  destruct (existsb beyond_limit (operator_values ops)) eqn:Hbig.
  - split; [congruence|]. exists ops. auto.
  - destruct Hout as [tuple Hok]. congruence.
Qed.

(** C10. A mapping supplied as the PDF binding's input, or as its
    [input_pw] operator, becomes the list of its keys in insertion
    order: the mapping is caught by the [Iterable] rule, which comes
    before the [dict] rule, so no [key=value] token is built and the
    tokens do not depend on the values of the mapping. *)
Theorem mapping_input_gives_keys
        (kvs : pydict) (input_ output operators options : pyval) (ops : pydict)
        (w : bool) (self1 self2 : Pdftk.PDFTK) :
  Pdftk.__init__ (PDict kvs) output operators options w = Ok self1 ->
  Pdftk.__init__ input_ output (PDict (("input_pw", PDict kvs) :: ops)) options w
    = Ok self2 ->
  Pdftk.format_input_vars (PDict kvs) = Ok (map PStr (keys kvs))
  /\ Pdftk.input self1 = map PStr (keys kvs)
  /\ Pdftk.input_pw self2 = map PStr (keys kvs)
  /\ (forall kvs', keys kvs' = keys kvs ->
        Pdftk.format_input_vars (PDict kvs') = Pdftk.format_input_vars (PDict kvs))
  /\ (exists rest,
        Pdftk.prepare_command self1 = (PStr "pdftk" :: map PStr (keys kvs) ++ rest)%list).
Proof.
  intros H1 H2.
  destruct (init_inv _ _ _ _ _ _ H1) as (Hi & _).
  destruct (init_inv _ _ _ _ _ _ H2) as (_ & _ & Hops & _).
  destruct (assign_operators_inv _ _ _ _ _ _ _ Hops) as (Hp & _).
  change (dict_get_or_none (("input_pw", PDict kvs) :: ops) "input_pw")
    with (PDict kvs) in Hp.
  assert (Hin : Pdftk.input self1 = map PStr (keys kvs)).
  { destruct kvs; simpl in Hi; inversion Hi; reflexivity. }
  rewrite format_input_vars_dict in Hp. inversion Hp as [Hp'].
  repeat split; auto.
  - intros kvs' Hk. rewrite !format_input_vars_dict, Hk. reflexivity.
  - unfold Pdftk.prepare_command. rewrite Hin. simpl. eexists. reflexivity.
Qed.

Lemma mapping_input_gives_keys_witness :
  let self1 :=
    {| Pdftk.windows := false;
       Pdftk.input := [PStr "A"; PStr "B"]; Pdftk.output := [];
       Pdftk.input_pw := []; Pdftk.operation := [];
       Pdftk.operation_arguments := []; Pdftk.allow := [];
       Pdftk.owner_pw := []; Pdftk.user_pw := []; Pdftk.encrypt := [];
       Pdftk.flatten := []; Pdftk.need_appearances := [];
       Pdftk.compress := []; Pdftk.uncompress := [];
       Pdftk.keep_first_id := []; Pdftk.keep_final_id := [];
       Pdftk.drop_xfa := []; Pdftk.verbose := []; Pdftk.ask := [] |} in
  Pdftk.__init__ (PDict logins) PNone PNone PNone false = Ok self1
  /\ Pdftk.input self1 = [PStr "A"; PStr "B"]
  /\ Pdftk.prepare_command self1 = [PStr "pdftk"; PStr "A"; PStr "B"].
Proof.
  intros self1.
  assert (H1 : Pdftk.__init__ (PDict logins) PNone PNone PNone false = Ok self1)
    by reflexivity.
  assert (H2 : Pdftk.__init__ PNone PNone (PDict [("input_pw", PDict logins)])
                 PNone false
               = Ok {| Pdftk.windows := false;
                       Pdftk.input := []; Pdftk.output := [];
                       Pdftk.input_pw := [PStr "A"; PStr "B"];
                       Pdftk.operation := [];
                       Pdftk.operation_arguments := []; Pdftk.allow := [];
                       Pdftk.owner_pw := []; Pdftk.user_pw := [];
                       Pdftk.encrypt := [];
                       Pdftk.flatten := []; Pdftk.need_appearances := [];
                       Pdftk.compress := []; Pdftk.uncompress := [];
                       Pdftk.keep_first_id := []; Pdftk.keep_final_id := [];
                       Pdftk.drop_xfa := []; Pdftk.verbose := [];
                       Pdftk.ask := [] |})
    by reflexivity.
  destruct (mapping_input_gives_keys logins PNone PNone PNone PNone [] false _ _ H1 H2)
    as (_ & Hin & _).
  split; [exact H1|]. split; [exact Hin|reflexivity].
Defined.

(** ** Encryption level *)

Lemma py_eq_int_40 (v : pyval) : py_eq v (PInt 40) = true -> v = PInt 40.
Proof.
  destruct v; simpl; try discriminate.
  - intros H. apply Z.eqb_eq in H. congruence.
  - destruct b; discriminate.
Qed.

Lemma py_eq_int_128 (v : pyval) : py_eq v (PInt 128) = true -> v = PInt 128.
Proof.
  destruct v; simpl; try discriminate.
  - intros H. apply Z.eqb_eq in H. congruence.
  - destruct b; discriminate.
Qed.

Lemma format_encrypt_other (v : pyval) :
  v <> PNone -> v <> PInt 40 -> v <> PInt 128 ->
  Pdftk.format_encrypt v
  = if renders v then Err (Exception_ (encrypt_message v)) else Err ValueError.
Proof.
  intros Hn H40 H128. unfold Pdftk.format_encrypt.
  destruct (is_none v) eqn:En; [destruct v; try discriminate; congruence|].
  destruct (py_eq v (PInt 40)) eqn:E40; [apply py_eq_int_40 in E40; congruence|].
  destruct (py_eq v (PInt 128)) eqn:E128; [apply py_eq_int_128 in E128; congruence|].
  unfold py_str, encrypt_message. destruct (renders v); reflexivity.
Qed.

(** The values [format_encrypt] accepts, and what it raises on the
    others. *)
Lemma format_encrypt_outcome (v : pyval) :
  (v = PNone /\ Pdftk.format_encrypt v = Ok [])
  \/ (v = PInt 40 /\ Pdftk.format_encrypt v = Ok [PStr "encrypt_40bit"])
  \/ (v = PInt 128 /\ Pdftk.format_encrypt v = Ok [PStr "encrypt_128bit"])
  \/ (v <> PNone /\ v <> PInt 40 /\ v <> PInt 128
      /\ Pdftk.format_encrypt v
         = if renders v then Err (Exception_ (encrypt_message v))
           else Err ValueError).
Proof.
  destruct (is_none v) eqn:En.
  { left. destruct v; try discriminate. auto. }
  destruct (py_eq v (PInt 40)) eqn:E40.
  { right. left. apply py_eq_int_40 in E40. subst. auto. }
  destruct (py_eq v (PInt 128)) eqn:E128.
  { right. right. left. apply py_eq_int_128 in E128. subst. auto. }
  right. right. right.
  assert (Hn : v <> PNone) by (intros ->; discriminate).
  assert (H40 : v <> PInt 40) by (intros ->; discriminate).
  assert (H128 : v <> PInt 128) by (intros ->; discriminate).
  auto using format_encrypt_other.
Qed.

Lemma assign_options_result (opts : pydict) :
  Pdftk.assign_options (PDict opts)
  = (t1 <-? Pdftk.format_encrypt (dict_get_or_none opts "encrypt") ;;
     Ok (t1, option_tokens opts "flatten", option_tokens opts "need_appearances",
         option_tokens opts "compress", option_tokens opts "uncompress",
         option_tokens opts "drop_xfa", option_tokens opts "keep_first_id",
         option_tokens opts "keep_final_id", option_tokens opts "verbose",
         Pdftk.format_ask (dict_get_or_none opts "ask"))).
Proof. reflexivity. Qed.

(** What the construction of a PDF binding can raise: never a
    [ValidationError]. *)
Lemma init_error (input_ output operators options : pyval) (w : bool) (e : exn) :
  Pdftk.__init__ input_ output operators options w = Err e ->
  e = AttributeError \/ e = ValueError
  \/ exists opts,
       options = PDict opts
       /\ e = Exception_ (encrypt_message (dict_get_or_none opts "encrypt")).
Proof.
  unfold Pdftk.__init__.
  pose proof (assign_input_outcome input_) as Hi.
  destruct (Pdftk.assign_input input_) as [i|e1];
    [|destruct (beyond_limit input_); [|destruct Hi; discriminate];
      simpl; intros H; inversion H; subst; inversion Hi; auto].
  pose proof (assign_output_outcome output) as Ho.
  destruct (Pdftk.assign_output output) as [o|e2];
    [|destruct (beyond_limit output); [|destruct Ho; discriminate];
      simpl; intros H; inversion H; subst; inversion Ho; auto].
  simpl rbind.
  destruct (Pdftk.assign_operators operators) as [[[[[[? ?] ?] ?] ?] ?]|e3] eqn:Hops.
  - simpl rbind.
    destruct options as [|s|n|b|xs|opts];
      try (simpl; intros H; inversion H; auto; fail).
    rewrite assign_options_result.
    destruct (format_encrypt_outcome (dict_get_or_none opts "encrypt"))
      as [(_ & ->)|[(_ & ->)|[(_ & ->)|(_ & _ & _ & ->)]]];
      try (simpl; discriminate).
    destruct (renders (dict_get_or_none opts "encrypt")); simpl;
      intros H; inversion H; eauto.
  - simpl. intros H. inversion H; subst.
    destruct (assign_operators_error _ _ Hops) as [(-> & _)|(-> & _)]; auto.
Qed.

Lemma init_never_validation_error
      (input_ output operators options : pyval) (w : bool) (e : exn) :
  Pdftk.__init__ input_ output operators options w = Err e ->
  is_validation_error e = false.
Proof.
  intros H. destruct (init_error _ _ _ _ _ _ H) as [->|[->|(opts & _ & ->)]];
    reflexivity.
Qed.

(** With the other arguments fit for a binding, the construction with
    an options mapping stands or falls with [format_encrypt]. *)
Lemma init_with_options
      (input_ output operators : pyval) (opts : pydict) (w : bool)
      (self0 : Pdftk.PDFTK) :
  Pdftk.__init__ input_ output operators PNone w = Ok self0 ->
  match Pdftk.format_encrypt (dict_get_or_none opts "encrypt") with
  | Ok tokens =>
      exists self,
        Pdftk.__init__ input_ output operators (PDict opts) w = Ok self
        /\ Pdftk.encrypt self = tokens
  | Err e => Pdftk.__init__ input_ output operators (PDict opts) w = Err e
  end.
Proof.
  intros H0. destruct (init_inv _ _ _ _ _ _ H0) as (Hi & Ho & Hops & _).
  unfold Pdftk.__init__. rewrite Hi, Ho, Hops. simpl rbind.
  rewrite assign_options_result.
  destruct (Pdftk.format_encrypt (dict_get_or_none opts "encrypt")); simpl;
    [eexists; split; reflexivity|reflexivity].
Qed.

Lemma prepare_command_around_encrypt (self : Pdftk.PDFTK) :
  Pdftk.prepare_command self
  = (before_encrypt self ++ Pdftk.encrypt self ++ after_encrypt self)%list.
Proof.
  unfold Pdftk.prepare_command, before_encrypt, after_encrypt.
  rewrite <- !app_assoc. reflexivity.
Qed.

(** C6. The encryption value of the options mapping reaches the binding
    and its command: the value 40 gives the single token
    [encrypt_40bit], 128 gives [encrypt_128bit], an absent value (and
    no options at all) gives no token, and the token stands in the
    command between the output and the permissions.  Any other value
    makes the construction raise an exception that is not a
    [ValidationError]: the builtin [Exception], with the value in its
    message, or, for a value that cannot be written, the [ValueError]
    of the message. *)
Theorem encrypt_level_tokens
        (v input_ output operators : pyval) (opts : pydict) (w : bool) :
  dict_get_or_none opts "encrypt" = v ->
  (forall self,
      Pdftk.__init__ input_ output operators (PDict opts) w = Ok self ->
      Pdftk.prepare_command self
      = (before_encrypt self ++ Pdftk.encrypt self ++ after_encrypt self)%list
      /\ ((v = PInt 40 /\ Pdftk.encrypt self = [PStr "encrypt_40bit"])
          \/ (v = PInt 128 /\ Pdftk.encrypt self = [PStr "encrypt_128bit"])
          \/ (v = PNone /\ Pdftk.encrypt self = [])))
  /\ (forall self0,
         Pdftk.__init__ input_ output operators PNone w = Ok self0 ->
         Pdftk.encrypt self0 = []
         /\ (v = PNone \/ v = PInt 40 \/ v = PInt 128 ->
             exists self,
               Pdftk.__init__ input_ output operators (PDict opts) w = Ok self)
         /\ (v <> PNone -> v <> PInt 40 -> v <> PInt 128 ->
             Pdftk.__init__ input_ output operators (PDict opts) w
             = if renders v then Err (Exception_ (encrypt_message v))
               else Err ValueError))
  /\ (v <> PNone -> v <> PInt 40 -> v <> PInt 128 ->
      exists e,
        Pdftk.__init__ input_ output operators (PDict opts) w = Err e
        /\ is_validation_error e = false).
Proof.
  intros Hv.
  assert (Hbuilt : forall self,
             Pdftk.__init__ input_ output operators (PDict opts) w = Ok self ->
             Pdftk.format_encrypt v = Ok (Pdftk.encrypt self)).
  { intros self Hinit. destruct (init_inv _ _ _ _ _ _ Hinit) as (_ & _ & _ & Hopt).
    apply assign_options_inv in Hopt. destruct Hopt as (He & _).
    rewrite Hv in He. exact He. }
  split; [|split].
  - intros self Hinit. split; [apply prepare_command_around_encrypt|].
    specialize (Hbuilt self Hinit).
    destruct (format_encrypt_outcome v)
      as [(-> & He)|[(-> & He)|[(-> & He)|(_ & _ & _ & He)]]];
      rewrite He in Hbuilt.
    + inversion Hbuilt. auto.
    + inversion Hbuilt. auto.
    + inversion Hbuilt. auto.
    + destruct (renders v); discriminate.
  - intros self0 H0. split; [|split].
    + destruct (init_inv _ _ _ _ _ _ H0) as (_ & _ & _ & Hopt).
      inversion Hopt. reflexivity.
    + intros Hgood. pose proof (init_with_options _ _ _ opts _ _ H0) as Hwith.
      rewrite Hv in Hwith.
      destruct (format_encrypt_outcome v)
        as [(_ & He)|[(_ & He)|[(_ & He)|(Hn & H40 & H128 & _)]]];
        try (rewrite He in Hwith; destruct Hwith as (self & Hself & _); eauto).
      destruct Hgood as [->|[->| ->]]; congruence.
    + intros Hn H40 H128.
      pose proof (init_with_options _ _ _ opts _ _ H0) as Hwith.
      rewrite Hv, (format_encrypt_other v Hn H40 H128) in Hwith.
      destruct (renders v); exact Hwith.
  - intros Hn H40 H128.
    destruct (Pdftk.__init__ input_ output operators (PDict opts) w)
      as [self|e] eqn:Hinit.
    + specialize (Hbuilt self eq_refl).
      rewrite (format_encrypt_other v Hn H40 H128) in Hbuilt.
      destruct (renders v); discriminate.
    + exists e. split; [reflexivity|].
      exact (init_never_validation_error _ _ _ _ _ _ Hinit).
Qed.

Lemma encrypt_level_tokens_witness :
  Pdftk.__init__ (PStr "in.pdf") (PStr "out.pdf") PNone
    (PDict [("encrypt", PInt 64)]) false
  = Err (Exception_ "Invalid encrypt option 64. Value must be 40 or 128")
  /\ exists self,
       Pdftk.__init__ (PStr "in.pdf") (PStr "out.pdf") PNone
         (PDict [("encrypt", PInt 128)]) false = Ok self
       /\ Pdftk.encrypt self = [PStr "encrypt_128bit"].
Proof.
  destruct (Pdftk.__init__ (PStr "in.pdf") (PStr "out.pdf") PNone PNone false)
    as [self0|e] eqn:H0; [|discriminate].
  split.
  - destruct (encrypt_level_tokens (PInt 64) (PStr "in.pdf") (PStr "out.pdf") PNone
                [("encrypt", PInt 64)] false eq_refl) as (_ & Hwith & _).
    destruct (Hwith self0 H0) as (_ & _ & Hother).
    rewrite Hother by discriminate.
    rewrite (small_int_renders 64) by (simpl; lia). reflexivity.
  - destruct (encrypt_level_tokens (PInt 128) (PStr "in.pdf") (PStr "out.pdf") PNone
                [("encrypt", PInt 128)] false eq_refl) as (Hbuilt & Hwith & _).
    destruct (Hwith self0 H0) as (_ & Hgood & _).
    destruct Hgood as (self & Hself); [auto|].
    exists self. split; [exact Hself|].
    destruct (Hbuilt self Hself) as (_ & [(H40 & _)|[(_ & He)|(Hn & _)]]);
      [discriminate|exact He|discriminate].
Defined.

(** ** Dictionaries in insertion order *)

Section Dicts.

Lemma dict_set_fresh (k : string) (v : pyval) (d : pydict) :
  ~ In k (keys d) -> dict_set k v d = (d ++ [(k, v)])%list.
Proof.
  induction d as [|[k' v'] d IH]; simpl; intros Hk; [reflexivity|].
  destruct (String.eqb_spec k k') as [->|Hne]; [tauto|].
  rewrite IH; tauto.
Qed.

Lemma fold_dict_set_distinct (l acc : pydict) :
  NoDup (keys (acc ++ l)%list) ->
  fold_left (fun d kv => dict_set (fst kv) (snd kv) d) l acc = (acc ++ l)%list.
Proof.
  revert acc. induction l as [|[k v] l IH]; intros acc Hnd; simpl.
  - now rewrite app_nil_r.
  - assert (Hfresh : ~ In k (keys acc)).
    { unfold keys in *. rewrite map_app in Hnd. simpl in Hnd.
      apply NoDup_remove_2 in Hnd. rewrite in_app_iff in Hnd. tauto. }
    rewrite (dict_set_fresh k v acc Hfresh).
    rewrite IH; rewrite <- app_assoc; simpl; [reflexivity|assumption].
Qed.

(** [dict(pairs)] keeps pairs whose keys are distinct as they are. *)
Lemma dict_of_pairs_distinct (l : pydict) : wf_dict l -> dict_of_pairs l = l.
Proof. intros H. unfold dict_of_pairs. now rewrite fold_dict_set_distinct. Qed.

Lemma dict_get_member (d : pydict) (k : string) (v : pyval) :
  wf_dict d -> In (k, v) d -> dict_get k d = Some v.
Proof.
  unfold wf_dict, keys. induction d as [|[k' v'] d IH]; simpl; [tauto|].
  intros Hnd Hin. inversion Hnd as [|? ? Hfresh Hnd']; subst.
  destruct Hin as [Heq|Hin].
  - inversion Heq; subst. now rewrite String.eqb_refl.
  - destruct (String.eqb_spec k k') as [->|Hne]; [|auto].
    exfalso. apply Hfresh. apply (in_map fst) in Hin. exact Hin.
Qed.

Lemma wf_dict_filter_map (f : string * pyval -> bool) (g : pyval -> pyval)
      (d : pydict) :
  wf_dict d -> wf_dict (map (fun kv => (fst kv, g (snd kv))) (filter f d)).
Proof.
  unfold wf_dict, keys. rewrite map_map. simpl.
  induction d as [|kv d IH]; simpl; intros Hnd; [constructor|].
  inversion Hnd as [|? ? Hfresh Hnd']; subst.
  destruct (f kv); simpl; auto.
  constructor; auto. intros Hin. apply Hfresh.
  apply in_map_iff in Hin. destruct Hin as (x & Hx & Hin).
  apply filter_In in Hin. rewrite <- Hx. apply in_map. tauto.
Qed.

End Dicts.

(** ** [flatten] *)

Lemma flatten_loop_entries (d l : pydict) (acc : list token) :
  wf_dict d -> incl l d ->
  Utils.flatten_loop (PDict d) (keys l) acc = Ok (acc ++ flat_map pair_tokens l)%list.
Proof.
  intros Hwf. revert acc. induction l as [|[k v] l IH]; intros acc Hincl; simpl.
  - now rewrite app_nil_r.
  - rewrite (dict_get_member d k v Hwf) by (apply Hincl; simpl; auto). simpl.
    rewrite IH by (intros x Hx; apply Hincl; simpl; auto).
    now rewrite <- app_assoc.
Qed.

Lemma flatten_dict (d : pydict) :
  wf_dict d -> Utils.flatten (PDict d) = Ok (flat_map pair_tokens d).
Proof.
  intros Hwf. unfold Utils.flatten. simpl.
  apply (flatten_loop_entries d d [] Hwf). apply incl_refl.
Qed.

Lemma flatten_none : Utils.flatten PNone = Ok [].
Proof. reflexivity. Qed.

(** ** Image binding *)

Lemma settings_at_cons (position k : string) (d : pyval) (ops : pydict) :
  settings_at position ((k, d) :: ops)
  = if is_setting_at position d
    then (k, PStr (str_text (value_of d))) :: settings_at position ops
    else settings_at position ops.
Proof.
  unfold settings_at. simpl. destruct (is_setting_at position d); reflexivity.
Qed.

Lemma settings_render_cons (position k : string) (d : pyval) (ops : pydict) :
  settings_render position ((k, d) :: ops)
  = if is_setting_at position d
    then renders (value_of d) && settings_render position ops
    else settings_render position ops.
Proof.
  unfold settings_render. simpl. destruct (is_setting_at position d); reflexivity.
Qed.

(** The generator of [get_settings] over descriptors: the settings at
    [position] with their values as text, unless one of those values
    cannot be written. *)
Lemma settings_of_descriptors (ops : pydict) (position : string) :
  Forall (fun kv => descriptor (snd kv)) ops ->
  Magick.settings_of ops position
  = if settings_render position ops then Ok (settings_at position ops)
    else Err ValueError.
Proof.
  induction 1 as [|[k d] ops Hd _ IH]; [reflexivity|].
  simpl in Hd. destruct Hd as (Ht & Hp & value & Hv).
  assert (Hp' : exists p, getitem d "position" = Ok (PStr p))
    by (destruct Hp; eauto).
  destruct Hp' as [p Hp'].
  rewrite settings_at_cons, settings_render_cons.
  assert (His : is_setting_at position d = String.eqb p position).
  { unfold is_setting_at. rewrite Ht, Hp'. reflexivity. }
  rewrite His. simpl. rewrite Ht, Hp'. simpl.
  destruct (String.eqb p position); simpl; [|exact IH].
  rewrite Hv. simpl. unfold value_of. rewrite Hv. unfold py_str.
  destruct (renders value); simpl; [|reflexivity].
  rewrite IH. destruct (settings_render position ops); reflexivity.
Qed.

Lemma get_settings_descriptors (ops : pydict) (position : string) :
  wf_dict ops ->
  Forall (fun kv => descriptor (snd kv)) ops ->
  Magick.get_settings (PDict ops) position
  = if settings_render position ops then Ok (PDict (settings_at position ops))
    else Err ValueError.
Proof.
  intros Hwf Hd. unfold Magick.get_settings. simpl.
  rewrite (settings_of_descriptors ops position Hd).
  destruct (settings_render position ops); [|reflexivity]. simpl.
  rewrite dict_of_pairs_distinct; [reflexivity|].
  apply (wf_dict_filter_map _ (fun v => PStr (str_text (value_of v)))). exact Hwf.
Qed.

(** C8. In the image binding, a mapping of setting names to
    descriptors is split by position, each value is turned into its
    string form and each part is flattened to [-name], value pairs in
    insertion order; the command is the tool name, the pre-image
    settings, the input tokens, the post-image settings and the output
    tokens.  The binding is built whenever every value has a string
    form; a value that has none (an integer beyond the limit of [str])
    makes the construction raise the [ValueError] of the conversion.
    For [density] (pre, 300) and [depth] (post, 8) with input [a.pdf]
    and output [a.tiff] the command is
    [magick -density 300 a.pdf -depth 8 a.tiff]. *)
Theorem magick_settings_by_position
        (ops : pydict) (input_ output options : pyval) (w : bool)
        (input_tokens : list token) :
  wf_dict ops ->
  Forall (fun kv => descriptor (snd kv)) ops ->
  default_var input_ [] = Ok input_tokens ->
  Magick.__init__ input_ output (PDict ops) options w
  = (if settings_render "pre" ops && settings_render "post" ops
     then Ok {| Magick.windows := w;
                Magick.input := input_tokens;
                Magick.output := Magick.assign_output output;
                Magick.pre_image_settings := setting_tokens "pre" ops;
                Magick.post_image_settings := setting_tokens "post" ops |}
     else Err ValueError)
  /\ (forall self,
         Magick.__init__ input_ output (PDict ops) options w = Ok self ->
         Magick.prepare_command self
         = ([PStr "magick"] ++ setting_tokens "pre" ops ++ input_tokens
            ++ setting_tokens "post" ops ++ Magick.assign_output output)%list)
  /\ (self <-? Magick.__init__ (PStr "a.pdf") (PStr "a.tiff")
                 (PDict density_and_depth) PNone false ;;
      Ok (Magick.prepare_command self))
     = Ok [ PStr "magick"; PStr "-density"; PStr "300"; PStr "a.pdf";
            PStr "-depth"; PStr "8"; PStr "a.tiff" ].
Proof.
  intros Hwf Hd Hin.
  assert (Hinit : Magick.__init__ input_ output (PDict ops) options w
                  = (if settings_render "pre" ops && settings_render "post" ops
                     then Ok {| Magick.windows := w;
                                Magick.input := input_tokens;
                                Magick.output := Magick.assign_output output;
                                Magick.pre_image_settings := setting_tokens "pre" ops;
                                Magick.post_image_settings :=
                                  setting_tokens "post" ops |}
                     else Err ValueError)).
  { unfold Magick.__init__, Magick.assign_input, Magick.assign_operators.
    rewrite Hin. simpl rbind. simpl negb. cbv iota.
    rewrite !get_settings_descriptors by assumption.
    destruct (settings_render "pre" ops); [|reflexivity].
    destruct (settings_render "post" ops); [|reflexivity]. simpl rbind.
    rewrite !flatten_dict
      by (apply (wf_dict_filter_map _ (fun v => PStr (str_text (value_of v))));
          exact Hwf).
    reflexivity. }
  split; [exact Hinit|]. split; [|reflexivity].
  intros self Hself. rewrite Hinit in Hself.
  destruct (settings_render "pre" ops && settings_render "post" ops);
    [|discriminate].
  inversion Hself; subst. reflexivity.
Qed.

Lemma magick_settings_by_position_witness :
  wf_dict density_and_depth
  /\ Forall (fun kv => descriptor (snd kv)) density_and_depth
  /\ exists self,
       Magick.__init__ (PStr "a.pdf") (PStr "a.tiff") (PDict density_and_depth)
         PNone false = Ok self
       /\ Magick.prepare_command self
          = [ PStr "magick"; PStr "-density"; PStr "300"; PStr "a.pdf";
              PStr "-depth"; PStr "8"; PStr "a.tiff" ].
Proof.
  assert (Hwf : wf_dict density_and_depth).
  { unfold wf_dict. simpl. constructor; [simpl; intuition discriminate|].
    constructor; [simpl; tauto|constructor]. }
  assert (Hd : Forall (fun kv => descriptor (snd kv)) density_and_depth).
  { constructor; [|constructor; [|constructor]]; unfold descriptor; simpl;
      repeat split; eauto. }
  split; [exact Hwf|]. split; [exact Hd|].
  destruct (magick_settings_by_position density_and_depth (PStr "a.pdf")
              (PStr "a.tiff") PNone false [PStr "a.pdf"] Hwf Hd eq_refl)
    as (Hinit & Hcmd & _).
  assert (Hrender : settings_render "pre" density_and_depth
                    && settings_render "post" density_and_depth = true)
    by reflexivity.
  rewrite Hrender in Hinit. eexists. split; [exact Hinit|].
  rewrite (Hcmd _ Hinit). reflexivity.
Defined.

(** ** The execution protocol ([run]) *)

Section Commands.

Lemma argv_error_proper (argv : list token) :
  forallb proper argv = true <-> argv_error argv = None.
Proof.
  induction argv as [|t argv IH]; simpl; [tauto|].
  unfold proper. destruct (arg_error t); simpl; [|exact IH].
  split; discriminate.
Qed.

Lemma subprocess_run_startable (argv : list token) :
  startable argv = true ->
  subprocess_run argv = ([Subprocess argv], Ok {| args := argv |}).
Proof.
  unfold startable. intros H. apply andb_true_iff in H. destruct H as [Hne Hall].
  apply argv_error_proper in Hall.
  destruct argv as [|t argv]; [discriminate|].
  unfold subprocess_run. rewrite Hall. reflexivity.
Qed.

(** A command that is not started leaves no trace; the exception is
    that of its first token that cannot be handed over. *)
Lemma subprocess_run_refused (argv : list token) :
  startable argv = false ->
  exists e,
    subprocess_run argv = ([], Err e)
    /\ ((argv = [] /\ e = IndexError)
        \/ (argv <> [] /\ (e = TypeError \/ e = ValueError))).
Proof.
  unfold startable. intros H.
  destruct argv as [|t argv]; [exists IndexError; auto|].
  simpl negb in H. rewrite andb_true_l in H.
  unfold subprocess_run.
  destruct (argv_error (t :: argv)) as [e|] eqn:He.
  - exists e. split; [reflexivity|]. right. split; [discriminate|]. clear H.
    induction (t :: argv) as [|x l IH]; simpl in He; [discriminate|].
    destruct (arg_error x) as [e'|] eqn:Hx; [|auto].
    inversion He; subst. unfold arg_error in Hx.
    destruct x; inversion Hx; auto.
    destruct (contains_char nul s); inversion Hx; auto.
  - apply argv_error_proper in He. congruence.
Qed.

Lemma subprocess_run_ok_inv (argv : list token) (t : list event)
      (done : CompletedProcess) :
  subprocess_run argv = (t, Ok done) ->
  t = [Subprocess argv] /\ done = {| args := argv |} /\ startable argv = true.
Proof.
  intros Hrun. destruct (startable argv) eqn:Hs.
  - rewrite (subprocess_run_startable argv Hs) in Hrun. inversion Hrun. auto.
  - destruct (subprocess_run_refused argv Hs) as (e & He & _). congruence.
Qed.

Lemma subprocess_run_trace (argv : list token) :
  fst (subprocess_run argv) = if startable argv then [Subprocess argv] else [].
Proof.
  destruct (startable argv) eqn:Hs.
  - rewrite (subprocess_run_startable argv Hs). reflexivity.
  - destruct (subprocess_run_refused argv Hs) as (e & -> & _). reflexivity.
Qed.

End Commands.

Section Protocol.

Context {T : Type} `{CLI T}.

Lemma run_noop (self : T) :
  test_args_empty self = true -> run self = subprocess_run (empty_command T).
Proof. intros Hn. unfold run. rewrite Hn. reflexivity. Qed.

Lemma bind_ok_inv {A B} (m : M A) (k : A -> M B) (t : list event) (b : B) :
  bind m k = (t, Ok b) ->
  exists t1 a t2, m = (t1, Ok a) /\ k a = (t2, Ok b) /\ t = (t1 ++ t2)%list.
Proof.
  destruct m as [t1 [a|e]]; simpl; [|discriminate].
  destruct (k a) as [t2 r] eqn:Hk. intros Heq. inversion Heq; subst.
  exists t1, a, t2. auto.
Qed.

(** A run that is not a no-op and completes went through every step. *)
Lemma run_completed_inv (self : T) (t : list event) (done : CompletedProcess) :
  test_args_empty self = false ->
  run self = (t, Ok done) ->
  exists t1 t2 t3 t4 t5,
    validate_input self = (t1, Ok tt)
    /\ validate_output self = (t2, Ok tt)
    /\ validate_operators self = (t3, Ok tt)
    /\ validate_options self = (t4, Ok tt)
    /\ prepare_command self = (t5, Ok (args done))
    /\ t = (t1 ++ t2 ++ t3 ++ t4 ++ t5 ++ [Subprocess (args done)])%list.
Proof.
  intros Hwork. unfold run. rewrite Hwork. intros Hrun.
  destruct (validate_input self) as [t1 [[]|e1]]; simpl in Hrun; [|discriminate].
  destruct (validate_output self) as [t2 [[]|e2]]; simpl in Hrun; [|discriminate].
  destruct (validate_operators self) as [t3 [[]|e3]]; simpl in Hrun; [|discriminate].
  destruct (validate_options self) as [t4 [[]|e4]]; simpl in Hrun; [|discriminate].
  destruct (prepare_command self) as [t5 [command|e5]]; simpl in Hrun;
    [|discriminate].
  destruct (subprocess_run command) as [t6 [done'|e6]] eqn:Hrun';
    [|discriminate].
  destruct (subprocess_run_ok_inv _ _ _ Hrun') as (-> & -> & _).
  inversion Hrun; subst. simpl.
  exists t1, t2, t3, t4, t5. repeat split.
Qed.

(** C1. For every binding and every invocation that is not a no-op,
    [run] validates the input, then the output, then the operators,
    then the options.  The first validation that raises ends the run
    with its exception: nothing of what the later validations, the
    command assembly or the subprocess would do takes place, so when
    input and output are both invalid only the input failure is
    reported.  Only after the four validations have passed is the
    assembled command handed to [subprocess.run], which starts it when
    all its tokens are proper; a run that completes has passed all
    four and started that command. *)
Theorem run_validates_in_order (self : T) :
  test_args_empty self = false ->
  (forall t1 e,
      validate_input self = (t1, Err e) -> run self = (t1, Err e))
  /\ (forall t1 t2 e,
        validate_input self = (t1, Ok tt) ->
        validate_output self = (t2, Err e) ->
        run self = ((t1 ++ t2)%list, Err e))
  /\ (forall t1 t2 t3 e,
        validate_input self = (t1, Ok tt) ->
        validate_output self = (t2, Ok tt) ->
        validate_operators self = (t3, Err e) ->
        run self = ((t1 ++ t2 ++ t3)%list, Err e))
  /\ (forall t1 t2 t3 t4 e,
        validate_input self = (t1, Ok tt) ->
        validate_output self = (t2, Ok tt) ->
        validate_operators self = (t3, Ok tt) ->
        validate_options self = (t4, Err e) ->
        run self = ((t1 ++ t2 ++ t3 ++ t4)%list, Err e))
  /\ (forall t1 t2 t3 t4 t5 command,
        validate_input self = (t1, Ok tt) ->
        validate_output self = (t2, Ok tt) ->
        validate_operators self = (t3, Ok tt) ->
        validate_options self = (t4, Ok tt) ->
        prepare_command self = (t5, Ok command) ->
        run self
        = ((t1 ++ t2 ++ t3 ++ t4 ++ t5 ++ fst (subprocess_run command))%list,
           snd (subprocess_run command))
        /\ (startable command = true ->
            run self
            = ((t1 ++ t2 ++ t3 ++ t4 ++ t5 ++ [Subprocess command])%list,
               Ok {| args := command |})))
  /\ (forall t done,
        run self = (t, Ok done) ->
        exists t1 t2 t3 t4 t5,
          validate_input self = (t1, Ok tt)
          /\ validate_output self = (t2, Ok tt)
          /\ validate_operators self = (t3, Ok tt)
          /\ validate_options self = (t4, Ok tt)
          /\ prepare_command self = (t5, Ok (args done))
          /\ t = (t1 ++ t2 ++ t3 ++ t4 ++ t5 ++ [Subprocess (args done)])%list).
Proof.
  intros Hwork. split; [|split; [|split; [|split; [|split]]]];
    try (intros t done; apply run_completed_inv; exact Hwork);
    unfold run; rewrite Hwork.
  - intros t1 e H1. rewrite H1. reflexivity.
  - intros t1 t2 e H1 H2. rewrite H1. simpl. rewrite H2. reflexivity.
  - intros t1 t2 t3 e H1 H2 H3. rewrite H1. simpl. rewrite H2. simpl.
    rewrite H3. reflexivity.
  - intros t1 t2 t3 t4 e H1 H2 H3 H4. rewrite H1. simpl. rewrite H2. simpl.
    rewrite H3. simpl. rewrite H4. reflexivity.
  - intros t1 t2 t3 t4 t5 command H1 H2 H3 H4 H5. rewrite H1. simpl.
    rewrite H2. simpl. rewrite H3. simpl. rewrite H4. simpl. rewrite H5.
    simpl.
    split; [destruct (subprocess_run command); reflexivity|].
    intros Hstart. rewrite (subprocess_run_startable command Hstart).
    reflexivity.
Qed.

End Protocol.

Lemma run_validates_in_order_witness :
  Pdftk.__init__ (PStr "missing.pdf") (PStr "report.txt") PNone PNone false
  = Ok missing_and_wrong_extension
  /\ Pdftk.test_args_empty missing_and_wrong_extension = false
  /\ Pdftk.validate_input no_files missing_and_wrong_extension
     = ([IsFile "missing.pdf"],
        Err (ValidationError "Invalid input value: missing.pdf"))
  /\ Pdftk.validate_output missing_and_wrong_extension
     = ([], Err (ValidationError "Invalid output value: report.txt"))
  /\ run (H := Pdftk.PDFTK_CLI no_files) missing_and_wrong_extension
     = ([IsFile "missing.pdf"],
        Err (ValidationError "Invalid input value: missing.pdf")).
Proof.
  assert (Hwork : Pdftk.test_args_empty missing_and_wrong_extension = false)
    by reflexivity.
  assert (Hin : Pdftk.validate_input no_files missing_and_wrong_extension
                = ([IsFile "missing.pdf"],
                   Err (ValidationError "Invalid input value: missing.pdf")))
    by reflexivity.
  split; [reflexivity|].
  split; [exact Hwork|]. split; [exact Hin|]. split; [reflexivity|].
  destruct (run_validates_in_order (H := Pdftk.PDFTK_CLI no_files)
              missing_and_wrong_extension Hwork) as (Hfirst & _).
  exact (Hfirst _ _ Hin).
Defined.

(** ** The no-op invocation of the PDF binding *)

Lemma test_args_empty_iff (self : Pdftk.PDFTK) :
  Pdftk.test_args_empty self = true <-> no_work self.
Proof.
  unfold Pdftk.test_args_empty, no_work.
  destruct (Pdftk.input self), (Pdftk.output self), (Pdftk.operation self);
    simpl; split; intros H; try discriminate; auto;
    destruct H as (? & ? & ?); discriminate.
Qed.

Section PdfNoop.

Variable isfile : string -> bool.

(** Validating a non-empty input leaves a trace or fails. *)
Lemma validate_input_silent (self : Pdftk.PDFTK) :
  Pdftk.validate_input isfile self = ([], Ok tt) -> Pdftk.input self = [].
Proof.
  unfold Pdftk.validate_input.
  destruct (for_in (Pdftk.input self) PNone _) as [i block] eqn:Hfor.
  intros H. apply except_assertion_ok in H. subst block.
  destruct (Pdftk.input self) as [|x rest]; [reflexivity|]. exfalso.
  simpl in Hfor. destruct x; simpl in Hfor; try discriminate Hfor.
  destruct (isfile s || String.eqb s "PROMPT"); simpl in Hfor.
  - destruct (for_in rest _ _) as [i' [tr' r]]. discriminate Hfor.
  - discriminate Hfor.
Qed.

Lemma py_in_allowable_ops_str (op : pyval) :
  py_in op Pdftk.allowable_ops = true -> op <> PStr "--version".
Proof. intros H ->. vm_compute in H. discriminate. Qed.

Lemma validate_operation_ok (self : Pdftk.PDFTK) (t : list event) :
  Pdftk.validate_operation self = (t, Ok tt) ->
  Pdftk.operation self = []
  \/ exists op, Pdftk.operation self = [op] /\ py_in op Pdftk.allowable_ops = true.
Proof.
  unfold Pdftk.validate_operation. rewrite except_assertion_ok.
  destruct (Pdftk.operation self) as [|op [|op' more]]; auto.
  - intros H. right. exists op. split; [reflexivity|].
    destruct (py_in op Pdftk.allowable_ops); [reflexivity|discriminate H].
  - discriminate.
Qed.

Lemma assign_output_shape (output : pyval) (tokens : list token) :
  Pdftk.assign_output output = Ok tokens ->
  tokens = [] \/ exists rest, tokens = PStr "output" :: rest.
Proof.
  unfold Pdftk.assign_output, format_op_args, py_str.
  destruct output as [|s|n|b|xs|kvs]; simpl;
    try destruct (Z.abs n <? str_limit)%Z; simpl; intros H; inversion H; eauto.
Qed.

Lemma bind_ext {A B} (m : M A) (k k' : A -> M B) :
  (forall a, k a = k' a) -> bind m k = bind m k'.
Proof. intros Hk. destruct m as [t [a|e]]; simpl; [rewrite Hk|]; reflexivity. Qed.

Lemma bind_ret {A B} (a : A) (k : A -> M B) : bind (ret a) k = k a.
Proof. unfold bind, ret. destruct (k a) as [t r]. reflexivity. Qed.

Lemma bind_lift_ok {A B} (a : A) (k : A -> M B) : bind (lift (Ok a)) k = k a.
Proof. unfold bind, lift. destruct (k a) as [t r]. reflexivity. Qed.

Lemma bind_lift_err {A B} (e : exn) (k : A -> M B) :
  bind (lift (Err e)) k = ([], Err e).
Proof. reflexivity. Qed.

(** What [run] does for a PDF binding that has work. *)
Lemma pdftk_run_work (self : Pdftk.PDFTK) :
  Pdftk.test_args_empty self = false ->
  run (H := Pdftk.PDFTK_CLI isfile) self
  = (Pdftk.validate_input isfile self ;;
     Pdftk.validate_output self ;;
     Pdftk.validate_operators self ;;
     Pdftk.validate_options self ;;
     subprocess_run (Pdftk.prepare_command self)).
Proof.
  intros Hwork. unfold run.
  change (@test_args_empty _ (Pdftk.PDFTK_CLI isfile) self)
    with (Pdftk.test_args_empty self).
  rewrite Hwork.
  change (@validate_input _ (Pdftk.PDFTK_CLI isfile) self)
    with (Pdftk.validate_input isfile self).
  change (@validate_output _ (Pdftk.PDFTK_CLI isfile) self)
    with (Pdftk.validate_output self).
  change (@validate_operators _ (Pdftk.PDFTK_CLI isfile) self)
    with (Pdftk.validate_operators self).
  change (@validate_options _ (Pdftk.PDFTK_CLI isfile) self)
    with (Pdftk.validate_options self).
  change (@prepare_command _ (Pdftk.PDFTK_CLI isfile) self)
    with (ret (Pdftk.prepare_command self)).
  repeat (apply bind_ext; intros _). apply bind_ret.
Qed.

Lemma singleton_split {A} (l1 l2 : list A) (x y : A) :
  (l1 ++ x :: l2)%list = [y] -> x = y.
Proof.
  destruct l1 as [|a [|b l1]]; simpl; intros H; inversion H; auto.
Qed.

(** C7. For a constructed PDF binding, [run] starts the health check
    [pdftk --version] and nothing else (no file probe, no validation
    failure, no assembled command) exactly when the input, output and
    operation groups are empty; the other operator groups and the
    option groups play no part in the test. *)
Theorem noop_runs_health_check
        (input_ output operators options : pyval) (w : bool)
        (self : Pdftk.PDFTK) :
  Pdftk.__init__ input_ output operators options w = Ok self ->
  (Pdftk.test_args_empty self = true <-> no_work self)
  /\ (run (H := Pdftk.PDFTK_CLI isfile) self
      = ([Subprocess health_check], Ok {| args := health_check |})
      <-> no_work self)
  /\ (~ no_work self ->
      run (H := Pdftk.PDFTK_CLI isfile) self
      = (Pdftk.validate_input isfile self ;;
         Pdftk.validate_output self ;;
         Pdftk.validate_operators self ;;
         Pdftk.validate_options self ;;
         subprocess_run (Pdftk.prepare_command self))).
Proof.
  intros Hinit. split; [apply test_args_empty_iff|]. split; [split|].
  - intros Hrun.
    destruct (Pdftk.test_args_empty self) eqn:Hempty;
      [apply test_args_empty_iff; exact Hempty|].
    exfalso.
    destruct (run_completed_inv (H := Pdftk.PDFTK_CLI isfile) self _ _ Hempty Hrun)
      as (t1 & t2 & t3 & t4 & t5 & H1 & H2 & H3 & H4 & H5 & Ht).
    simpl in H1, H2, H3, H4, H5, Ht.
    assert (t1 = []) as ->.
    { destruct t1 as [|ev t1]; [reflexivity|]. simpl in Ht.
      inversion Ht as [[Hev Hrest]].
      destruct t1, t2, t3, t4, t5; discriminate. }
    apply validate_input_silent in H1.
    inversion H5 as [[Ht5 Hcmd]]. clear H5.
    unfold Pdftk.prepare_command in Hcmd. rewrite H1 in Hcmd. simpl in Hcmd.
    unfold health_check in Hcmd. inversion Hcmd as [Hrest]. clear Hcmd.
    unfold Pdftk.validate_operators in H3.
    apply bind_ok_inv in H3. destruct H3 as (t31 & [] & t32 & Hop & _ & _).
    destruct (init_inv _ _ _ _ _ _ Hinit) as (_ & Hout & _).
    apply assign_output_shape in Hout.
    unfold Pdftk.test_args_empty in Hempty. rewrite H1 in Hempty. simpl in Hempty.
    destruct (validate_operation_ok self _ Hop) as [Hnone|(op & Hone & Hallowed)].
    + rewrite Hnone in Hempty, Hrest. simpl in Hrest.
      destruct Hout as [Hout|(rest & Hout)];
        [rewrite Hout in Hempty; discriminate|].
      rewrite Hout in Hrest.
      rewrite app_assoc in Hrest. simpl in Hrest.
      apply singleton_split in Hrest. discriminate.
    + rewrite Hone in Hrest. simpl in Hrest.
      apply singleton_split in Hrest.
      apply (py_in_allowable_ops_str op Hallowed). exact Hrest.
  - intros Hnone. apply test_args_empty_iff in Hnone.
    exact (run_noop (H := Pdftk.PDFTK_CLI isfile) self Hnone).
  - intros Hwork. apply pdftk_run_work.
    destruct (Pdftk.test_args_empty self) eqn:Hempty; [|reflexivity].
    exfalso. apply Hwork. apply test_args_empty_iff. exact Hempty.
Qed.

End PdfNoop.

Lemma noop_runs_health_check_witness :
  Pdftk.__init__ PNone PNone (PDict [("owner_pw", PStr "secret")])
    (PDict [("flatten", PBool true); ("ask", PBool true)]) false
  = Ok options_only
  /\ run (H := Pdftk.PDFTK_CLI no_files) options_only
     = ([Subprocess [PStr "pdftk"; PStr "--version"]],
        Ok {| args := [PStr "pdftk"; PStr "--version"] |}).
Proof.
  assert (Hinit : Pdftk.__init__ PNone PNone (PDict [("owner_pw", PStr "secret")])
                    (PDict [("flatten", PBool true); ("ask", PBool true)]) false
                  = Ok options_only) by reflexivity.
  split; [exact Hinit|].
  destruct (noop_runs_health_check no_files _ _ _ _ _ _ Hinit) as (_ & Hiff & _).
  apply Hiff. repeat split.
Defined.

(** ** Input validation of the PDF binding *)

Section PdfInput.

Variable isfile : string -> bool.

Lemma check_input_outcome (i : pyval) :
  check_input isfile i
  = (match i with PStr s => [IsFile s] | _ => [] end,
     if acceptable isfile i then Ok tt else Err AssertionError).
Proof.
  unfold check_input. destruct i; try reflexivity. simpl.
  destruct (isfile s || String.eqb s "PROMPT"); reflexivity.
Qed.

Lemma for_in_check_input (l : list token) (i0 : pyval) :
  exists i,
    for_in l i0 (check_input isfile)
    = (i, (probes isfile l,
           match find (fun t => negb (acceptable isfile t)) l with
           | None => Ok tt
           | Some _ => Err AssertionError
           end))
    /\ match find (fun t => negb (acceptable isfile t)) l with
       | None => True
       | Some t => i = t
       end.
Proof.
  revert i0. induction l as [|x l IH]; intros i0; simpl.
  - exists i0. auto.
  - rewrite check_input_outcome.
    destruct (acceptable isfile x) eqn:Hx; simpl.
    + destruct (IH x) as (i & Hfor & Hi). rewrite Hfor. exists i.
      destruct x; simpl in Hx; try discriminate. simpl. rewrite Hx. auto.
    + exists x. split; [|reflexivity].
      destruct x; try reflexivity. simpl in *. rewrite Hx. reflexivity.
Qed.


End PdfInput.


(** ** Boolean options of the PDF binding *)

(** [__init__] unpacks the tuple of [assign_options] by position, and
    the two do not list the options in the same order: three groups
    receive the tokens of a neighbour. *)
Lemma options_unpacked_by_position
      (input_ output operators : pyval) (opts : pydict) (w : bool)
      (self : Pdftk.PDFTK) :
  Pdftk.__init__ input_ output operators (PDict opts) w = Ok self ->
  Pdftk.flatten self = option_tokens opts "flatten"
  /\ Pdftk.need_appearances self = option_tokens opts "need_appearances"
  /\ Pdftk.compress self = option_tokens opts "compress"
  /\ Pdftk.uncompress self = option_tokens opts "uncompress"
  /\ Pdftk.verbose self = option_tokens opts "verbose"
  /\ Pdftk.keep_first_id self = option_tokens opts "drop_xfa"
  /\ Pdftk.keep_final_id self = option_tokens opts "keep_first_id"
  /\ Pdftk.drop_xfa self = option_tokens opts "keep_final_id".
Proof.
  intros Hinit. destruct (init_inv _ _ _ _ _ _ Hinit) as (_ & _ & _ & Hopt).
  apply assign_options_inv in Hopt.
  destruct Hopt as (_ & H2 & H3 & H4 & H5 & H6 & H7 & H8 & H9 & _).
  repeat split; assumption.
Qed.

(** C2 at its failing input.  With [drop_xfa] set, the token
    [drop_xfa] lands in the [keep_first_id] group, [validate_options]
    refuses it there and [run] raises a [ValidationError]; with all
    eight options set, the assembled tokens come in the order
    flatten, need_appearances, compress, uncompress, drop_xfa,
    keep_first_id, keep_final_id, verbose. *)
Theorem drop_xfa_lands_in_keep_first_id :
  Pdftk.__init__ (PStr "PROMPT") PNone PNone (PDict [("drop_xfa", PBool true)]) false
  = Ok with_drop_xfa
  /\ Pdftk.keep_first_id with_drop_xfa = [PStr "drop_xfa"]
  /\ Pdftk.drop_xfa with_drop_xfa = []
  /\ Pdftk.validate_options with_drop_xfa
     = ([], Err (ValidationError "Invalid option ['drop_xfa']"))
  /\ run (H := Pdftk.PDFTK_CLI no_files) with_drop_xfa
     = ([IsFile "PROMPT"], Err (ValidationError "Invalid option ['drop_xfa']"))
  /\ (self <-? Pdftk.__init__ (PStr "PROMPT") PNone PNone all_flags false ;;
      Ok (Pdftk.prepare_command self))
     = Ok [ PStr "pdftk"; PStr "PROMPT"; PStr "flatten"; PStr "need_appearances";
            PStr "compress"; PStr "uncompress"; PStr "drop_xfa";
            PStr "keep_first_id"; PStr "keep_final_id"; PStr "verbose";
            PStr "dont_ask" ].
Proof. repeat split. Qed.

(** ** Passwords of the PDF binding *)

(** [validate_pw] looks at the first token of the group.  For
    [input_pw] that is the password. *)
Lemma blank_input_password_rejected :
  Pdftk.validate_pw "input_pw" [PStr "   "]
  = ([], Err (ValidationError "Invalid input_pw: ['   ']"))
  /\ Pdftk.validate_pw "input_pw" [PStr ""]
     = ([], Err (ValidationError "Invalid input_pw: ['']")).
Proof. split; reflexivity. Qed.

(** C3 at its failing input.  For [owner_pw] and [user_pw] the first
    token of the group is the flag, so every string, the empty one and
    blank ones too, passes as a password, and a command carrying a
    blank owner password is run. *)
Theorem blank_owner_password_accepted (s : string) :
  format_op_args "owner_pw" (PStr s) = Ok [PStr "owner_pw"; PStr s]
  /\ Pdftk.validate_pw "owner_pw" [PStr "owner_pw"; PStr s] = ([], Ok tt)
  /\ format_op_args "user_pw" (PStr s) = Ok [PStr "user_pw"; PStr s]
  /\ Pdftk.validate_pw "user_pw" [PStr "user_pw"; PStr s] = ([], Ok tt)
  /\ (self <- lift (Pdftk.__init__ (PStr "PROMPT") (PStr "out.pdf")
                      blank_owner_password PNone false) ;;
      run (H := Pdftk.PDFTK_CLI no_files) self)
     = (let command :=
          [ PStr "pdftk"; PStr "PROMPT"; PStr "cat"; PStr "output";
            PStr "out.pdf"; PStr "owner_pw"; PStr "   "; PStr "user_pw";
            PStr "" ] in
        ([IsFile "PROMPT"; Subprocess command], Ok {| args := command |})).
Proof. repeat split. Qed.

(** ** Output validation of the PDF binding *)

(** C4 at its failing input.  The pattern is searched for, not matched
    against the whole token: [report.pdf.txt] and [notes-PROMPT.txt]
    pass the output validation, although neither is a [.pdf] file name
    or the literal [PROMPT].  An output with another extension, and
    an output that is also an input, are rejected. *)
Theorem output_pattern_is_searched :
  Pdftk.__init__ (PStr "PROMPT") (PStr "report.pdf.txt") PNone PNone false
  = Ok (pdf_self "PROMPT" "report.pdf.txt")
  /\ Pdftk.validate_output (pdf_self "PROMPT" "report.pdf.txt") = ([], Ok tt)
  /\ Pdftk.validate_output (pdf_self "PROMPT" "notes-PROMPT.txt") = ([], Ok tt)
  /\ Pdftk.validate_output (pdf_self "PROMPT" "report.txt")
     = ([], Err (ValidationError "Invalid output value: report.txt"))
  /\ Pdftk.validate_output (pdf_self "report.pdf" "report.pdf")
     = ([], Err (ValidationError "Invalid output value: report.pdf"))
  /\ Pdftk.validate_output (pdf_self "PROMPT" "report.pdf") = ([], Ok tt)
  /\ Pdftk.validate_output (pdf_self "in.pdf" "PROMPT") = ([], Ok tt).
Proof. repeat split. Qed.

(** ** Regular expressions: the matcher against the language *)

Section Strings.

Lemma append_nil_r (s : string) : s ++ "" = s.
Proof. induction s as [|c s IH]; simpl; [reflexivity|now rewrite IH]. Qed.

Lemma append_assoc (s1 s2 s3 : string) : (s1 ++ s2) ++ s3 = s1 ++ (s2 ++ s3).
Proof. induction s1 as [|c s1 IH]; simpl; [reflexivity|now rewrite IH]. Qed.

Lemma append_eq_nil (s1 s2 : string) : s1 ++ s2 = "" -> s1 = "" /\ s2 = "".
Proof. destruct s1; simpl; [auto|discriminate]. Qed.

End Strings.

Section Matcher.

Lemma cat_inv (r1 r2 : Re.regex) (s : string) :
  Matches (Re.Cat r1 r2) s ->
  exists s1 s2, s = s1 ++ s2 /\ Matches r1 s1 /\ Matches r2 s2.
Proof. intros H. inversion H; subst. eauto. Qed.

Lemma alt_inv (r1 r2 : Re.regex) (s : string) :
  Matches (Re.Alt r1 r2) s -> Matches r1 s \/ Matches r2 s.
Proof. intros H. inversion H; subst; auto. Qed.

Lemma class_inv (p : ascii -> bool) (s : string) :
  Matches (Re.Class p) s -> exists c, s = String c "" /\ p c = true.
Proof. intros H. inversion H; subst. eauto. Qed.

Lemma eps_inv (s : string) : Matches Re.Eps s -> s = "".
Proof. intros H. inversion H; subst. reflexivity. Qed.

Lemma void_inv (s : string) : ~ Matches Re.Void s.
Proof. intros H. inversion H. Qed.

Lemma nullable_matches (r : Re.regex) : Re.nullable r = true <-> Matches r "".
Proof.
  induction r as [| |p|r1 IH1 r2 IH2|r1 IH1 r2 IH2|r IH]; simpl.
  - split; [discriminate|]. intros H. destruct (void_inv _ H).
  - split; [constructor|reflexivity].
  - split; [discriminate|]. intros H.
    apply class_inv in H. destruct H as (c & Hc & _). discriminate.
  - rewrite andb_true_iff, IH1, IH2. split.
    + intros [H1 H2]. exact (MCat _ _ "" "" H1 H2).
    + intros H. apply cat_inv in H. destruct H as (s1 & s2 & Heq & H1 & H2).
      symmetry in Heq. apply append_eq_nil in Heq. destruct Heq; subst. auto.
  - rewrite orb_true_iff, IH1, IH2. split.
    + intros [H|H]; [apply MAltL|apply MAltR]; exact H.
    + apply alt_inv.
  - split; [constructor|reflexivity].
Qed.

(** A non-empty word of [r*] starts with a non-empty word of [r]. *)
Lemma star_uncons (r : Re.regex) (c : ascii) (s : string) :
  Matches (Re.Star r) (String c s) ->
  exists s1 s2, s = s1 ++ s2 /\ Matches r (String c s1) /\ Matches (Re.Star r) s2.
Proof.
  intros H. remember (Re.Star r) as r' eqn:Hr. remember (String c s) as w eqn:Hw.
  induction H as [| | | | | |r0 s1 s2 H1 _ H2 IH2]; try discriminate.
  inversion Hr; subst r0. destruct s1 as [|c1 s1]; simpl in Hw.
  - apply IH2; auto.
  - inversion Hw; subst. exists s1, s2. auto.
Qed.

Lemma cat_uncons (r1 r2 : Re.regex) (c : ascii) (s : string) :
  Matches (Re.Cat r1 r2) (String c s)
  <-> (exists s1 s2, s = s1 ++ s2 /\ Matches r1 (String c s1) /\ Matches r2 s2)
      \/ (Matches r1 "" /\ Matches r2 (String c s)).
Proof.
  split.
  - intros H. apply cat_inv in H. destruct H as (s1 & s2 & Heq & H1 & H2).
    destruct s1 as [|c1 s1]; simpl in Heq.
    + subst s2. right. auto.
    + inversion Heq; subst. left. exists s1, s2. auto.
  - intros [(s1 & s2 & -> & H1 & H2)|[H1 H2]].
    + exact (MCat _ _ _ _ H1 H2).
    + exact (MCat _ _ "" _ H1 H2).
Qed.

Lemma deriv_matches (r : Re.regex) (c : ascii) (s : string) :
  Matches (Re.deriv c r) s <-> Matches r (String c s).
Proof.
  revert s.
  induction r as [| |p|r1 IH1 r2 IH2|r1 IH1 r2 IH2|r IH]; intros s; simpl.
  - split; intros H; destruct (void_inv _ H).
  - split; intros H; [destruct (void_inv _ H)|apply eps_inv in H; discriminate].
  - destruct (p c) eqn:Hp; split; intros H.
    + apply eps_inv in H. subst. constructor. exact Hp.
    + apply class_inv in H. destruct H as (c' & Heq & _). inversion Heq. constructor.
    + destruct (void_inv _ H).
    + apply class_inv in H. destruct H as (c' & Heq & Hc). inversion Heq; subst.
      congruence.
  - assert (Hcat : Matches (Re.Cat (Re.deriv c r1) r2) s
                   <-> exists s1 s2, s = s1 ++ s2 /\ Matches r1 (String c s1)
                                     /\ Matches r2 s2).
    { split.
      - intros H. apply cat_inv in H. destruct H as (s1 & s2 & Heq & H1 & H2).
        exists s1, s2. rewrite <- IH1. auto.
      - intros (s1 & s2 & -> & H1 & H2). constructor; [apply IH1|]; assumption. }
    rewrite cat_uncons. destruct (Re.nullable r1) eqn:Hn.
    + split.
      * intros H. apply alt_inv in H. destruct H as [H|H].
        -- left. apply Hcat. exact H.
        -- right. split; [apply nullable_matches; exact Hn|apply IH2; exact H].
      * intros [H|[_ H]]; [apply MAltL, Hcat, H|apply MAltR, IH2, H].
    + rewrite Hcat. split; [auto|]. intros [H|[H _]]; [exact H|].
      apply nullable_matches in H. congruence.
  - split; intros H; apply alt_inv in H; destruct H as [H|H];
      [apply MAltL, IH1|apply MAltR, IH2|apply MAltL, IH1|apply MAltR, IH2];
      exact H.
  - split.
    + intros H. apply cat_inv in H. destruct H as (s1 & s2 & -> & H1 & H2).
      apply IH in H1. exact (MStarCons _ _ _ H1 H2).
    + intros H. apply star_uncons in H. destruct H as (s1 & s2 & -> & H1 & H2).
      constructor; [apply IH|]; assumption.
Qed.

(** The matcher decides the language. *)
Lemma fullmatch_matches (r : Re.regex) (s : string) :
  Re.fullmatch r s = true <-> Matches r s.
Proof.
  revert r. induction s as [|c s IH]; intros r; simpl.
  - apply nullable_matches.
  - rewrite IH. apply deriv_matches.
Qed.

Lemma star_any (s : string) : Matches (Re.Star Re.Any) s.
Proof.
  induction s as [|c s IH]; [constructor|].
  change (String c s) with (String c "" ++ s).
  constructor; [constructor; reflexivity|exact IH].
Qed.

(** [re.search] finds a word of the language somewhere in the string. *)
Lemma search_matches (r : Re.regex) (s : string) :
  Re.search_str r s = true
  <-> exists before found after, s = before ++ found ++ after /\ Matches r found.
Proof.
  unfold Re.search_str. rewrite fullmatch_matches. split.
  - intros H. apply cat_inv in H. destruct H as (s1 & s23 & -> & _ & H23).
    apply cat_inv in H23. destruct H23 as (s2 & s3 & -> & H2 & _).
    exists s1, s2, s3. auto.
  - intros (before & found & after & -> & H).
    constructor; [apply star_any|]. constructor; [exact H|apply star_any].
Qed.

Lemma lit_matches (w s : string) : Matches (Re.Lit w) s <-> s = w.
Proof.
  revert s. induction w as [|c w IH]; intros s; simpl.
  - split; [apply eps_inv|intros ->; constructor].
  - split.
    + intros H. apply cat_inv in H. destruct H as (s1 & s2 & -> & H1 & H2).
      apply class_inv in H1. destruct H1 as (c' & -> & Hc).
      apply Ascii.eqb_eq in Hc. subst c'. apply IH in H2. subst. reflexivity.
    + intros ->. change (String c w) with (String c "" ++ w).
      constructor; [constructor; apply Ascii.eqb_refl|apply IH; reflexivity].
Qed.

End Matcher.

(** ** The two patterns of the PDF binding *)

Section Patterns.

Lemma not_blank_iff (s : string) :
  blank s = false
  <-> exists before c after, s = before ++ String c after /\ Re.is_space c = false.
Proof.
  induction s as [|c s IH]; simpl.
  - split; [discriminate|]. intros (before & c & after & Heq & _).
    destruct before; discriminate.
  - rewrite andb_false_iff, IH. split.
    + intros [Hc|(before & c' & after & -> & Hc')].
      * exists "", c, s. auto.
      * exists (String c before), c', after. auto.
    + intros (before & c' & after & Heq & Hc').
      destruct before as [|b before]; simpl in Heq; inversion Heq; subst.
      * left. exact Hc'.
      * right. exists before, c', after. auto.
Qed.

(** [r'\S+'] is found exactly in the strings that are not blank. *)
Lemma search_pw_pattern (s : string) :
  Re.search_str Pdftk.pw_pattern s = negb (blank s).
Proof.
  destruct (blank s) eqn:Hb; simpl.
  - destruct (Re.search_str Pdftk.pw_pattern s) eqn:Hs; [|reflexivity].
    apply search_matches in Hs.
    destruct Hs as (before & found & after & -> & Hm).
    apply cat_inv in Hm. destruct Hm as (s1 & s2 & -> & H1 & _).
    apply class_inv in H1. destruct H1 as (c & -> & Hc).
    assert (Hnb : blank (before ++ (String c "" ++ s2) ++ after) = false).
    { apply not_blank_iff. exists before, c, (s2 ++ after).
      split; [reflexivity|]. apply negb_true_iff. exact Hc. }
    congruence.
  - apply not_blank_iff in Hb. destruct Hb as (before & c & after & -> & Hc).
    apply search_matches. exists before, (String c ""), after.
    split; [reflexivity|].
    change (String c "") with (String c "" ++ "").
    constructor; [constructor; apply negb_true_iff; exact Hc|constructor].
Qed.

(** The input password is the one password [validate_pw] does check. *)
Lemma validate_input_pw (s : string) :
  Pdftk.validate_pw "input_pw" [PStr s]
  = ([], if blank s
         then Err (ValidationError
                     ("Invalid input_pw: " ++ str_text (PList [PStr s])))
         else Ok tt).
Proof.
  unfold Pdftk.validate_pw.
  cbv [Re.search lift bind assert ret raise app]. rewrite search_pw_pattern.
  destruct (blank s); reflexivity.
Qed.

Lemma star_dot_last (y : string) :
  Matches (Re.Star Re.Dot) y ->
  y = "" \/ exists y' c, y = y' ++ String c "" /\ c <> line_feed.
Proof.
  intros H. remember (Re.Star Re.Dot) as r eqn:Hr.
  induction H as [| | | | | |r0 s1 s2 H1 _ H2 IH2]; try discriminate; auto.
  inversion Hr; subst r0. right.
  apply class_inv in H1. destruct H1 as (c1 & -> & Hc1).
  assert (Hc1' : c1 <> line_feed).
  { intros ->. discriminate. }
  destruct (IH2 eq_refl) as [->|(y' & c & -> & Hc)].
  - exists "", c1. auto.
  - exists (String c1 y'), c. auto.
Qed.

Lemma plus_dot_last (x : string) :
  Matches (Re.Plus Re.Dot) x ->
  exists x' c, x = x' ++ String c "" /\ c <> line_feed.
Proof.
  intros H. apply cat_inv in H. destruct H as (s1 & s2 & -> & H1 & H2).
  apply class_inv in H1. destruct H1 as (c1 & -> & Hc1).
  assert (Hc1' : c1 <> line_feed).
  { intros ->. discriminate. }
  destruct (star_dot_last _ H2) as [->|(y' & c & -> & Hc)].
  - exists "", c1. auto.
  - exists (String c1 y'), c. auto.
Qed.

(** [r'.+\.pdf|PROMPT'] is found exactly in the strings that hold
    [.pdf] after a character other than the line feed, or hold
    [PROMPT], anywhere. *)
Lemma search_output_pattern (s : string) :
  Re.search_str Pdftk.output_pattern s = true
  <-> (exists before c after,
          s = before ++ String c (".pdf" ++ after) /\ c <> line_feed)
      \/ (exists before after, s = before ++ "PROMPT" ++ after).
Proof.
  rewrite search_matches. split.
  - intros (before & found & after & -> & Hm).
    apply alt_inv in Hm. destruct Hm as [Hm|Hm].
    + left. apply cat_inv in Hm. destruct Hm as (x & ext & -> & Hx & Hext).
      apply lit_matches in Hext. subst ext.
      apply plus_dot_last in Hx. destruct Hx as (x' & c & -> & Hc).
      exists (before ++ x'), c, after. split; [|exact Hc].
      rewrite !append_assoc. reflexivity.
    + right. apply lit_matches in Hm. subst found. exists before, after. reflexivity.
  - intros [(before & c & after & -> & Hc)|(before & after & ->)].
    + exists before, (String c ".pdf"), after. split; [reflexivity|].
      apply MAltL. change (String c ".pdf") with ((String c "" ++ "") ++ ".pdf").
      constructor; [|apply lit_matches; reflexivity].
      constructor; [constructor|constructor].
      apply negb_true_iff. apply Ascii.eqb_neq. exact Hc.
    + exists before, "PROMPT", after. split; [reflexivity|].
      apply MAltR. apply lit_matches. reflexivity.
Qed.

(** What [validate_output] does with the one token a string output
    gives. *)
Lemma validate_output_single (self : Pdftk.PDFTK) (o : string) :
  Pdftk.output self = [PStr "output"; PStr o] ->
  Pdftk.validate_output self
  = ([], if Re.search_str Pdftk.output_pattern o
            && negb (py_in (PStr o) (Pdftk.input self))
         then Ok tt
         else Err (ValidationError ("Invalid output value: " ++ o))).
Proof.
  intros Hout. unfold Pdftk.validate_output. rewrite Hout.
  cbv [truthy tl for_in Re.search lift bind assert ret raise app].
  destruct (Re.search_str Pdftk.output_pattern o); [|reflexivity].
  destruct (py_in (PStr o) (Pdftk.input self)); reflexivity.
Qed.

End Patterns.

(* ------------------------------------------------------------------ *)
(** * Further properties of the command layer *)

(** ** [flatten] *)

Definition letters : pydict := [("a", PStr "1"); ("b", PStr "2")].

(** X1. [flatten] turns a mapping into [-key], value pairs in insertion
    order, two tokens per entry, with the values left as they are;
    [None] gives no token and any other object without [keys] raises an
    [AttributeError]. *)
Theorem flatten_pairs_in_order (d : pydict) :
  wf_dict d ->
  Utils.flatten (PDict d) = Ok (flat_map pair_tokens d)
  /\ (forall tokens, Utils.flatten (PDict d) = Ok tokens ->
        length tokens = 2 * length d)
  /\ Utils.flatten PNone = Ok []
  /\ (forall v, is_none v = false -> is_dict v = false ->
        Utils.flatten v = Err AttributeError).
Proof.
  intros Hwf. rewrite (flatten_dict d Hwf). repeat split.
  - intros tokens Heq. inversion Heq; subst. clear.
    induction d as [|kv d IH]; simpl; [reflexivity|]. rewrite IH. lia.
  - intros v Hn Hd. destruct v; simpl in *; try discriminate; reflexivity.
Qed.

Lemma flatten_pairs_in_order_witness :
  wf_dict letters
  /\ Utils.flatten (PDict letters)
     = Ok [PStr "-a"; PStr "1"; PStr "-b"; PStr "2"].
Proof.
  assert (Hwf : wf_dict letters).
  { unfold wf_dict. simpl. constructor; [simpl; intuition discriminate|].
    constructor; [simpl; tauto|constructor]. }
  split; [exact Hwf|].
  destruct (flatten_pairs_in_order letters Hwf) as (Hflat & _).
  exact Hflat.
Defined.

(** ** The bindings without validation *)

(** X2. The image and the OCR binding validate nothing: for every
    instance, [run] probes no file and hands a command straight to
    [subprocess.run], the version call exactly when the four groups are
    all empty and the assembled command otherwise.  That one command is
    started when all its tokens are proper; when one is not (neither
    binding turns its output or its operator values into strings) the
    call raises a [TypeError] or a [ValueError] and nothing is
    started.  The version call is always started. *)
Theorem unvalidated_bindings_run_unchecked
        (image : Magick.Magick) (ocr : Tesseract.Tesseract) :
  (Magick.test_args_empty image = true
   <-> Magick.pre_image_settings image = [] /\ Magick.input image = []
       /\ Magick.post_image_settings image = [] /\ Magick.output image = [])
  /\ (Tesseract.test_args_empty ocr = true
      <-> Tesseract.input ocr = [] /\ Tesseract.output ocr = []
          /\ Tesseract.options ocr = [] /\ Tesseract.config_file ocr = [])
  /\ (exists argv,
         argv = (if Magick.test_args_empty image
                 then [PStr "magick"; PStr "-version"]
                 else Magick.prepare_command image)
         /\ hd_error argv = Some (PStr "magick")
         /\ run (H := Magick.Magick_CLI) image
            = (if startable argv then [Subprocess argv] else [],
               snd (subprocess_run argv))
         /\ (startable argv = true
             -> run (H := Magick.Magick_CLI) image
                = ([Subprocess argv], Ok {| args := argv |}))
         /\ (startable argv = false
             -> Magick.test_args_empty image = false
                /\ (run (H := Magick.Magick_CLI) image = ([], Err TypeError)
                    \/ run (H := Magick.Magick_CLI) image = ([], Err ValueError))))
  /\ (exists argv,
         argv = (if Tesseract.test_args_empty ocr
                 then [PStr "tesseract"; PStr "--version"]
                 else Tesseract.prepare_command ocr)
         /\ hd_error argv = Some (PStr "tesseract")
         /\ run (H := Tesseract.Tesseract_CLI) ocr
            = (if startable argv then [Subprocess argv] else [],
               snd (subprocess_run argv))
         /\ (startable argv = true
             -> run (H := Tesseract.Tesseract_CLI) ocr
                = ([Subprocess argv], Ok {| args := argv |}))
         /\ (startable argv = false
             -> Tesseract.test_args_empty ocr = false
                /\ (run (H := Tesseract.Tesseract_CLI) ocr = ([], Err TypeError)
                    \/ run (H := Tesseract.Tesseract_CLI) ocr
                       = ([], Err ValueError)))).
Proof.
  split; [|split; [|split]].
  - unfold Magick.test_args_empty.
    destruct (Magick.pre_image_settings image), (Magick.input image),
      (Magick.post_image_settings image), (Magick.output image);
      simpl; split; intros H; try discriminate; auto;
      destruct H as (? & ? & ? & ?); discriminate.
  - unfold Tesseract.test_args_empty.
    destruct (Tesseract.input ocr), (Tesseract.output ocr),
      (Tesseract.options ocr), (Tesseract.config_file ocr);
      simpl; split; intros H; try discriminate; auto;
      destruct H as (? & ? & ? & ?); discriminate.
  - exists (if Magick.test_args_empty image
            then [PStr "magick"; PStr "-version"]
            else Magick.prepare_command image).
    assert (Hrun : run (H := Magick.Magick_CLI) image
                   = subprocess_run
                       (if Magick.test_args_empty image
                        then [PStr "magick"; PStr "-version"]
                        else Magick.prepare_command image)).
    { unfold run.
      change (@test_args_empty _ Magick.Magick_CLI image)
        with (Magick.test_args_empty image).
      destruct (Magick.test_args_empty image); [reflexivity|].
      change (@validate_input _ Magick.Magick_CLI image) with (@ret unit tt).
      change (@validate_output _ Magick.Magick_CLI image) with (@ret unit tt).
      change (@validate_operators _ Magick.Magick_CLI image) with (@ret unit tt).
      change (@validate_options _ Magick.Magick_CLI image) with (@ret unit tt).
      change (@prepare_command _ Magick.Magick_CLI image)
        with (ret (Magick.prepare_command image)).
      rewrite !bind_ret. reflexivity. }
    rewrite Hrun. split; [reflexivity|].
    split; [destruct (Magick.test_args_empty image); reflexivity|].
    split; [rewrite <- subprocess_run_trace; apply surjective_pairing|].
    split; [apply subprocess_run_startable|].
    intros Hbad.
    destruct (Magick.test_args_empty image); [discriminate Hbad|].
    split; [reflexivity|].
    destruct (subprocess_run_refused _ Hbad)
      as (e & -> & [(Hnil & _)|(_ & [->| ->])]); auto.
    discriminate Hnil.
  - exists (if Tesseract.test_args_empty ocr
            then [PStr "tesseract"; PStr "--version"]
            else Tesseract.prepare_command ocr).
    assert (Hrun : run (H := Tesseract.Tesseract_CLI) ocr
                   = subprocess_run
                       (if Tesseract.test_args_empty ocr
                        then [PStr "tesseract"; PStr "--version"]
                        else Tesseract.prepare_command ocr)).
    { unfold run.
      change (@test_args_empty _ Tesseract.Tesseract_CLI ocr)
        with (Tesseract.test_args_empty ocr).
      destruct (Tesseract.test_args_empty ocr); [reflexivity|].
      change (@validate_input _ Tesseract.Tesseract_CLI ocr) with (@ret unit tt).
      change (@validate_output _ Tesseract.Tesseract_CLI ocr) with (@ret unit tt).
      change (@validate_operators _ Tesseract.Tesseract_CLI ocr)
        with (@ret unit tt).
      change (@validate_options _ Tesseract.Tesseract_CLI ocr) with (@ret unit tt).
      change (@prepare_command _ Tesseract.Tesseract_CLI ocr)
        with (ret (Tesseract.prepare_command ocr)).
      rewrite !bind_ret. reflexivity. }
    rewrite Hrun. split; [reflexivity|].
    split; [destruct (Tesseract.test_args_empty ocr); reflexivity|].
    split; [rewrite <- subprocess_run_trace; apply surjective_pairing|].
    split; [apply subprocess_run_startable|].
    intros Hbad.
    destruct (Tesseract.test_args_empty ocr); [discriminate Hbad|].
    split; [reflexivity|].
    destruct (subprocess_run_refused _ Hbad)
      as (e & -> & [(Hnil & _)|(_ & [->| ->])]); auto.
    discriminate Hnil.
Qed.

(** ** OCR binding *)

Definition language : pydict := [("l", PStr "eng")].

(** X3. The OCR binding assembles the tool name, the input tokens, the
    output, the flattened operators and last the tokens of [options].
    The operator values go into the command as they are (they are not
    turned into strings, unlike the image settings). *)
Theorem tesseract_command_assembly
        (ops : pydict) (input_ output options : pyval) (w : bool)
        (input_tokens trailing : list token) :
  wf_dict ops ->
  default_var input_ [] = Ok input_tokens ->
  default_var options [] = Ok trailing ->
  exists self,
    Tesseract.__init__ input_ output (PDict ops) options w = Ok self
    /\ Tesseract.input self = input_tokens
    /\ Tesseract.options self = flat_map pair_tokens ops
    /\ Tesseract.config_file self = trailing
    /\ Tesseract.prepare_command self
       = ([PStr "tesseract"] ++ input_tokens ++ Tesseract.assign_output output
          ++ flat_map pair_tokens ops ++ trailing)%list.
Proof.
  intros Hwf Hin Hopt.
  unfold Tesseract.__init__, Tesseract.assign_input, Tesseract.assign_operators,
    Tesseract.assign_options.
  rewrite Hin, (flatten_dict ops Hwf), Hopt. simpl.
  eexists. repeat split.
Qed.

Lemma tesseract_command_assembly_witness :
  wf_dict language
  /\ exists self,
       Tesseract.__init__ (PStr "list.txt") (PStr "out") (PDict language)
         (PStr "pdf") false = Ok self
       /\ Tesseract.prepare_command self
          = [ PStr "tesseract"; PStr "list.txt"; PStr "out"; PStr "-l";
              PStr "eng"; PStr "pdf" ].
Proof.
  assert (Hwf : wf_dict language).
  { unfold wf_dict. simpl. constructor; [simpl; tauto|constructor]. }
  split; [exact Hwf|].
  destruct (tesseract_command_assembly language (PStr "list.txt") (PStr "out")
              (PStr "pdf") false [PStr "list.txt"] [PStr "pdf"] Hwf eq_refl eq_refl)
    as (self & Hinit & _ & _ & _ & Hcmd).
  exists self. split; [exact Hinit|]. rewrite Hcmd. reflexivity.
Defined.

(** The command of the function [tesseract]. *)
Definition english_argv (input_tokens : list token) (output : pyval)
           (trailing : list token) : list token :=
  ([PStr "tesseract"] ++ input_tokens ++ Tesseract.assign_output output
   ++ [PStr "-l"; PStr "eng"] ++ trailing)%list.

Lemma tesseract_call (input output format : pyval)
      (input_tokens trailing : list token) :
  default_var input [] = Ok input_tokens ->
  default_var format [] = Ok trailing ->
  Tesseract.tesseract input output format
  = subprocess_run (english_argv input_tokens output trailing).
Proof.
  intros Hin Hopt.
  unfold Tesseract.tesseract, Tesseract.__init__, Tesseract.assign_input,
    Tesseract.assign_operators, Tesseract.assign_options.
  rewrite Hin, Hopt.
  change (Utils.flatten (PDict [("l", PStr "eng")]))
    with (@Ok (list token) [PStr "-l"; PStr "eng"]).
  cbv [rbind].
  change (default_var (PList [PStr "-l"; PStr "eng"]) [])
    with (@Ok (list token) [PStr "-l"; PStr "eng"]).
  cbv iota beta. rewrite bind_lift_ok. unfold run.
  change (@test_args_empty _ Tesseract.Tesseract_CLI ?x)
    with (Tesseract.test_args_empty x).
  assert (Hwork : forall i o c,
             Tesseract.test_args_empty
               {| Tesseract.windows := false; Tesseract.input := i;
                  Tesseract.output := o;
                  Tesseract.options := [PStr "-l"; PStr "eng"];
                  Tesseract.config_file := c |} = false).
  { intros i o c. unfold Tesseract.test_args_empty. simpl.
    destruct i, o; reflexivity. }
  rewrite Hwork.
  change (@validate_input _ Tesseract.Tesseract_CLI ?x) with (@ret unit tt).
  change (@validate_output _ Tesseract.Tesseract_CLI ?x) with (@ret unit tt).
  change (@validate_operators _ Tesseract.Tesseract_CLI ?x) with (@ret unit tt).
  change (@validate_options _ Tesseract.Tesseract_CLI ?x) with (@ret unit tt).
  rewrite !bind_ret.
  change (@prepare_command _ Tesseract.Tesseract_CLI ?x)
    with (ret (Tesseract.prepare_command x)).
  rewrite bind_ret. reflexivity.
Qed.

(** X4. The function [tesseract] always asks for the language [eng]:
    once its input and its format are turned into tokens, it hands the
    one command [tesseract <input> <output> -l eng <format>] to
    [subprocess.run], which starts it when all its tokens are proper
    and raises otherwise (the output is not turned into a string, so
    an output that is no string is refused there).  Since the operator
    group is never empty it never runs the version call, not even when
    every argument is [None].  An input or a format that cannot be
    written stops the call with its [ValueError] before anything is
    started. *)
Theorem tesseract_always_english (input output format : pyval) :
  (forall input_tokens trailing,
      default_var input [] = Ok input_tokens ->
      default_var format [] = Ok trailing ->
      Tesseract.tesseract input output format
      = (if startable (english_argv input_tokens output trailing)
         then [Subprocess (english_argv input_tokens output trailing)]
         else [],
         snd (subprocess_run (english_argv input_tokens output trailing)))
      /\ (startable (english_argv input_tokens output trailing) = true ->
          Tesseract.tesseract input output format
          = ([Subprocess (english_argv input_tokens output trailing)],
             Ok {| args := english_argv input_tokens output trailing |}))
      /\ (startable (english_argv input_tokens output trailing) = false ->
          Tesseract.tesseract input output format = ([], Err TypeError)
          \/ Tesseract.tesseract input output format = ([], Err ValueError)))
  /\ (beyond_limit input || beyond_limit format = true ->
      Tesseract.tesseract input output format = ([], Err ValueError))
  /\ Tesseract.tesseract PNone PNone PNone
     = ([Subprocess [PStr "tesseract"; PStr "-l"; PStr "eng"]],
        Ok {| args := [PStr "tesseract"; PStr "-l"; PStr "eng"] |}).
Proof.
  split; [|split; [|reflexivity]].
  - intros input_tokens trailing Hin Hopt.
    rewrite (tesseract_call _ _ _ _ _ Hin Hopt).
    split; [rewrite <- subprocess_run_trace; apply surjective_pairing|].
    split; [apply subprocess_run_startable|].
    intros Hbad.
    destruct (subprocess_run_refused _ Hbad)
      as (e & -> & [(Hnil & _)|(_ & [->| ->])]); auto.
    discriminate Hnil.
  - intros Hbig.
    pose proof (default_var_outcome input []) as Hin.
    pose proof (default_var_outcome format []) as Hopt.
    unfold Tesseract.tesseract, Tesseract.__init__, Tesseract.assign_input,
      Tesseract.assign_operators, Tesseract.assign_options.
    destruct (beyond_limit input); [rewrite Hin; reflexivity|].
    destruct Hin as (input_tokens & ->).
    simpl in Hbig. rewrite Hbig in Hopt. rewrite Hopt. reflexivity.
Qed.

Lemma tesseract_always_english_witness :
  Tesseract.tesseract (PStr "list.txt") (PStr "out") (PStr "pdf")
  = ([Subprocess [ PStr "tesseract"; PStr "list.txt"; PStr "out"; PStr "-l";
                   PStr "eng"; PStr "pdf" ]],
     Ok {| args := [ PStr "tesseract"; PStr "list.txt"; PStr "out"; PStr "-l";
                     PStr "eng"; PStr "pdf" ] |})
  /\ Tesseract.tesseract (PStr "list.txt") (PInt 5) (PStr "pdf")
     = ([], Err TypeError).
Proof.
  split.
  - destruct (tesseract_always_english (PStr "list.txt") (PStr "out") (PStr "pdf"))
      as (Hcall & _).
    destruct (Hcall [PStr "list.txt"] [PStr "pdf"] eq_refl eq_refl)
      as (_ & Hstart & _).
    exact (Hstart eq_refl).
  - destruct (tesseract_always_english (PStr "list.txt") (PInt 5) (PStr "pdf"))
      as (Hcall & _).
    destruct (Hcall [PStr "list.txt"] [PStr "pdf"] eq_refl eq_refl)
      as (Hrun & _).
    exact Hrun.
Defined.

(** ** Image binding *)

(** The command of the function [magick]. *)
Definition magick_call_argv (input_tokens : list token)
           (output density type_ compress background alpha depth : pyval)
  : list token :=
  ([PStr "magick"; PStr "-density"; PStr (str_text density)]
   ++ input_tokens
   ++ [ PStr "-type"; PStr (str_text type_);
        PStr "-compress"; PStr (str_text compress);
        PStr "-background"; PStr (str_text background);
        PStr "-alpha"; PStr (str_text alpha);
        PStr "-depth"; PStr (str_text depth) ]
   ++ Magick.assign_output output)%list.

Lemma magick_init
      (input_ output density type_ compress background alpha depth : pyval)
      (input_tokens : list token) :
  default_var input_ [] = Ok input_tokens ->
  Magick.__init__ input_ output
    (PDict [ ("density", Magick.setting "pre" density);
             ("type", Magick.setting "post" type_);
             ("compress", Magick.setting "post" compress);
             ("background", Magick.setting "post" background);
             ("alpha", Magick.setting "post" alpha);
             ("depth", Magick.setting "post" depth) ]) PNone false
  = if renders density && (renders type_ && (renders compress
       && (renders background && (renders alpha && renders depth))))
    then Ok {| Magick.windows := false;
               Magick.input := input_tokens;
               Magick.output := Magick.assign_output output;
               Magick.pre_image_settings :=
                 [PStr "-density"; PStr (str_text density)];
               Magick.post_image_settings :=
                 [ PStr "-type"; PStr (str_text type_);
                   PStr "-compress"; PStr (str_text compress);
                   PStr "-background"; PStr (str_text background);
                   PStr "-alpha"; PStr (str_text alpha);
                   PStr "-depth"; PStr (str_text depth) ] |}
    else Err ValueError.
Proof.
  intros Hin.
  unfold Magick.__init__, Magick.assign_input, Magick.assign_operators.
  rewrite Hin. simpl rbind. simpl negb. cbv iota.
  unfold Magick.get_settings. simpl items. simpl rbind.
  unfold Magick.setting.
  cbv [Magick.settings_of getitem dict_get String.eqb Ascii.eqb Bool.eqb py_eq rbind
       py_str].
  destruct (renders density); [|reflexivity].
  destruct (renders type_); [|reflexivity].
  destruct (renders compress); [|reflexivity].
  destruct (renders background); [|reflexivity].
  destruct (renders alpha); [|reflexivity].
  destruct (renders depth); reflexivity.
Qed.

Lemma magick_call
      (input_ output density type_ compress background alpha depth : pyval)
      (input_tokens : list token) :
  default_var input_ [] = Ok input_tokens ->
  renders density && (renders type_ && (renders compress
    && (renders background && (renders alpha && renders depth)))) = true ->
  Magick.magick input_ output density type_ compress background alpha depth
  = subprocess_run (magick_call_argv input_tokens output density type_ compress
                      background alpha depth).
Proof.
  intros Hin Hrender. unfold Magick.magick.
  rewrite (magick_init _ _ _ _ _ _ _ _ _ Hin), Hrender, bind_lift_ok.
  unfold run.
  change (@test_args_empty _ Magick.Magick_CLI ?x)
    with (Magick.test_args_empty x).
  change (Magick.test_args_empty _) with false. cbv iota.
  change (@validate_input _ Magick.Magick_CLI ?x) with (@ret unit tt).
  change (@validate_output _ Magick.Magick_CLI ?x) with (@ret unit tt).
  change (@validate_operators _ Magick.Magick_CLI ?x) with (@ret unit tt).
  change (@validate_options _ Magick.Magick_CLI ?x) with (@ret unit tt).
  rewrite !bind_ret.
  change (@prepare_command _ Magick.Magick_CLI ?x)
    with (ret (Magick.prepare_command x)).
  rewrite bind_ret. reflexivity.
Qed.

(** X5. The function [magick] turns its six settings into text and
    hands one command to [subprocess.run]: [-density] before the input
    tokens, then [-type], [-compress], [-background], [-alpha] and
    [-depth] in that order, each followed by the string form of its
    value, then the output.  The command is started when all its
    tokens are proper (the output is not turned into a string); it is
    never the version call.  A setting that cannot be written stops the
    call with the [ValueError] of [str] before anything is started. *)
Theorem magick_fixed_setting_order
        (input_ output density type_ compress background alpha depth : pyval)
        (input_tokens : list token) :
  default_var input_ [] = Ok input_tokens ->
  (renders density && (renders type_ && (renders compress
     && (renders background && (renders alpha && renders depth)))) = true ->
   Magick.magick input_ output density type_ compress background alpha depth
   = (if startable (magick_call_argv input_tokens output density type_ compress
                      background alpha depth)
      then [Subprocess (magick_call_argv input_tokens output density type_
                          compress background alpha depth)]
      else [],
      snd (subprocess_run (magick_call_argv input_tokens output density type_
                             compress background alpha depth)))
   /\ (startable (magick_call_argv input_tokens output density type_ compress
                    background alpha depth) = true ->
       Magick.magick input_ output density type_ compress background alpha depth
       = ([Subprocess (magick_call_argv input_tokens output density type_
                         compress background alpha depth)],
          Ok {| args := magick_call_argv input_tokens output density type_
                          compress background alpha depth |}))
   /\ (startable (magick_call_argv input_tokens output density type_ compress
                    background alpha depth) = false ->
       Magick.magick input_ output density type_ compress background alpha depth
       = ([], Err TypeError)
       \/ Magick.magick input_ output density type_ compress background alpha
            depth
          = ([], Err ValueError)))
  /\ (renders density && (renders type_ && (renders compress
        && (renders background && (renders alpha && renders depth)))) = false ->
      Magick.magick input_ output density type_ compress background alpha depth
      = ([], Err ValueError)).
Proof.
  intros Hin. split.
  - intros Hrender. rewrite (magick_call _ _ _ _ _ _ _ _ _ Hin Hrender).
    split; [rewrite <- subprocess_run_trace; apply surjective_pairing|].
    split; [apply subprocess_run_startable|].
    intros Hbad.
    destruct (subprocess_run_refused _ Hbad)
      as (e & -> & [(Hnil & _)|(_ & [->| ->])]); auto.
    discriminate Hnil.
  - intros Hrender. unfold Magick.magick.
    rewrite (magick_init _ _ _ _ _ _ _ _ _ Hin), Hrender. reflexivity.
Qed.

Lemma magick_fixed_setting_order_witness :
  Magick.magick (PStr "a.pdf") (PStr "a.tiff") (PInt 300) (PStr "Grayscale")
    (PStr "lzw") (PStr "white") (PStr "off") (PInt 8)
  = ([Subprocess [ PStr "magick"; PStr "-density"; PStr "300"; PStr "a.pdf";
                   PStr "-type"; PStr "Grayscale"; PStr "-compress"; PStr "lzw";
                   PStr "-background"; PStr "white"; PStr "-alpha"; PStr "off";
                   PStr "-depth"; PStr "8"; PStr "a.tiff" ]],
     Ok {| args := [ PStr "magick"; PStr "-density"; PStr "300"; PStr "a.pdf";
                     PStr "-type"; PStr "Grayscale"; PStr "-compress";
                     PStr "lzw"; PStr "-background"; PStr "white";
                     PStr "-alpha"; PStr "off"; PStr "-depth"; PStr "8";
                     PStr "a.tiff" ] |})
  /\ Magick.magick (PStr "a.pdf") (PInt 7) (PInt 300) (PStr "Grayscale")
       (PStr "lzw") (PStr "white") (PStr "off") (PInt 8)
     = ([], Err TypeError).
Proof.
  split.
  - destruct (magick_fixed_setting_order (PStr "a.pdf") (PStr "a.tiff") (PInt 300)
                (PStr "Grayscale") (PStr "lzw") (PStr "white") (PStr "off")
                (PInt 8) [PStr "a.pdf"] eq_refl) as (Hgood & _).
    destruct (Hgood eq_refl) as (_ & Hstart & _).
    exact (Hstart eq_refl).
  - destruct (magick_fixed_setting_order (PStr "a.pdf") (PInt 7) (PInt 300)
                (PStr "Grayscale") (PStr "lzw") (PStr "white") (PStr "off")
                (PInt 8) [PStr "a.pdf"] eq_refl) as (Hgood & _).
    destruct (Hgood eq_refl) as (Hrun & _).
    exact Hrun.
Defined.

(** The values [get_settings] can read: the keys it looks up are
    there. *)
Definition readable (d : pyval) : Prop :=
  exists t,
    getitem d "type" = Ok t
    /\ (py_eq t (PStr "setting") = true ->
        exists p,
          getitem d "position" = Ok p
          /\ (py_eq p (PStr "pre") || py_eq p (PStr "post") = true ->
              exists value, getitem d "value" = Ok value)).

(** The entries that reach the command. *)
Definition relevant (d : pyval) : bool :=
  is_setting_at "pre" d || is_setting_at "post" d.

Definition mixed_operators : pydict :=
  [ ("density", Magick.setting "pre" (PInt 300));
    ("resize", PDict [("type", PStr "operator"); ("value", PStr "50%")]);
    ("depth", Magick.setting "middle" (PInt 8)) ].

Section ImageSettings.

Lemma settings_of_readable (ops : pydict) (position : string) :
  position = "pre" \/ position = "post" ->
  Forall (fun kv => readable (snd kv)) ops ->
  Magick.settings_of ops position
  = if settings_render position ops then Ok (settings_at position ops)
    else Err ValueError.
Proof.
  intros Hpos. induction 1 as [|[k d] ops Hd _ IH]; [reflexivity|].
  simpl in Hd. destruct Hd as (t & Ht & Hsetting).
  rewrite settings_at_cons, settings_render_cons. simpl. rewrite Ht. simpl rbind.
  destruct (py_eq t (PStr "setting")) eqn:Et.
  - destruct (Hsetting eq_refl) as (p & Hp & Hvalue). rewrite Hp. simpl rbind.
    assert (His : is_setting_at position d = py_eq p (PStr position)).
    { unfold is_setting_at. rewrite Ht, Hp, Et. reflexivity. }
    rewrite His. destruct (py_eq p (PStr position)) eqn:Ep; [|exact IH].
    assert (Hpp : py_eq p (PStr "pre") || py_eq p (PStr "post") = true).
    { destruct Hpos; subst position; rewrite Ep; auto using orb_true_r. }
    destruct (Hvalue Hpp) as (value & Hv). rewrite Hv. simpl rbind.
    unfold value_of. rewrite Hv. unfold py_str.
    destruct (renders value); simpl; [|reflexivity].
    rewrite IH. destruct (settings_render position ops); reflexivity.
  - assert (His : is_setting_at position d = false).
    { unfold is_setting_at. rewrite Ht, Et. destruct (getitem d "position"); reflexivity. }
    rewrite His. simpl rbind. cbv iota. exact IH.
Qed.

Lemma wf_dict_filter (f : string * pyval -> bool) (d : pydict) :
  wf_dict d -> wf_dict (filter f d).
Proof.
  unfold wf_dict, keys. induction d as [|kv d IH]; simpl; intros Hnd; [constructor|].
  inversion Hnd as [|? ? Hfresh Hnd']; subst.
  destruct (f kv); simpl; auto.
  constructor; auto. intros Hin. apply Hfresh.
  apply in_map_iff in Hin. destruct Hin as (x & Hx & Hin).
  apply filter_In in Hin. rewrite <- Hx. apply in_map. tauto.
Qed.

Lemma get_settings_readable (ops : pydict) (position : string) :
  position = "pre" \/ position = "post" ->
  wf_dict ops ->
  Forall (fun kv => readable (snd kv)) ops ->
  Magick.get_settings (PDict ops) position
  = if settings_render position ops then Ok (PDict (settings_at position ops))
    else Err ValueError.
Proof.
  intros Hpos Hwf Hd. unfold Magick.get_settings. simpl.
  rewrite (settings_of_readable ops position Hpos Hd).
  destruct (settings_render position ops); [|reflexivity]. simpl.
  rewrite dict_of_pairs_distinct; [reflexivity|].
  apply (wf_dict_filter_map _ (fun v => PStr (str_text (value_of v)))). exact Hwf.
Qed.

Lemma filter_relevant (ops : pydict) (position : string) :
  position = "pre" \/ position = "post" ->
  filter (fun kv => is_setting_at position (snd kv))
         (filter (fun kv => relevant (snd kv)) ops)
  = filter (fun kv => is_setting_at position (snd kv)) ops.
Proof.
  intros Hpos. induction ops as [|kv ops IH]; simpl; [reflexivity|].
  destruct (relevant (snd kv)) eqn:Hr; simpl; rewrite IH; [reflexivity|].
  unfold relevant in Hr. apply orb_false_iff in Hr. destruct Hr as [Hpre Hpost].
  destruct Hpos; subst position; [rewrite Hpre|rewrite Hpost]; reflexivity.
Qed.

Lemma settings_at_relevant (ops : pydict) (position : string) :
  position = "pre" \/ position = "post" ->
  settings_at position (filter (fun kv => relevant (snd kv)) ops)
  = settings_at position ops.
Proof. intros Hpos. unfold settings_at. rewrite filter_relevant by exact Hpos. reflexivity. Qed.

Lemma settings_render_relevant (ops : pydict) (position : string) :
  position = "pre" \/ position = "post" ->
  settings_render position (filter (fun kv => relevant (snd kv)) ops)
  = settings_render position ops.
Proof.
  intros Hpos. unfold settings_render. rewrite filter_relevant by exact Hpos.
  reflexivity.
Qed.

Lemma init_readable (ops : pydict) (input_ output options : pyval) (w : bool) :
  wf_dict ops ->
  Forall (fun kv => readable (snd kv)) ops ->
  Magick.__init__ input_ output (PDict ops) options w
  = (input_tokens <-? default_var input_ [] ;;
     if settings_render "pre" ops && settings_render "post" ops
     then Ok {| Magick.windows := w;
                Magick.input := input_tokens;
                Magick.output := Magick.assign_output output;
                Magick.pre_image_settings := setting_tokens "pre" ops;
                Magick.post_image_settings := setting_tokens "post" ops |}
     else Err ValueError).
Proof.
  intros Hwf Hd.
  unfold Magick.__init__, Magick.assign_input, Magick.assign_operators.
  destruct (default_var input_ []) as [input_tokens|e]; [|reflexivity].
  simpl rbind. simpl negb. cbv iota.
  rewrite !get_settings_readable by auto.
  destruct (settings_render "pre" ops); [|reflexivity].
  destruct (settings_render "post" ops); [|reflexivity]. simpl rbind.
  rewrite !flatten_dict
    by (apply (wf_dict_filter_map _ (fun v => PStr (str_text (value_of v))));
        exact Hwf).
  reflexivity.
Qed.

End ImageSettings.

(** X6. The image binding drops without a word every operator that is
    not a setting placed [pre] or [post]: an entry of another type, or
    a setting with another position, leaves no token, and building the
    binding from the mapping gives the same (the same binding, or the
    same exception) as building it without those entries. *)
Theorem magick_ignores_other_operators
        (ops : pydict) (input_ output options : pyval) (w : bool) :
  wf_dict ops ->
  Forall (fun kv => readable (snd kv)) ops ->
  Magick.__init__ input_ output
    (PDict (filter (fun kv => relevant (snd kv)) ops)) options w
  = Magick.__init__ input_ output (PDict ops) options w
  /\ (forall self,
         Magick.__init__ input_ output (PDict ops) options w = Ok self ->
         Magick.pre_image_settings self = setting_tokens "pre" ops
         /\ Magick.post_image_settings self = setting_tokens "post" ops).
Proof.
  intros Hwf Hd. split.
  - rewrite (init_readable ops input_ output options w Hwf Hd).
    rewrite (init_readable _ input_ output options w (wf_dict_filter _ _ Hwf))
      by (apply Forall_forall; intros kv Hkv; apply filter_In in Hkv;
          rewrite Forall_forall in Hd; apply Hd; tauto).
    unfold setting_tokens.
    rewrite !settings_at_relevant, !settings_render_relevant by auto.
    reflexivity.
  - intros self. rewrite (init_readable ops input_ output options w Hwf Hd).
    destruct (default_var input_ []) as [input_tokens|e]; [|discriminate].
    simpl rbind.
    destruct (settings_render "pre" ops && settings_render "post" ops);
      [|discriminate].
    intros Hself. inversion Hself. auto.
Qed.

Lemma magick_ignores_other_operators_witness :
  wf_dict mixed_operators
  /\ Forall (fun kv => readable (snd kv)) mixed_operators
  /\ exists self,
       Magick.__init__ (PStr "a.pdf") (PStr "a.tiff")
         (PDict [("density", Magick.setting "pre" (PInt 300))]) PNone false
       = Ok self
       /\ Magick.__init__ (PStr "a.pdf") (PStr "a.tiff") (PDict mixed_operators)
            PNone false = Ok self
       /\ Magick.prepare_command self
          = [ PStr "magick"; PStr "-density"; PStr "300"; PStr "a.pdf";
              PStr "a.tiff" ].
Proof.
  assert (Hwf : wf_dict mixed_operators).
  { unfold wf_dict. simpl.
    constructor; [simpl; intuition discriminate|].
    constructor; [simpl; intuition discriminate|].
    constructor; [simpl; tauto|constructor]. }
  assert (Hd : Forall (fun kv => readable (snd kv)) mixed_operators).
  { constructor; [|constructor; [|constructor; [|constructor]]];
      unfold readable; simpl; eexists; (split; [reflexivity|]); simpl;
      intros Hs; try discriminate; eexists; (split; [reflexivity|]); simpl;
      intros Hp; try discriminate; eexists; reflexivity. }
  split; [exact Hwf|]. split; [exact Hd|].
  destruct (magick_ignores_other_operators mixed_operators (PStr "a.pdf")
              (PStr "a.tiff") PNone false Hwf Hd) as (Hsame & _).
  assert (Hself : Magick.__init__ (PStr "a.pdf") (PStr "a.tiff")
                    (PDict [("density", Magick.setting "pre" (PInt 300))])
                    PNone false
                  = Ok {| Magick.windows := false;
                          Magick.input := [PStr "a.pdf"];
                          Magick.output := [PStr "a.tiff"];
                          Magick.pre_image_settings :=
                            [PStr "-density"; PStr "300"];
                          Magick.post_image_settings := [] |}) by reflexivity.
  eexists. split; [exact Hself|]. split; [|reflexivity].
  rewrite <- Hsame. exact Hself.
Defined.

(** X7. A descriptor the binding cannot read stops the construction:
    when the input is fit for the binding and all operators before the
    descriptor are well-formed descriptors whose values can be written,
    the exception of the failed lookup of [type] (a [KeyError] for a
    mapping without that key, a [TypeError] for a value that is no
    mapping) is what [__init__] raises. *)
Theorem magick_unreadable_descriptor
        (before rest : pydict) (k : string) (v input_ output options : pyval)
        (w : bool) (e : exn) (input_tokens : list token) :
  Forall (fun kv => descriptor (snd kv)) before ->
  settings_render "pre" before = true ->
  default_var input_ [] = Ok input_tokens ->
  getitem v "type" = Err e ->
  Magick.__init__ input_ output (PDict (before ++ (k, v) :: rest)%list) options w
  = Err e.
Proof.
  intros Hd Hrender Hin Hv.
  unfold Magick.__init__, Magick.assign_input, Magick.assign_operators.
  rewrite Hin. simpl rbind. simpl negb. cbv iota.
  unfold Magick.get_settings. simpl items. simpl rbind.
  assert (Hs : Magick.settings_of (before ++ (k, v) :: rest)%list "pre" = Err e).
  { induction Hd as [|[k' d] before Hd' _ IH]; simpl.
    - rewrite Hv. reflexivity.
    - rewrite settings_render_cons in Hrender.
      simpl in Hd'. destruct Hd' as (Ht & Hp & value & Hval).
      unfold is_setting_at in Hrender. rewrite Ht in Hrender.
      rewrite Ht. simpl.
      destruct Hp as [Hp|Hp]; rewrite Hp in *; simpl in *.
      + unfold value_of in Hrender. rewrite Hval in *. simpl.
        apply andb_true_iff in Hrender. destruct Hrender as [Hvalue Hrest].
        unfold py_str. rewrite Hvalue. simpl. rewrite (IH Hrest). reflexivity.
      + exact (IH Hrender). }
  rewrite Hs. reflexivity.
Qed.

Lemma magick_unreadable_descriptor_witness :
  Magick.__init__ (PStr "a.pdf") (PStr "a.tiff")
    (PDict [ ("density", Magick.setting "pre" (PInt 300));
             ("depth", PDict [("position", PStr "post"); ("value", PInt 8)]) ])
    PNone false
  = Err (KeyError "type")
  /\ Magick.__init__ (PStr "a.pdf") (PStr "a.tiff")
       (PDict [("density", PInt 300)]) PNone false
     = Err TypeError.
Proof.
  split.
  - apply (magick_unreadable_descriptor
             [("density", Magick.setting "pre" (PInt 300))] [] "depth"
             (PDict [("position", PStr "post"); ("value", PInt 8)])
             _ _ _ _ _ [PStr "a.pdf"]).
    + constructor; [|constructor]. unfold descriptor. simpl. repeat split; eauto.
    + reflexivity.
    + reflexivity.
    + reflexivity.
  - apply (magick_unreadable_descriptor [] [] "density" (PInt 300)
             _ _ _ _ _ [PStr "a.pdf"]).
    + constructor.
    + reflexivity.
    + reflexivity.
    + reflexivity.
Defined.

(** ** PDF binding: options *)

Section PdfOptions.

Lemma bind_ret_tt {B} (k : unit -> M B) : bind ([], Ok tt) k = k tt.
Proof. unfold bind. destruct (k tt) as [t r]. reflexivity. Qed.

(** A presence flag checked against its own name passes. *)
Lemma validate_option_own (opts : pydict) (name : string) :
  Pdftk.validate_option (option_tokens opts name) [name] = ([], Ok tt).
Proof.
  unfold option_tokens, Pdftk.validate_option.
  destruct (truthy (dict_get_or_none opts name)); simpl; [|reflexivity].
  rewrite String.eqb_refl. reflexivity.
Qed.

(** Checked against another name it is refused. *)
Lemma validate_option_other (opts : pydict) (name other : string) :
  name <> other ->
  Pdftk.validate_option (option_tokens opts name) [other]
  = ([], if truthy (dict_get_or_none opts name)
         then Err (ValidationError ("Invalid option "
                                    ++ str_text (PList [PStr name])))
         else Ok tt).
Proof.
  intros Hne. unfold option_tokens, Pdftk.validate_option.
  destruct (truthy (dict_get_or_none opts name)); simpl; [|reflexivity].
  destruct (String.eqb_spec name other) as [Heq|_]; [contradiction|reflexivity].
Qed.

Lemma format_encrypt_tokens (v : pyval) (tokens : list token) :
  Pdftk.format_encrypt v = Ok tokens ->
  tokens = [] \/ tokens = [PStr "encrypt_40bit"] \/ tokens = [PStr "encrypt_128bit"].
Proof.
  unfold Pdftk.format_encrypt.
  destruct (is_none v); [intros H; inversion H; auto|].
  destruct (py_eq v (PInt 40)); [intros H; inversion H; auto|].
  destruct (py_eq v (PInt 128)); [intros H; inversion H; auto|].
  intros H. destruct (raise_with_not_ok _ _ _ H).
Qed.

Lemma validate_encrypt_group (v : pyval) (tokens : list token) :
  Pdftk.format_encrypt v = Ok tokens ->
  Pdftk.validate_option tokens ["encrypt_40bit"; "encrypt_128bit"] = ([], Ok tt).
Proof.
  intros H. destruct (format_encrypt_tokens v tokens H) as [->|[->| ->]];
    reflexivity.
Qed.

Lemma validate_ask_group (v : pyval) :
  Pdftk.validate_option (Pdftk.format_ask v) ["ask"; "dont_ask"] = ([], Ok tt).
Proof. unfold Pdftk.format_ask. destruct (truthy v); reflexivity. Qed.

End PdfOptions.

(** X8. For a binding built with an options mapping, [validate_options]
    passes exactly when none of [drop_xfa], [keep_first_id] and
    [keep_final_id] is set: each of the three is checked against the
    name of a neighbour and refused when present, while [encrypt],
    [flatten], [need_appearances], [compress], [uncompress] and the
    ask group always pass; a failure is a [ValidationError]. *)
Theorem validate_options_refuses_three_flags
        (input_ output operators : pyval) (opts : pydict) (w : bool)
        (self : Pdftk.PDFTK) :
  Pdftk.__init__ input_ output operators (PDict opts) w = Ok self ->
  (Pdftk.validate_options self = ([], Ok tt)
   <-> truthy (dict_get_or_none opts "drop_xfa") = false
       /\ truthy (dict_get_or_none opts "keep_first_id") = false
       /\ truthy (dict_get_or_none opts "keep_final_id") = false)
  /\ (Pdftk.validate_options self = ([], Ok tt)
      \/ exists msg, Pdftk.validate_options self = ([], Err (ValidationError msg))).
Proof.
  intros Hinit. destruct (init_inv _ _ _ _ _ _ Hinit) as (_ & _ & _ & Hopt).
  apply assign_options_inv in Hopt.
  destruct Hopt as (He & H2 & H3 & H4 & H5 & H6 & H7 & H8 & H9 & H10).
  unfold Pdftk.validate_options.
  rewrite (validate_encrypt_group _ _ He), bind_ret_tt.
  rewrite H2, H3, H4, H5, H6, H7, H8, H10.
  rewrite !validate_option_own, !bind_ret_tt.
  rewrite (validate_option_other opts "drop_xfa" "keep_first_id") by discriminate.
  rewrite (validate_option_other opts "keep_first_id" "keep_final_id")
    by discriminate.
  rewrite (validate_option_other opts "keep_final_id" "drop_xfa") by discriminate.
  rewrite validate_ask_group.
  destruct (truthy (dict_get_or_none opts "drop_xfa"));
    destruct (truthy (dict_get_or_none opts "keep_first_id"));
    destruct (truthy (dict_get_or_none opts "keep_final_id"));
    simpl; split;
    try (split; [discriminate|intros (? & ? & ?); discriminate]);
    try (split; [auto|reflexivity]);
    try (left; reflexivity);
    right; eexists; reflexivity.
Qed.

Lemma validate_options_refuses_three_flags_witness :
  exists self,
    Pdftk.__init__ (PStr "PROMPT") PNone PNone
      (PDict [("flatten", PBool true); ("keep_final_id", PInt 1)]) false
    = Ok self
    /\ Pdftk.validate_options self <> ([], Ok tt).
Proof.
  destruct (Pdftk.__init__ (PStr "PROMPT") PNone PNone
              (PDict [("flatten", PBool true); ("keep_final_id", PInt 1)]) false)
    as [self|e] eqn:Hinit; [|discriminate].
  exists self. split; [reflexivity|].
  destruct (validate_options_refuses_three_flags _ _ _ _ _ _ Hinit) as (Hiff & _).
  intros Hok. apply Hiff in Hok. destruct Hok as (_ & _ & Hlast).
  discriminate.
Defined.

(** X9. As soon as an options mapping is given, an empty one too, the
    assembled command ends with [ask] or [dont_ask]: [ask] when the
    [ask] entry is true, [dont_ask] otherwise, also when the entry is
    missing.  Without an options mapping the command has neither. *)
Theorem command_ends_with_ask
        (input_ output operators : pyval) (opts : pydict) (w : bool)
        (self : Pdftk.PDFTK) :
  Pdftk.__init__ input_ output operators (PDict opts) w = Ok self ->
  Pdftk.ask self
  = [PStr (if truthy (dict_get_or_none opts "ask") then "ask" else "dont_ask")]
  /\ (exists front,
         Pdftk.prepare_command self
         = (front ++ [PStr (if truthy (dict_get_or_none opts "ask")
                            then "ask" else "dont_ask")])%list)
  /\ (forall self',
         Pdftk.__init__ input_ output operators PNone w = Ok self' ->
         Pdftk.ask self' = []).
Proof.
  intros Hinit. destruct (init_inv _ _ _ _ _ _ Hinit) as (_ & _ & _ & Hopt).
  apply assign_options_inv in Hopt.
  destruct Hopt as (_ & _ & _ & _ & _ & _ & _ & _ & _ & H10).
  assert (Hask : Pdftk.ask self
                 = [PStr (if truthy (dict_get_or_none opts "ask")
                          then "ask" else "dont_ask")]).
  { rewrite H10. unfold Pdftk.format_ask.
    destruct (truthy (dict_get_or_none opts "ask")); reflexivity. }
  split; [exact Hask|]. split.
  - unfold Pdftk.prepare_command. rewrite Hask.
    rewrite !app_assoc. eexists. reflexivity.
  - intros self' Hinit'.
    destruct (init_inv _ _ _ _ _ _ Hinit') as (_ & _ & _ & Hopt').
    simpl in Hopt'. inversion Hopt'. reflexivity.
Qed.

Lemma command_ends_with_ask_witness :
  exists self,
    Pdftk.__init__ (PStr "in.pdf") (PStr "out.pdf")
      (PDict [("operation", PStr "cat")]) (PDict []) false = Ok self
    /\ Pdftk.ask self = [PStr "dont_ask"].
Proof.
  destruct (Pdftk.__init__ (PStr "in.pdf") (PStr "out.pdf")
              (PDict [("operation", PStr "cat")]) (PDict []) false)
    as [self|e] eqn:Hinit; [|discriminate].
  exists self. split; [reflexivity|].
  destruct (command_ends_with_ask _ _ _ _ _ _ Hinit) as (Hask & _).
  exact Hask.
Defined.

(** ** PDF binding: operation and permissions *)

(** The names in [allowable_ops]. *)
Definition operation_names : list string :=
  [ "cat"; "shuffle"; "burst"; "rotate"; "generate_fdf"; "fill_form";
    "background"; "multibackground"; "stamp"; "multistamp"; "dump_data";
    "dump_data_utf8"; "dump_data_fields"; "dump_data_fields_utf8";
    "dump_data_anots"; "update_info"; "update_info_utf8"; "attach_files";
    "unpack_files" ].


Section Membership.

Lemma py_eq_str (t : pyval) (s : string) : py_eq t (PStr s) = true <-> t = PStr s.
Proof.
  destruct t; simpl; split; intros H; try discriminate.
  - apply String.eqb_eq in H. congruence.
  - inversion H. apply String.eqb_refl.
Qed.

Lemma py_eq_str_l (s : string) (t : pyval) : py_eq (PStr s) t = true <-> t = PStr s.
Proof.
  destruct t; simpl; split; intros H; try discriminate.
  - apply String.eqb_eq in H. congruence.
  - inversion H. apply String.eqb_refl.
Qed.

(** [t in names] for a list of string literals. *)
Lemma py_in_names (t : pyval) (names : list string) :
  py_in t (map PStr names) = true <-> exists s, t = PStr s /\ In s names.
Proof.
  unfold py_in. rewrite existsb_exists. split.
  - intros (x & Hin & Heq). apply in_map_iff in Hin. destruct Hin as (s & <- & Hs).
    apply py_eq_str in Heq. eauto.
  - intros (s & -> & Hs). exists (PStr s). split; [apply in_map; exact Hs|].
    apply py_eq_str. reflexivity.
Qed.

(** [s in l] for a string [s]. *)
Lemma py_in_str (s : string) (l : list pyval) :
  py_in (PStr s) l = true <-> In (PStr s) l.
Proof.
  unfold py_in. rewrite existsb_exists. split.
  - intros (x & Hin & Heq). apply py_eq_str_l in Heq. subst. exact Hin.
  - intros Hin. exists (PStr s). split; [exact Hin|]. apply py_eq_str_l. reflexivity.
Qed.

End Membership.

(** The message of a refused operation. *)
Definition operation_message (self : Pdftk.PDFTK) : string :=
  "Invalid operation: " ++ str_text (PList (Pdftk.operation self))
  ++ Pdftk.newline
  ++ "Operation must be in " ++ str_text (PList Pdftk.allowable_ops).

(** The test of [validate_operation]. *)
Definition operation_ok (group : list token) : bool :=
  match group with
  | [] => true
  | [op] => py_in op Pdftk.allowable_ops
  | _ => false
  end.

(** What a refused operation raises: the [ValidationError], unless the
    group cannot be written into its message. *)
Definition operation_refusal (self : Pdftk.PDFTK) : exn :=
  if renders (PList (Pdftk.operation self))
  then ValidationError (operation_message self)
  else ValueError.

Lemma validate_operation_outcome (self : Pdftk.PDFTK) :
  Pdftk.validate_operation self
  = ([], if operation_ok (Pdftk.operation self)
         then Ok tt
         else Err (operation_refusal self)).
Proof.
  unfold Pdftk.validate_operation.
  assert (Hmsg : @raise_with unit ValidationError
                   (given <-? py_str (PList (Pdftk.operation self)) ;;
                    allowed <-? py_str (PList Pdftk.allowable_ops) ;;
                    Ok ("Invalid operation: " ++ given ++ Pdftk.newline
                        ++ "Operation must be in " ++ allowed))
                 = Err (operation_refusal self)).
  { unfold operation_refusal, operation_message, py_str.
    change (renders (PList Pdftk.allowable_ops)) with true.
    destruct (renders (PList (Pdftk.operation self))); reflexivity. }
  destruct (Pdftk.operation self) as [|op [|op' more]].
  - reflexivity.
  - change (assert (Nat.eqb (length [op]) 1)) with (@ret unit tt).
    rewrite bind_ret. unfold operation_ok, assert.
    destruct (py_in op Pdftk.allowable_ops); [reflexivity|].
    unfold raise. rewrite except_assertion_outcome, Hmsg. reflexivity.
  - change (assert (Nat.eqb (length (op :: op' :: more)) 1) ;;
            assert (py_in op Pdftk.allowable_ops))
      with (@raise unit AssertionError).
    unfold raise. rewrite except_assertion_outcome, Hmsg. reflexivity.
Qed.

Lemma operation_ok_iff (group : list token) :
  operation_ok group = true
  <-> group = [] \/ exists name, group = [PStr name] /\ In name operation_names.
Proof.
  destruct group as [|op [|op' more]]; unfold operation_ok.
  - split; auto.
  - change Pdftk.allowable_ops with (map PStr operation_names).
    rewrite py_in_names. split.
    + intros (name & -> & Hname). right. exists name. auto.
    + intros [Hnil|(name & Heq & Hname)]; [discriminate|].
      inversion Heq; subst. exists name. auto.
  - split; [discriminate|]. intros [Hnil|(name & Heq & _)]; discriminate.
Qed.

(** X10. [validate_operation] passes exactly when the operation group
    is empty or is one string out of the nineteen allowed names; a
    group of two or more tokens, a token that is no string and an
    unknown name are refused, with a [ValidationError] that shows the
    group (or, for a group that cannot be written, with the
    [ValueError] of that message).  An operation given as a string
    stays one token (it is not split into characters), and its refusal
    is always the [ValidationError]. *)
Theorem validate_operation_allowed_names
        (input_ output options : pyval) (ops : pydict) (w : bool)
        (self : Pdftk.PDFTK) (s : string) :
  Pdftk.__init__ input_ output (PDict ops) options w = Ok self ->
  dict_get_or_none ops "operation" = PStr s ->
  Pdftk.operation self = [PStr s]
  /\ (Pdftk.validate_operation self = ([], Ok tt) <-> In s operation_names)
  /\ (Pdftk.validate_operation self = ([], Ok tt)
      \/ Pdftk.validate_operation self
         = ([], Err (ValidationError (operation_message self))))
  /\ (forall other : Pdftk.PDFTK,
        Pdftk.validate_operation other = ([], Ok tt)
        <-> Pdftk.operation other = []
            \/ exists name, Pdftk.operation other = [PStr name]
                            /\ In name operation_names)
  /\ (forall other : Pdftk.PDFTK,
        Pdftk.validate_operation other = ([], Ok tt)
        \/ Pdftk.validate_operation other
           = ([], Err (if renders (PList (Pdftk.operation other))
                       then ValidationError (operation_message other)
                       else ValueError))).
Proof.
  intros Hinit Hop.
  assert (Hgen : forall other : Pdftk.PDFTK,
             Pdftk.validate_operation other = ([], Ok tt)
             <-> Pdftk.operation other = []
                 \/ exists name, Pdftk.operation other = [PStr name]
                                 /\ In name operation_names).
  { intros other. rewrite validate_operation_outcome, <- operation_ok_iff.
    destruct (operation_ok (Pdftk.operation other)); split; congruence. }
  assert (Hgroup : Pdftk.operation self = [PStr s]).
  { destruct (init_inv _ _ _ _ _ _ Hinit) as (_ & _ & Hops & _).
    apply assign_operators_inv in Hops. destruct Hops as (_ & H2 & _).
    rewrite Hop in H2. inversion H2. reflexivity. }
  split; [exact Hgroup|]. split; [|split; [|split; [exact Hgen|]]].
  - rewrite Hgen, Hgroup. split.
    + intros [Hnil|(name & Heq & Hname)]; [discriminate|]. inversion Heq; subst.
      exact Hname.
    + intros Hs. right. exists s. auto.
  - rewrite validate_operation_outcome. unfold operation_refusal.
    rewrite Hgroup. change (renders (PList [PStr s])) with true. cbv iota.
    destruct (operation_ok [PStr s]); auto.
  - intros other. rewrite validate_operation_outcome.
    destruct (operation_ok (Pdftk.operation other)); auto.
Qed.

Lemma validate_operation_allowed_names_witness :
  exists self,
    Pdftk.__init__ (PStr "in.pdf") (PStr "page_%04d.pdf")
      (PDict [("operation", PStr "burst")]) PNone false = Ok self
    /\ Pdftk.operation self = [PStr "burst"]
    /\ Pdftk.validate_operation self = ([], Ok tt).
Proof.
  destruct (Pdftk.__init__ (PStr "in.pdf") (PStr "page_%04d.pdf")
              (PDict [("operation", PStr "burst")]) PNone false)
    as [self|e] eqn:Hinit; [|discriminate].
  exists self. split; [reflexivity|].
  destruct (validate_operation_allowed_names _ _ _ _ _ _ "burst" Hinit eq_refl)
    as (Hgroup & Hiff & _).
  split; [exact Hgroup|]. apply Hiff. simpl. tauto.
Defined.




(** ** PDF binding: output and passwords *)

(** The strings in which [r'.+\.pdf|PROMPT'] is found. *)
Definition names_pdf_or_prompt (o : string) : Prop :=
  (exists before c after,
      o = before ++ String c (".pdf" ++ after) /\ c <> line_feed)
  \/ (exists before after, o = before ++ "PROMPT" ++ after).

(** X12. For an output given as a string, [validate_output] passes
    exactly when the string holds [.pdf] right after some character
    other than a line feed, or holds [PROMPT], at any place, and is not
    one of the input tokens; otherwise it raises a [ValidationError]
    naming the output.  It never looks at the file system. *)
Theorem validate_output_of_string
        (input_ operators options : pyval) (o : string) (w : bool)
        (self : Pdftk.PDFTK) :
  Pdftk.__init__ input_ (PStr o) operators options w = Ok self ->
  Pdftk.output self = [PStr "output"; PStr o]
  /\ (Pdftk.validate_output self = ([], Ok tt)
      <-> names_pdf_or_prompt o /\ ~ In (PStr o) (Pdftk.input self))
  /\ (Pdftk.validate_output self = ([], Ok tt)
      \/ Pdftk.validate_output self
         = ([], Err (ValidationError ("Invalid output value: " ++ o)))).
Proof.
  intros Hinit.
  assert (Hout : Pdftk.output self = [PStr "output"; PStr o]).
  { destruct (init_inv _ _ _ _ _ _ Hinit) as (_ & Hout & _).
    inversion Hout. reflexivity. }
  split; [exact Hout|].
  rewrite (validate_output_single self o Hout).
  unfold names_pdf_or_prompt. rewrite <- search_output_pattern, <- py_in_str.
  destruct (Re.search_str Pdftk.output_pattern o);
    destruct (py_in (PStr o) (Pdftk.input self)); simpl.
  - split; [|right; reflexivity].
    split; [discriminate|]. intros [_ Hno]. exfalso. apply Hno. reflexivity.
  - split; [|left; reflexivity].
    split; [|reflexivity]. intros _. split; [reflexivity|discriminate].
  - split; [|right; reflexivity].
    split; [discriminate|]. intros [Hfound _]. discriminate.
  - split; [|right; reflexivity].
    split; [discriminate|]. intros [Hfound _]. discriminate.
Qed.

Lemma validate_output_of_string_witness :
  exists self,
    Pdftk.__init__ (PStr "in.pdf") (PStr "archive.pdf.zip") PNone PNone false
    = Ok self
    /\ Pdftk.validate_output self = ([], Ok tt).
Proof.
  destruct (Pdftk.__init__ (PStr "in.pdf") (PStr "archive.pdf.zip") PNone PNone
              false) as [self|e] eqn:Hinit; [|discriminate].
  exists self. split; [reflexivity|].
  destruct (validate_output_of_string _ _ _ _ _ _ Hinit) as (_ & Hiff & _).
  apply Hiff. split.
  - left. exists "archiv", "e"%char, ".zip". split; [reflexivity|discriminate].
  - vm_compute in Hinit. inversion Hinit; subst. simpl.
    intros [Heq|[]]. discriminate.
Defined.


(** ** PDF binding: construction *)


(** ** PDF binding: the shortcuts made by [make_command] *)

Section DictUpdates.

Lemma dict_get_set_same (k : string) (v : pyval) (d : pydict) :
  dict_get k (dict_set k v d) = Some v.
Proof.
  induction d as [|[k' v'] d IH]; simpl.
  - now rewrite String.eqb_refl.
  - destruct (String.eqb_spec k k') as [->|Hne]; simpl.
    + now rewrite String.eqb_refl.
    + destruct (String.eqb_spec k k'); [contradiction|exact IH].
Qed.

Lemma dict_get_set_other (k k' : string) (v : pyval) (d : pydict) :
  k <> k' -> dict_get k (dict_set k' v d) = dict_get k d.
Proof.
  intros Hne. induction d as [|[k0 v0] d IH]; simpl.
  - destruct (String.eqb_spec k k'); [contradiction|reflexivity].
  - destruct (String.eqb_spec k' k0) as [->|Hne0]; simpl.
    + destruct (String.eqb_spec k k0); [contradiction|reflexivity].
    + destruct (String.eqb_spec k k0); [reflexivity|exact IH].
Qed.

(** Writing a key twice keeps the second value only. *)
Lemma dict_set_set (k : string) (v v' : pyval) (d : pydict) :
  dict_set k v' (dict_set k v d) = dict_set k v' d.
Proof.
  induction d as [|[k0 v0] d IH]; simpl.
  - now rewrite String.eqb_refl.
  - destruct (String.eqb_spec k k0) as [->|Hne]; simpl.
    + now rewrite String.eqb_refl.
    + destruct (String.eqb_spec k k0); [contradiction|now rewrite IH].
Qed.

End DictUpdates.

Section Shortcuts.

Variable isfile : string -> bool.

Lemma for_in_silent (body : pyval -> M unit) (l : list pyval) (i0 : pyval) :
  (forall x, fst (body x) = []) -> fst (snd (for_in l i0 body)) = [].
Proof.
  intros Hbody. revert i0. induction l as [|x l IH]; intros i0; simpl.
  - reflexivity.
  - specialize (Hbody x). destruct (body x) as [t [u|e]]; simpl in Hbody; subst t.
    + specialize (IH x). destruct (for_in l x body) as [i' [t' r]]. exact IH.
    + reflexivity.
Qed.

Lemma validate_output_silent (self : Pdftk.PDFTK) :
  fst (Pdftk.validate_output self) = [].
Proof.
  unfold Pdftk.validate_output.
  destruct (truthy (PList (Pdftk.output self))); [|reflexivity].
  pose proof (for_in_silent
                (fun i =>
                   m <- lift (Re.search Pdftk.output_pattern i) ;;
                   assert m ;;
                   assert (negb (py_in i (Pdftk.input self))))
                (tl (Pdftk.output self)) PNone) as Hsilent.
  destruct (for_in (tl (Pdftk.output self)) PNone _) as [i [t r]].
  simpl in Hsilent. rewrite Hsilent.
  - destruct r as [u|[]]; reflexivity.
  - intros x. destruct (Re.search Pdftk.output_pattern x) as [[|]|e];
      try reflexivity.
    simpl. destruct (py_in x (Pdftk.input self)); reflexivity.
Qed.

Lemma validate_input_events (self : Pdftk.PDFTK) :
  fst (Pdftk.validate_input isfile self) = probes isfile (Pdftk.input self).
Proof.
  unfold Pdftk.validate_input.
  destruct (for_in_check_input isfile (Pdftk.input self) PNone) as (i & Hfor & _).
  unfold check_input in Hfor. rewrite Hfor.
  destruct (find _ (Pdftk.input self)); reflexivity.
Qed.

Lemma probes_no_subprocess (l : list token) (argv : list token) :
  ~ In (Subprocess argv) (probes isfile l).
Proof.
  induction l as [|x l IH]; simpl; [tauto|].
  destruct x; simpl; try tauto.
  destruct (isfile s || String.eqb s "PROMPT"); simpl; intuition discriminate.
Qed.

(** A binding whose operation is refused never gets to its command. *)
Lemma run_refused_operation (self : Pdftk.PDFTK) :
  Pdftk.test_args_empty self = false ->
  operation_ok (Pdftk.operation self) = false ->
  exists t e,
    run (H := Pdftk.PDFTK_CLI isfile) self = (t, Err e)
    /\ forall argv, ~ In (Subprocess argv) t.
Proof.
  intros Hwork Hbad. rewrite (pdftk_run_work isfile self Hwork).
  pose proof (validate_input_events self) as Hev.
  destruct (Pdftk.validate_input isfile self) as [t1 [[]|e1]]; simpl in Hev;
    subst t1; simpl.
  - pose proof (validate_output_silent self) as Hout.
    destruct (Pdftk.validate_output self) as [t2 [[]|e2]]; simpl in Hout;
      subst t2; simpl.
    + unfold Pdftk.validate_operators.
      rewrite validate_operation_outcome, Hbad. simpl.
      eexists. eexists. split; [reflexivity|].
      intros argv. rewrite !app_nil_r. apply probes_no_subprocess.
    + eexists. eexists. split; [reflexivity|].
      intros argv. rewrite app_nil_r. apply probes_no_subprocess.
  - eexists. eexists. split; [reflexivity|]. apply probes_no_subprocess.
Qed.

(** The mapping [make_command] hands to the binding. *)
Lemma operation_after_update (command : string) (args : pyval) (d : pydict) :
  dict_get_or_none
    (dict_set "operation_arguments" args (dict_set "operation" (PStr command) d))
    "operation" = PStr command.
Proof.
  unfold dict_get_or_none.
  rewrite dict_get_set_other by discriminate.
  now rewrite dict_get_set_same.
Qed.

Lemma make_command_on_mapping
      (command : string) (input_ output options command_args : pyval) (d : pydict) :
  Pdftk.make_command isfile command input_ output (PDict d) options command_args
  = (self <- lift (Pdftk.__init__ input_ output
                     (PDict (dict_set "operation_arguments" command_args
                               (dict_set "operation" (PStr command) d)))
                     options false) ;;
     run (H := Pdftk.PDFTK_CLI isfile) self).
Proof.
  unfold Pdftk.make_command. change (is_none (PDict d)) with false. cbv iota.
  unfold setitem at 1. rewrite bind_lift_ok.
  unfold setitem. rewrite bind_lift_ok. reflexivity.
Qed.

(** X15. A shortcut whose name is not among the allowed operations can
    never run: whatever its arguments, the call ends with an exception
    and no subprocess is started.  This is the case of
    [dump_data_annots], which the table of allowed names spells
    [dump_data_anots]. *)
Theorem unknown_shortcut_never_runs
        (command : string)
        (input_ output operators options command_args : pyval) :
  ~ In command operation_names ->
  exists t e,
    Pdftk.make_command isfile command input_ output operators options command_args
    = (t, Err e)
    /\ forall argv, ~ In (Subprocess argv) t.
Proof.
  intros Hunknown.
  assert (Hdict : forall d,
             exists t e,
               Pdftk.make_command isfile command input_ output (PDict d) options
                 command_args = (t, Err e)
               /\ forall argv, ~ In (Subprocess argv) t).
  { intros d. rewrite make_command_on_mapping.
    destruct (Pdftk.__init__ input_ output _ options false) as [self|e] eqn:Hinit.
    - rewrite bind_lift_ok.
      destruct (init_inv _ _ _ _ _ _ Hinit) as (_ & _ & Hops & _).
      apply assign_operators_inv in Hops. destruct Hops as (_ & H2 & _).
      rewrite operation_after_update in H2. inversion H2 as [Hgroup].
      apply run_refused_operation.
      + unfold Pdftk.test_args_empty. rewrite <- Hgroup.
        destruct (is_empty (Pdftk.input self) && is_empty (Pdftk.output self));
          reflexivity.
      + rewrite <- Hgroup.
        destruct (operation_ok [PStr command]) eqn:Hok; [|reflexivity].
        apply operation_ok_iff in Hok.
        destruct Hok as [Hnil|(name & Heq & Hname)]; [discriminate|].
        inversion Heq; subst. contradiction.
    - rewrite bind_lift_err. exists [], e. split; [reflexivity|]. intros argv [].
  }
  destruct operators as [|s|n|b|xs|d]; try exact (Hdict _);
    (exists [], TypeError; split; [reflexivity|intros argv []]).
Qed.

(** X16. A shortcut overwrites what the caller stored under
    [operation]: the call behaves the same whatever that entry was. *)
Theorem shortcut_overrides_operation
        (command : string) (input_ output options command_args v : pyval)
        (d : pydict) :
  Pdftk.make_command isfile command input_ output
    (PDict (dict_set "operation" v d)) options command_args
  = Pdftk.make_command isfile command input_ output (PDict d) options command_args.
Proof. rewrite !make_command_on_mapping, dict_set_set. reflexivity. Qed.

End Shortcuts.

Lemma unknown_shortcut_never_runs_witness :
  ~ In "dump_data_annots" operation_names
  /\ exists t e,
       Pdftk.make_command (fun _ => true) "dump_data_annots" (PStr "in.pdf")
         (PStr "out.pdf") PNone PNone PNone = (t, Err e).
Proof.
  assert (Hunknown : ~ In "dump_data_annots" operation_names).
  { simpl. intuition discriminate. }
  split; [exact Hunknown|].
  destruct (unknown_shortcut_never_runs (fun _ => true) "dump_data_annots"
              (PStr "in.pdf") (PStr "out.pdf") PNone PNone PNone Hunknown)
    as (t & e & Hrun & _).
  exists t, e. exact Hrun.
Defined.

(** The binding a shortcut builds from two strings and no operators or
    options. *)
Definition shortcut_self (command i o : string) (arg_tokens : list token)
  : Pdftk.PDFTK :=
  {| Pdftk.windows := false;
     Pdftk.input := [PStr i];
     Pdftk.output := [PStr "output"; PStr o];
     Pdftk.input_pw := []; Pdftk.operation := [PStr command];
     Pdftk.operation_arguments := arg_tokens; Pdftk.allow := [];
     Pdftk.owner_pw := []; Pdftk.user_pw := []; Pdftk.encrypt := [];
     Pdftk.flatten := []; Pdftk.need_appearances := [];
     Pdftk.compress := []; Pdftk.uncompress := [];
     Pdftk.keep_first_id := []; Pdftk.keep_final_id := [];
     Pdftk.drop_xfa := []; Pdftk.verbose := []; Pdftk.ask := [] |}.

(** The command of a shortcut. *)
Definition shortcut_argv (command i o : string) (arg_tokens : list token)
  : list token :=
  ([PStr "pdftk"; PStr i; PStr command] ++ arg_tokens
   ++ [PStr "output"; PStr o])%list.

(** A string [subprocess.run] accepts. *)
Definition no_nul (s : string) : bool := negb (contains_char nul s).

Section ShortcutRuns.

Variable isfile : string -> bool.

Lemma shortcut_init (command i o : string) (command_args : pyval)
      (arg_tokens : list token) :
  default_var command_args [] = Ok arg_tokens ->
  Pdftk.__init__ (PStr i) (PStr o)
    (PDict [("operation", PStr command); ("operation_arguments", command_args)])
    PNone false
  = Ok (shortcut_self command i o arg_tokens).
Proof.
  intros Hargs.
  unfold Pdftk.__init__.
  change (Pdftk.assign_input (PStr i)) with (@Ok (list token) [PStr i]).
  change (Pdftk.assign_output (PStr o))
    with (@Ok (list token) [PStr "output"; PStr o]).
  unfold Pdftk.assign_operators. simpl is_none. cbv iota. unfold get.
  cbv [rbind].
  change (dict_get_or_none
            [("operation", PStr command); ("operation_arguments", command_args)]
            "input_pw") with PNone.
  change (dict_get_or_none
            [("operation", PStr command); ("operation_arguments", command_args)]
            "operation") with (PStr command).
  change (dict_get_or_none
            [("operation", PStr command); ("operation_arguments", command_args)]
            "operation_arguments") with command_args.
  change (dict_get_or_none
            [("operation", PStr command); ("operation_arguments", command_args)]
            "allow") with PNone.
  change (dict_get_or_none
            [("operation", PStr command); ("operation_arguments", command_args)]
            "owner_pw") with PNone.
  change (dict_get_or_none
            [("operation", PStr command); ("operation_arguments", command_args)]
            "user_pw") with PNone.
  change (Pdftk.format_input_vars PNone) with (@Ok (list token) []).
  change (default_var (PStr command) []) with (@Ok (list token) [PStr command]).
  rewrite Hargs. reflexivity.
Qed.

Lemma allowed_names_no_nul (command : string) :
  In command operation_names -> no_nul command = true.
Proof.
  intros Hin.
  assert (Hall : forallb no_nul operation_names = true) by reflexivity.
  rewrite forallb_forall in Hall. exact (Hall command Hin).
Qed.

(** A shortcut whose arguments pass the validations gets to
    [subprocess.run] with its command. *)
Lemma make_command_validated
        (command i o : string) (command_args : pyval) (arg_tokens : list token) :
  In command operation_names ->
  isfile i = true \/ i = "PROMPT" ->
  names_pdf_or_prompt o ->
  o <> i ->
  default_var command_args [] = Ok arg_tokens ->
  Pdftk.make_command isfile command (PStr i) (PStr o) PNone PNone command_args
  = (emit (IsFile i) ;; subprocess_run (shortcut_argv command i o arg_tokens)).
Proof.
  intros Hname Hin Hout Hdiff Hargs.
  change (Pdftk.make_command isfile command (PStr i) (PStr o) PNone PNone
            command_args)
    with (Pdftk.make_command isfile command (PStr i) (PStr o) (PDict []) PNone
            command_args).
  rewrite make_command_on_mapping.
  change (dict_set "operation_arguments" command_args
            (dict_set "operation" (PStr command) []))
    with [("operation", PStr command); ("operation_arguments", command_args)].
  rewrite (shortcut_init command i o command_args arg_tokens Hargs).
  rewrite bind_lift_ok.
  rewrite pdftk_run_work by reflexivity.
  assert (Hvi : Pdftk.validate_input isfile (shortcut_self command i o arg_tokens)
                = emit (IsFile i)).
  { unfold Pdftk.validate_input. simpl.
    assert (Hacc : isfile i || String.eqb i "PROMPT" = true).
    { destruct Hin as [Hfile| ->]; [rewrite Hfile; reflexivity|].
      apply orb_true_r. }
    rewrite Hacc. reflexivity. }
  assert (Hvo : Pdftk.validate_output (shortcut_self command i o arg_tokens)
                = ret tt).
  { rewrite (validate_output_single (shortcut_self command i o arg_tokens) o
               eq_refl).
    apply search_output_pattern in Hout. rewrite Hout. simpl.
    destruct (String.eqb_spec o i); [contradiction|reflexivity]. }
  assert (Hvop : Pdftk.validate_operators (shortcut_self command i o arg_tokens)
                 = ret tt).
  { unfold Pdftk.validate_operators. rewrite validate_operation_outcome.
    assert (Hok : operation_ok
                    (Pdftk.operation (shortcut_self command i o arg_tokens))
                  = true).
    { apply operation_ok_iff. right. exists command. split; [reflexivity|exact Hname]. }
    rewrite Hok. reflexivity. }
  rewrite Hvi, Hvo, Hvop.
  change (Pdftk.validate_options (shortcut_self command i o arg_tokens))
    with (@ret unit tt).
  rewrite !bind_ret. reflexivity.
Qed.

Lemma proper_str (s : string) : proper (PStr s) = no_nul s.
Proof. unfold proper, no_nul. simpl. destruct (contains_char nul s); reflexivity. Qed.

Lemma shortcut_argv_startable (command i o : string) (arg_tokens : list token) :
  no_nul command = true -> no_nul i = true -> no_nul o = true ->
  forallb proper arg_tokens = true ->
  startable (shortcut_argv command i o arg_tokens) = true.
Proof.
  intros Hc Hi Ho Hargs. unfold startable, shortcut_argv.
  rewrite !forallb_app, Hargs. simpl. rewrite !proper_str, Hc, Hi, Ho.
  reflexivity.
Qed.

(** With proper tokens the command is started. *)
Lemma make_command_started
        (command i o : string) (command_args : pyval) (arg_tokens : list token) :
  In command operation_names ->
  isfile i = true \/ i = "PROMPT" ->
  names_pdf_or_prompt o ->
  o <> i ->
  default_var command_args [] = Ok arg_tokens ->
  no_nul i = true -> no_nul o = true -> forallb proper arg_tokens = true ->
  Pdftk.make_command isfile command (PStr i) (PStr o) PNone PNone command_args
  = ([IsFile i; Subprocess (shortcut_argv command i o arg_tokens)],
     Ok {| args := shortcut_argv command i o arg_tokens |}).
Proof.
  intros Hname Hin Hout Hdiff Hargs Hi Ho Hproper.
  rewrite (make_command_validated command i o command_args arg_tokens
             Hname Hin Hout Hdiff Hargs).
  rewrite (subprocess_run_startable _
             (shortcut_argv_startable command i o arg_tokens
                (allowed_names_no_nul command Hname) Hi Ho Hproper)).
  reflexivity.
Qed.

Lemma emit_then_run (ev : event) (argv : list token) :
  (emit ev ;; subprocess_run argv)
  = (ev :: (if startable argv then [Subprocess argv] else []),
     snd (subprocess_run argv)).
Proof.
  rewrite <- subprocess_run_trace.
  destruct (subprocess_run argv) as [t r]. reflexivity.
Qed.

(** X17. A shortcut with an allowed name, called with an input that is
    an existing file (or [PROMPT]), an output that passes the output
    pattern and differs from the input, and no operators or options,
    probes the input once and then hands
    [pdftk <input> <command> <arguments> output <output>] to
    [subprocess.run].  The command is started when the two names hold
    no NUL character and the arguments are strings without one; an
    argument that is no string passes the validations all the same,
    and is refused only there, with a [TypeError]. *)
Theorem shortcut_runs_its_command
        (command i o : string) (command_args : pyval) (arg_tokens : list token) :
  In command operation_names ->
  isfile i = true \/ i = "PROMPT" ->
  names_pdf_or_prompt o ->
  o <> i ->
  default_var command_args [] = Ok arg_tokens ->
  Pdftk.make_command isfile command (PStr i) (PStr o) PNone PNone command_args
  = (IsFile i :: (if startable (shortcut_argv command i o arg_tokens)
                  then [Subprocess (shortcut_argv command i o arg_tokens)]
                  else []),
     snd (subprocess_run (shortcut_argv command i o arg_tokens)))
  /\ (no_nul i = true -> no_nul o = true -> forallb proper arg_tokens = true ->
      Pdftk.make_command isfile command (PStr i) (PStr o) PNone PNone command_args
      = ([IsFile i; Subprocess (shortcut_argv command i o arg_tokens)],
         Ok {| args := shortcut_argv command i o arg_tokens |}))
  /\ (startable (shortcut_argv command i o arg_tokens) = false ->
      Pdftk.make_command isfile command (PStr i) (PStr o) PNone PNone command_args
      = ([IsFile i], Err TypeError)
      \/ Pdftk.make_command isfile command (PStr i) (PStr o) PNone PNone
           command_args
         = ([IsFile i], Err ValueError)).
Proof.
  intros Hname Hin Hout Hdiff Hargs.
  split; [|split].
  - rewrite (make_command_validated command i o command_args arg_tokens
               Hname Hin Hout Hdiff Hargs).
    apply emit_then_run.
  - intros Hi Ho Hproper.
    exact (make_command_started command i o command_args arg_tokens
             Hname Hin Hout Hdiff Hargs Hi Ho Hproper).
  - intros Hbad.
    rewrite (make_command_validated command i o command_args arg_tokens
               Hname Hin Hout Hdiff Hargs), emit_then_run, Hbad.
    destruct (subprocess_run_refused _ Hbad)
      as (e & -> & [(Hnil & _)|(_ & [->| ->])]); auto.
    discriminate Hnil.
Qed.

End ShortcutRuns.

Lemma shortcut_runs_its_command_witness :
  Pdftk.burst (fun s => String.eqb s "scan.pdf") (PStr "scan.pdf")
    (PStr "page_%04d.pdf") PNone PNone PNone
  = ([ IsFile "scan.pdf";
       Subprocess [ PStr "pdftk"; PStr "scan.pdf"; PStr "burst"; PStr "output";
                    PStr "page_%04d.pdf" ] ],
     Ok {| args := [ PStr "pdftk"; PStr "scan.pdf"; PStr "burst"; PStr "output";
                     PStr "page_%04d.pdf" ] |})
  /\ Pdftk.make_command (fun s => String.eqb s "scan.pdf") "cat" (PStr "scan.pdf")
       (PStr "all.pdf") PNone PNone (PList [PStr "1-3"; PInt 5])
     = ([IsFile "scan.pdf"], Err TypeError).
Proof.
  assert (Hin : (fun s => String.eqb s "scan.pdf") "scan.pdf" = true
                \/ "scan.pdf" = "PROMPT") by (left; reflexivity).
  split.
  - assert (Hname : In "burst" operation_names) by (simpl; tauto).
    assert (Hout : names_pdf_or_prompt "page_%04d.pdf").
    { left. exists "page_%04", "d"%char, "". split; [reflexivity|discriminate]. }
    assert (Hdiff : "page_%04d.pdf" <> "scan.pdf") by discriminate.
    destruct (shortcut_runs_its_command (fun s => String.eqb s "scan.pdf") "burst"
                "scan.pdf" "page_%04d.pdf" PNone [] Hname Hin Hout Hdiff eq_refl)
      as (_ & Hrun & _).
    exact (Hrun eq_refl eq_refl eq_refl).
  - assert (Hname : In "cat" operation_names) by (simpl; tauto).
    assert (Hout : names_pdf_or_prompt "all.pdf").
    { left. exists "al", "l"%char, "". split; [reflexivity|discriminate]. }
    assert (Hdiff : "all.pdf" <> "scan.pdf") by discriminate.
    destruct (shortcut_runs_its_command (fun s => String.eqb s "scan.pdf") "cat"
                "scan.pdf" "all.pdf" (PList [PStr "1-3"; PInt 5])
                [PStr "1-3"; PInt 5] Hname Hin Hout Hdiff eq_refl)
      as (Hrun & _).
    exact Hrun.
Defined.

(* ------------------------------------------------------------------ *)
(** * The pipeline script *)

(** The signatures [int(random.random() * 100000000)] can give. *)
Definition drawn (signature : Z) : Prop := (0 <= signature < 100000000)%Z.

(** The stem of the temporary names of a run. *)
Definition stem (signature : Z) : string := "tmp" ++ decimal signature.

(** The three commands of a run. *)
Definition burst_argv (signature : Z) (in_file : string) : list token :=
  [ PStr "pdftk"; PStr in_file; PStr "burst"; PStr "output";
    PStr (stem signature ++ "_%04d.pdf") ].

Definition magick_argv (signature : Z) : list token :=
  [ PStr "magick"; PStr "-density"; PStr "300"; PStr (stem signature ++ "*.pdf");
    PStr "-type"; PStr "Grayscale"; PStr "-compress"; PStr "lzw";
    PStr "-background"; PStr "white"; PStr "-alpha"; PStr "off";
    PStr "-depth"; PStr "8"; PStr (stem signature ++ "_%04d.tiff") ].

Definition tesseract_argv (signature : Z) (out_file file_format : string)
  : list token :=
  [ PStr "tesseract"; PStr (stem signature ++ ".txt"); PStr out_file;
    PStr "-l"; PStr "eng"; PStr file_format ].

(** The pattern [clean_up] receives. *)
Definition cleanup_pattern (signature : Z) : string :=
  Pipeline.drop_last 4 (stem signature) ++ "*".

(** The lines written to the list file. *)
Definition list_content (w : Pipeline.world) (signature : Z) : string :=
  String.concat ""
    (map (fun fname => fname ++ Pdftk.newline)
         (Pipeline.glob w (stem signature ++ "*.tiff"))).

(** The three tools end with status 0. *)
Definition tools_succeed (w : Pipeline.world) (signature : Z)
           (in_file out_file file_format : string) : Prop :=
  Pipeline.returncode w (burst_argv signature in_file) = 0%Z
  /\ Pipeline.returncode w (magick_argv signature) = 0%Z
  /\ Pipeline.returncode w (tesseract_argv signature out_file file_format) = 0%Z.

(** The list file of a run can be opened and written. *)
Definition list_file_written (w : Pipeline.world) (signature : Z) : Prop :=
  Pipeline.opens w (stem signature ++ ".txt") = true
  /\ Pipeline.stores w (stem signature ++ ".txt") (list_content w signature) = true.

(** The paths [clean_up] calls [os.remove] on: all of them up to the
    first one that cannot be removed, that one included. *)
Fixpoint attempted (w : Pipeline.world) (paths : list string) : list string :=
  match paths with
  | [] => []
  | f :: rest => f :: (if Pipeline.removable w f then attempted w rest else [])
  end.

(** The first path that cannot be removed. *)
Definition stuck (w : Pipeline.world) (paths : list string) : option string :=
  find (fun f => negb (Pipeline.removable w f)) paths.

Definition is_remove (st : Pipeline.step) : bool :=
  match st with Pipeline.Remove _ => true | _ => false end.

(** The steps of the four stages of a run. *)
Definition burst_steps (signature : Z) (in_file : string) : list Pipeline.step :=
  [ Pipeline.Cli (IsFile in_file);
    Pipeline.Cli (Subprocess (burst_argv signature in_file)) ].

Definition magick_steps (signature : Z) : list Pipeline.step :=
  [Pipeline.Cli (Subprocess (magick_argv signature))].

Definition list_steps (w : Pipeline.world) (signature : Z) : list Pipeline.step :=
  [ Pipeline.Open (stem signature ++ ".txt");
    Pipeline.Glob (stem signature ++ "*.tiff");
    Pipeline.Write (stem signature ++ ".txt") (list_content w signature) ].

Definition ocr_steps (w : Pipeline.world) (signature : Z)
           (out_file file_format : string) : list Pipeline.step :=
  (list_steps w signature
   ++ [Pipeline.Cli (Subprocess (tesseract_argv signature out_file file_format))])%list.

Definition cleanup_steps (w : Pipeline.world) (signature : Z) : list Pipeline.step :=
  Pipeline.Glob (cleanup_pattern signature)
  :: map Pipeline.Remove
         (attempted w (Pipeline.glob w (cleanup_pattern signature))).

(** [repr] of the finished process of a command of strings. *)
Definition process_text (argv : list token) (code : Z) : string :=
  "CompletedProcess(args=" ++ repr_text (PList argv)
  ++ ", returncode=" ++ decimal code ++ ")".

(** The [OutputError] raised for a command that ended badly. *)
Definition tool_failure {A} (w : Pipeline.world) (argv : list token)
  : Pipeline.outcome A :=
  Pipeline.Failed
    (Pipeline.OutputError
       ("Invalid output: " ++ process_text argv (Pipeline.returncode w argv))).

(** How the clean-up ends. *)
Definition cleanup_outcome (w : Pipeline.world) (signature : Z)
  : Pipeline.outcome Z :=
  match stuck w (Pipeline.glob w (cleanup_pattern signature)) with
  | None => Pipeline.Done 0%Z
  | Some f => Pipeline.Failed (Pipeline.OSError f)
  end.

(** The whole of a run whose input passes validation. *)
Definition run_of_main (w : Pipeline.world) (signature : Z)
           (in_file out_file file_format : string) : Pipeline.P Z :=
  if Z.eqb (Pipeline.returncode w (burst_argv signature in_file)) 0 then
    if Z.eqb (Pipeline.returncode w (magick_argv signature)) 0 then
      if Pipeline.opens w (stem signature ++ ".txt") then
        if Pipeline.stores w (stem signature ++ ".txt") (list_content w signature)
        then
          if Z.eqb (Pipeline.returncode w
                      (tesseract_argv signature out_file file_format)) 0 then
            ((burst_steps signature in_file ++ magick_steps signature
              ++ ocr_steps w signature out_file file_format
              ++ cleanup_steps w signature)%list,
             cleanup_outcome w signature)
          else
            ((burst_steps signature in_file ++ magick_steps signature
              ++ ocr_steps w signature out_file file_format)%list,
             tool_failure w (tesseract_argv signature out_file file_format))
        else
          ((burst_steps signature in_file ++ magick_steps signature
            ++ list_steps w signature)%list,
           Pipeline.Failed (Pipeline.OSError (stem signature ++ ".txt")))
      else
        ((burst_steps signature in_file ++ magick_steps signature
          ++ [Pipeline.Open (stem signature ++ ".txt")])%list,
         Pipeline.Failed (Pipeline.OSError (stem signature ++ ".txt")))
    else
      ((burst_steps signature in_file ++ magick_steps signature)%list,
       tool_failure w (magick_argv signature))
  else
    (burst_steps signature in_file, tool_failure w (burst_argv signature in_file)).

Section StringSlices.

Lemma length_append (s t : string) :
  String.length (s ++ t) = String.length s + String.length t.
Proof. induction s as [|c s IH]; simpl; [reflexivity|now rewrite IH]. Qed.

Lemma substring_prefix (n : nat) (s t : string) :
  n <= String.length s -> substring 0 n (s ++ t) = substring 0 n s.
Proof.
  revert n. induction s as [|c s IH]; intros n Hn; simpl in *.
  - assert (n = 0) by lia. subst. destruct t; reflexivity.
  - destruct n as [|n]; [reflexivity|]. rewrite IH by lia. reflexivity.
Qed.

(** [(s + t)[:-(k + len(t))] == s[:-k]]. *)
Lemma drop_last_suffix (k : nat) (s t : string) :
  Pipeline.drop_last (k + String.length t) (s ++ t) = Pipeline.drop_last k s.
Proof.
  unfold Pipeline.drop_last. rewrite length_append.
  replace (String.length s + String.length t - (k + String.length t))
    with (String.length s - k) by lia.
  apply substring_prefix. lia.
Qed.

Lemma drop_last_nothing (s : string) : Pipeline.drop_last 0 s = s.
Proof.
  unfold Pipeline.drop_last. rewrite Nat.sub_0_r.
  induction s as [|c s IH]; simpl; [reflexivity|now rewrite IH].
Qed.

Lemma contains_char_append (c : ascii) (s t : string) :
  contains_char c (s ++ t) = contains_char c s || contains_char c t.
Proof.
  induction s as [|c' s IH]; simpl; [reflexivity|].
  rewrite IH. apply orb_assoc.
Qed.

Lemma no_nul_append (s t : string) : no_nul (s ++ t) = no_nul s && no_nul t.
Proof. unfold no_nul. rewrite contains_char_append. apply negb_orb. Qed.

Lemma digits_no_nul (d : Decimal.uint) :
  no_nul (NilEmpty.string_of_uint d) = true.
Proof. induction d; simpl; auto. Qed.

(** The digits of an integer hold no NUL character. *)
Lemma decimal_no_nul (n : Z) : no_nul (decimal n) = true.
Proof.
  unfold decimal, NilZero.string_of_int, NilZero.string_of_uint.
  destruct (Z.to_int n) as [d|d]; destruct d;
    try reflexivity; try apply digits_no_nul;
    change (no_nul (String "-" ?x)) with (no_nul x); try reflexivity;
    apply digits_no_nul.
Qed.

Lemma stem_no_nul (signature : Z) (suffix : string) :
  no_nul suffix = true -> no_nul (stem signature ++ suffix) = true.
Proof.
  intros Hs. unfold stem. rewrite !no_nul_append, decimal_no_nul, Hs. reflexivity.
Qed.

End StringSlices.

Section PipelineRun.

Variable w : Pipeline.world.

Lemma returncode_small (argv : list token) :
  (Z.abs (Pipeline.returncode w argv) < 100000000)%Z.
Proof.
  unfold Pipeline.returncode, Pipeline.returncode_of.
  destruct (Pipeline.exit w argv) as [b|b];
    pose proof (Byte.to_N_bounded b) as Hb; lia.
Qed.

Lemma strings_only_render (argv : list token) :
  forallb proper argv = true -> renders (PList argv) = true.
Proof.
  simpl. induction argv as [|t argv IH]; simpl; [reflexivity|].
  intros H. apply andb_true_iff in H. destruct H as [Ht Hrest].
  rewrite (IH Hrest). destruct t; try discriminate Ht. reflexivity.
Qed.

Lemma repr_process_text (argv : list token) :
  forallb proper argv = true ->
  Pipeline.repr_process {| args := argv |} (Pipeline.returncode w argv)
  = Ok (process_text argv (Pipeline.returncode w argv)).
Proof.
  intros Hargv. unfold Pipeline.repr_process, py_repr.
  simpl args. rewrite (strings_only_render argv Hargv).
  rewrite (small_int_renders _ (returncode_small argv)). reflexivity.
Qed.

Lemma pbind_done {A B} (a : A) (k : A -> Pipeline.P B) :
  Pipeline.pbind ([], Pipeline.Done a) k = k a.
Proof. unfold Pipeline.pbind. destruct (k a) as [t r]. reflexivity. Qed.

Lemma pbind_step {A B} (t : list Pipeline.step) (a : A) (k : A -> Pipeline.P B) :
  Pipeline.pbind (t, Pipeline.Done a) k = ((t ++ fst (k a))%list, snd (k a)).
Proof. unfold Pipeline.pbind. destruct (k a) as [t' r]. reflexivity. Qed.

Lemma pbind_pret {A B} (m : Pipeline.P A) (b : B) :
  Pipeline.pbind m (fun _ => Pipeline.pret b)
  = (fst m,
     match snd m with
     | Pipeline.Done _ => Pipeline.Done b
     | Pipeline.Failed f => Pipeline.Failed f
     end).
Proof.
  destruct m as [t [a|f]]; simpl; rewrite ?app_nil_r; reflexivity.
Qed.

(** A tool call followed by [check_output]. *)
Lemma checked_call {B} (m : M CompletedProcess) (argv : list token)
      (k : Pipeline.P B) :
  m = subprocess_run argv ->
  startable argv = true ->
  Pipeline.pbind (Pipeline.call m)
    (fun proc => Pipeline.pbind (Pipeline.check_output w proc) (fun _ => k))
  = if Z.eqb (Pipeline.returncode w argv) 0
    then ((Pipeline.Cli (Subprocess argv) :: fst k)%list, snd k)
    else ([Pipeline.Cli (Subprocess argv)], tool_failure w argv).
Proof.
  intros -> Hstart. rewrite (subprocess_run_startable argv Hstart).
  assert (Hproper : forallb proper argv = true).
  { unfold startable in Hstart. apply andb_true_iff in Hstart. tauto. }
  unfold Pipeline.call. cbn [fst snd map].
  rewrite pbind_step. unfold Pipeline.check_output. simpl args.
  destruct (Z.eqb (Pipeline.returncode w argv) 0).
  - unfold Pipeline.pret. rewrite pbind_done. reflexivity.
  - rewrite (repr_process_text argv Hproper). reflexivity.
Qed.

Lemma py_str_signature (signature : Z) :
  drawn signature -> py_str (PInt signature) = Ok (decimal signature).
Proof.
  intros Hrange. unfold py_str.
  rewrite small_int_renders by (unfold drawn in Hrange; lia). reflexivity.
Qed.

Lemma burst_output_accepted (signature : Z) :
  names_pdf_or_prompt (stem signature ++ "_%04d.pdf").
Proof.
  left. exists (stem signature ++ "_%04"), "d"%char, "".
  split; [|discriminate]. rewrite append_assoc. reflexivity.
Qed.

Lemma burst_call (signature : Z) (in_file : string) :
  Pipeline.isfile w in_file = true \/ in_file = "PROMPT" ->
  stem signature ++ "_%04d.pdf" <> in_file ->
  Pdftk.burst (Pipeline.isfile w) (PStr in_file)
    (PStr (stem signature ++ "_%04d.pdf")) PNone PNone PNone
  = (emit (IsFile in_file) ;; subprocess_run (burst_argv signature in_file)).
Proof.
  intros Hin Hdiff.
  exact (make_command_validated (Pipeline.isfile w) "burst" in_file
           (stem signature ++ "_%04d.pdf") PNone []
           (or_intror (or_intror (or_introl eq_refl))) Hin
           (burst_output_accepted signature) Hdiff eq_refl).
Qed.

Lemma burst_argv_startable (signature : Z) (in_file : string) :
  no_nul in_file = true -> startable (burst_argv signature in_file) = true.
Proof.
  intros Hin.
  exact (shortcut_argv_startable "burst" in_file (stem signature ++ "_%04d.pdf") []
           eq_refl Hin (stem_no_nul signature "_%04d.pdf" eq_refl) eq_refl).
Qed.

Lemma magick_argv_startable (signature : Z) :
  startable (magick_argv signature) = true.
Proof.
  unfold startable, magick_argv. cbn [forallb]. rewrite !proper_str.
  rewrite (stem_no_nul signature "*.pdf" eq_refl).
  rewrite (stem_no_nul signature "_%04d.tiff" eq_refl). reflexivity.
Qed.

Lemma tesseract_argv_startable (signature : Z) (out_file file_format : string) :
  no_nul out_file = true -> no_nul file_format = true ->
  startable (tesseract_argv signature out_file file_format) = true.
Proof.
  intros Ho Hf. unfold startable, tesseract_argv. cbn [forallb].
  rewrite !proper_str.
  rewrite (stem_no_nul signature ".txt" eq_refl), Ho, Hf. reflexivity.
Qed.

Lemma burst_pdf_steps (signature : Z) (in_file : string) :
  drawn signature ->
  Pipeline.isfile w in_file = true \/ in_file = "PROMPT" ->
  stem signature ++ "_%04d.pdf" <> in_file ->
  no_nul in_file = true ->
  Pipeline.burst_pdf w signature (PStr in_file)
  = if Z.eqb (Pipeline.returncode w (burst_argv signature in_file)) 0
    then (burst_steps signature in_file, Pipeline.Done (stem signature ++ "*.pdf"))
    else (burst_steps signature in_file,
          tool_failure w (burst_argv signature in_file)).
Proof.
  intros Hrange Hin Hdiff Hnul. unfold Pipeline.burst_pdf.
  rewrite (py_str_signature signature Hrange).
  change (Pipeline.call (lift (Ok (decimal signature))))
    with (@pair (list Pipeline.step) _ [] (Pipeline.Done (decimal signature))).
  rewrite !pbind_done.
  change (PStr ("tmp" ++ decimal signature ++ "_%04d.pdf"))
    with (PStr (stem signature ++ "_%04d.pdf")).
  change (Pipeline.pret ("tmp" ++ decimal signature ++ "*.pdf"))
    with (Pipeline.pret (stem signature ++ "*.pdf")).
  rewrite (burst_call signature in_file Hin Hdiff).
  pose proof (burst_argv_startable signature in_file Hnul) as Hstart.
  rewrite (subprocess_run_startable _ Hstart).
  change (emit (IsFile in_file) ;;
          ([Subprocess (burst_argv signature in_file)],
           Ok {| args := burst_argv signature in_file |}))
    with (@pair (list event) _
            [IsFile in_file; Subprocess (burst_argv signature in_file)]
            (Ok {| args := burst_argv signature in_file |})).
  assert (Hproper : forallb proper (burst_argv signature in_file) = true).
  { unfold startable in Hstart. apply andb_true_iff in Hstart. tauto. }
  unfold Pipeline.call. cbn [fst snd map].
  rewrite pbind_step. unfold Pipeline.check_output. simpl args.
  destruct (Z.eqb (Pipeline.returncode w (burst_argv signature in_file)) 0).
  - unfold Pipeline.pret. rewrite pbind_done. reflexivity.
  - rewrite (repr_process_text _ Hproper). reflexivity.
Qed.

Lemma tiff_pages_steps (signature : Z) :
  Pipeline.tiff_pages w (stem signature ++ "*.pdf")
  = if Z.eqb (Pipeline.returncode w (magick_argv signature)) 0
    then (magick_steps signature, Pipeline.Done (stem signature ++ "*.tiff"))
    else (magick_steps signature, tool_failure w (magick_argv signature)).
Proof.
  unfold Pipeline.tiff_pages.
  change 5 with (0 + String.length "*.pdf").
  rewrite drop_last_suffix, drop_last_nothing.
  rewrite (checked_call _ (magick_argv signature));
    [|exact (magick_call (PStr (stem signature ++ "*.pdf"))
               (PStr (stem signature ++ "_%04d.tiff")) (PInt 300)
               (PStr "Grayscale") (PStr "lzw") (PStr "white") (PStr "off")
               (PInt 8) [PStr (stem signature ++ "*.pdf")] eq_refl eq_refl)
     |exact (magick_argv_startable signature)].
  destruct (Z.eqb (Pipeline.returncode w (magick_argv signature)) 0); reflexivity.
Qed.

Lemma tess_pages_steps (signature : Z) (out_file file_format : string) :
  no_nul out_file = true -> no_nul file_format = true ->
  Pipeline.tess_pages w (stem signature ++ "*.tiff") (PStr file_format)
    (PStr out_file)
  = if Pipeline.opens w (stem signature ++ ".txt") then
      if Pipeline.stores w (stem signature ++ ".txt") (list_content w signature)
      then
        if Z.eqb (Pipeline.returncode w
                    (tesseract_argv signature out_file file_format)) 0
        then (ocr_steps w signature out_file file_format,
              Pipeline.Done (cleanup_pattern signature))
        else (ocr_steps w signature out_file file_format,
              tool_failure w (tesseract_argv signature out_file file_format))
      else (list_steps w signature,
            Pipeline.Failed (Pipeline.OSError (stem signature ++ ".txt")))
    else ([Pipeline.Open (stem signature ++ ".txt")],
          Pipeline.Failed (Pipeline.OSError (stem signature ++ ".txt"))).
Proof.
  intros Ho Hf. unfold Pipeline.tess_pages, cleanup_pattern.
  change 10 with (4 + String.length "*.tiff").
  change 6 with (0 + String.length "*.tiff").
  rewrite !drop_last_suffix, drop_last_nothing.
  rewrite (checked_call _ (tesseract_argv signature out_file file_format));
    [|exact (tesseract_call (PStr (stem signature ++ ".txt")) (PStr out_file)
               (PStr file_format) [PStr (stem signature ++ ".txt")]
               [PStr file_format] eq_refl eq_refl)
     |exact (tesseract_argv_startable signature out_file file_format Ho Hf)].
  unfold Pipeline.make_tess_list, Pipeline.file_op.
  fold (list_content w signature).
  destruct (Pipeline.opens w (stem signature ++ ".txt")); [|reflexivity].
  destruct (Pipeline.stores w (stem signature ++ ".txt") (list_content w signature));
    [|reflexivity].
  destruct (Z.eqb (Pipeline.returncode w
                     (tesseract_argv signature out_file file_format)) 0);
    reflexivity.
Qed.

Lemma remove_each_steps (paths : list string) :
  Pipeline.remove_each w paths
  = (map Pipeline.Remove (attempted w paths),
     match stuck w paths with
     | None => Pipeline.Done tt
     | Some f => Pipeline.Failed (Pipeline.OSError f)
     end).
Proof.
  induction paths as [|f rest IH]; [reflexivity|].
  unfold stuck in *. simpl. unfold Pipeline.file_op.
  destruct (Pipeline.removable w f); simpl; [|reflexivity].
  rewrite IH. reflexivity.
Qed.

(** What a run does when its input passes validation. *)
Lemma main_steps (signature : Z) (prog in_file out_file file_format : string)
      (more : list string) :
  drawn signature ->
  Pipeline.isfile w in_file = true \/ in_file = "PROMPT" ->
  stem signature ++ "_%04d.pdf" <> in_file ->
  forallb no_nul [in_file; out_file; file_format] = true ->
  Pipeline.main w signature (prog :: in_file :: out_file :: file_format :: more)
  = run_of_main w signature in_file out_file file_format.
Proof.
  intros Hrange Hin Hdiff Hnul. simpl in Hnul.
  apply andb_true_iff in Hnul. destruct Hnul as [Hi Hnul].
  apply andb_true_iff in Hnul. destruct Hnul as [Ho Hnul].
  apply andb_true_iff in Hnul. destruct Hnul as [Hf _].
  unfold Pipeline.main, run_of_main.
  change (firstn 3 (skipn 1 (prog :: in_file :: out_file :: file_format :: more)))
    with [in_file; out_file; file_format].
  cbv iota.
  rewrite (burst_pdf_steps signature in_file Hrange Hin Hdiff Hi).
  destruct (Z.eqb (Pipeline.returncode w (burst_argv signature in_file)) 0);
    [|reflexivity].
  rewrite pbind_step, tiff_pages_steps.
  destruct (Z.eqb (Pipeline.returncode w (magick_argv signature)) 0);
    [|reflexivity].
  rewrite pbind_step, (tess_pages_steps signature out_file file_format Ho Hf).
  destruct (Pipeline.opens w (stem signature ++ ".txt")); [|reflexivity].
  destruct (Pipeline.stores w (stem signature ++ ".txt") (list_content w signature));
    [|reflexivity].
  destruct (Z.eqb (Pipeline.returncode w
                     (tesseract_argv signature out_file file_format)) 0);
    [|reflexivity].
  rewrite pbind_step, pbind_pret. unfold Pipeline.clean_up.
  rewrite pbind_step, remove_each_steps. unfold cleanup_steps, cleanup_outcome.
  destruct (stuck w (Pipeline.glob w (cleanup_pattern signature)));
    reflexivity.
Qed.

End PipelineRun.

(** A world in which [scan.pdf] exists, every tool succeeds, two names
    match every pattern and every file operation goes through. *)
Definition calm_world : Pipeline.world :=
  {| Pipeline.isfile := fun path => String.eqb path "scan.pdf";
     Pipeline.exit := fun _ => Pipeline.Exited Byte.x00;
     Pipeline.glob := fun _ => ["scan.pdf"; "notes.txt"];
     Pipeline.opens := fun _ => true;
     Pipeline.stores := fun _ _ => true;
     Pipeline.removable := fun _ => true |}.

(** The same world, except that [magick] ends with status 1. *)
Definition magick_fails : Pipeline.world :=
  {| Pipeline.isfile := fun path => String.eqb path "scan.pdf";
     Pipeline.exit :=
       fun argv => match argv with
                   | PStr "magick" :: _ => Pipeline.Exited Byte.x01
                   | _ => Pipeline.Exited Byte.x00
                   end;
     Pipeline.glob := fun _ => ["scan.pdf"; "notes.txt"];
     Pipeline.opens := fun _ => true;
     Pipeline.stores := fun _ _ => true;
     Pipeline.removable := fun _ => true |}.

(** A world in which the directory [pages] matches every pattern,
    between two files; a directory cannot be removed by [os.remove]. *)
Definition with_directory : Pipeline.world :=
  {| Pipeline.isfile := fun path => String.eqb path "scan.pdf";
     Pipeline.exit := fun _ => Pipeline.Exited Byte.x00;
     Pipeline.glob := fun _ => ["scan.pdf"; "pages"; "notes.txt"];
     Pipeline.opens := fun _ => true;
     Pipeline.stores := fun _ _ => true;
     Pipeline.removable := fun path => negb (String.eqb path "pages") |}.

(** A world in which no file can be opened for writing. *)
Definition read_only : Pipeline.world :=
  {| Pipeline.isfile := fun path => String.eqb path "scan.pdf";
     Pipeline.exit := fun _ => Pipeline.Exited Byte.x00;
     Pipeline.glob := fun _ => ["scan.pdf"; "notes.txt"];
     Pipeline.opens := fun _ => false;
     Pipeline.stores := fun _ _ => true;
     Pipeline.removable := fun _ => true |}.

(** The patterns [clean_up] gets from a signature below 10000. *)
Definition wide_patterns : list string := ["*"; "t*"; "tm*"; "tmp*"].

Definition pattern_is_wide (n : nat) : bool :=
  existsb (String.eqb (cleanup_pattern (Z.of_nat n))) wide_patterns.

Section Removal.

Variable w : Pipeline.world.

Lemma attempted_all (paths : list string) :
  forallb (Pipeline.removable w) paths = true ->
  attempted w paths = paths /\ stuck w paths = None.
Proof.
  unfold stuck. induction paths as [|f rest IH]; simpl; [tauto|].
  intros H. apply andb_true_iff in H. destruct H as [Hf Hrest].
  rewrite Hf. simpl. destruct (IH Hrest) as [-> ->]. tauto.
Qed.

(** The removals made when a path cannot be removed: the paths before
    it, then the path itself; those after it are not touched. *)
Lemma attempted_stuck (paths : list string) (f : string) :
  stuck w paths = Some f ->
  exists before after,
    paths = (before ++ f :: after)%list
    /\ forallb (Pipeline.removable w) before = true
    /\ Pipeline.removable w f = false
    /\ attempted w paths = (before ++ [f])%list.
Proof.
  unfold stuck. induction paths as [|g rest IH]; simpl; [discriminate|].
  destruct (Pipeline.removable w g) eqn:Hg; simpl.
  - intros H. destruct (IH H) as (before & after & -> & Hb & Hf & Ha).
    exists (g :: before), after. simpl. rewrite Hg, Hb, Ha. tauto.
  - intros H. injection H as <-. exists [], rest. simpl. tauto.
Qed.

End Removal.

Section PipelineProperties.

Variable w : Pipeline.world.

(** X18. Take a signature in the range of the draw, an input that is
    an existing file (or [PROMPT]) and differs from the temporary burst
    name [tmp<n>_%04d.pdf], three arguments without a NUL character,
    three tools that end with status 0, a list file that can be opened
    and written, and matched paths that can all be removed.  Then
    [main] runs, in this order: the file probe, [pdftk] bursting into
    [tmp<n>_%04d.pdf], [magick] from [tmp<n>*.pdf] to
    [tmp<n>_%04d.tiff], the writing of the names matching
    [tmp<n>*.tiff] into [tmp<n>.txt], [tesseract] on that list, and the
    removal of every path matching the clean-up pattern; it returns 0.
    Arguments after the third are ignored. *)
Theorem main_runs_three_tools
        (signature : Z) (prog in_file out_file file_format : string)
        (more : list string) :
  drawn signature ->
  Pipeline.isfile w in_file = true \/ in_file = "PROMPT" ->
  stem signature ++ "_%04d.pdf" <> in_file ->
  forallb no_nul [in_file; out_file; file_format] = true ->
  tools_succeed w signature in_file out_file file_format ->
  list_file_written w signature ->
  forallb (Pipeline.removable w) (Pipeline.glob w (cleanup_pattern signature))
  = true ->
  Pipeline.main w signature (prog :: in_file :: out_file :: file_format :: more)
  = ((burst_steps signature in_file ++ magick_steps signature
      ++ ocr_steps w signature out_file file_format
      ++ Pipeline.Glob (cleanup_pattern signature)
         :: map Pipeline.Remove (Pipeline.glob w (cleanup_pattern signature)))%list,
     Pipeline.Done 0%Z).
Proof.
  intros Hrange Hin Hdiff Hnul (H1 & H2 & H3) (Hopen & Hstore) Hrem.
  rewrite (main_steps w signature prog in_file out_file file_format more
             Hrange Hin Hdiff Hnul).
  unfold run_of_main, cleanup_steps, cleanup_outcome.
  rewrite H1, H2, H3, Hopen, Hstore.
  destruct (attempted_all w _ Hrem) as [-> ->]. reflexivity.
Qed.

(** X19. Under the same conditions on the signature, the input, the
    arguments and the list file, when a tool ends with a non-zero
    status the run stops there with the [OutputError] of that tool: the
    later tools are not started and nothing is cleaned up, so the
    temporary files made so far stay. *)
Theorem main_stops_at_failed_tool
        (signature : Z) (prog in_file out_file file_format : string)
        (more : list string) :
  drawn signature ->
  Pipeline.isfile w in_file = true \/ in_file = "PROMPT" ->
  stem signature ++ "_%04d.pdf" <> in_file ->
  forallb no_nul [in_file; out_file; file_format] = true ->
  list_file_written w signature ->
  ~ tools_succeed w signature in_file out_file file_format ->
  exists steps msg,
    Pipeline.main w signature (prog :: in_file :: out_file :: file_format :: more)
    = (steps, Pipeline.Failed (Pipeline.OutputError msg))
    /\ (forall path, ~ In (Pipeline.Remove path) steps)
    /\ (Pipeline.returncode w (burst_argv signature in_file) <> 0%Z ->
        steps = burst_steps signature in_file
        /\ @Pipeline.Failed Z (Pipeline.OutputError msg)
           = tool_failure w (burst_argv signature in_file))
    /\ (Pipeline.returncode w (burst_argv signature in_file) = 0%Z ->
        Pipeline.returncode w (magick_argv signature) <> 0%Z ->
        steps = (burst_steps signature in_file ++ magick_steps signature)%list
        /\ @Pipeline.Failed Z (Pipeline.OutputError msg)
           = tool_failure w (magick_argv signature))
    /\ (Pipeline.returncode w (burst_argv signature in_file) = 0%Z ->
        Pipeline.returncode w (magick_argv signature) = 0%Z ->
        steps = (burst_steps signature in_file ++ magick_steps signature
                 ++ ocr_steps w signature out_file file_format)%list
        /\ @Pipeline.Failed Z (Pipeline.OutputError msg)
           = tool_failure w (tesseract_argv signature out_file file_format)).
Proof.
  intros Hrange Hin Hdiff Hnul (Hopen & Hstore) Hfail.
  rewrite (main_steps w signature prog in_file out_file file_format more
             Hrange Hin Hdiff Hnul).
  unfold run_of_main, tools_succeed in *. rewrite Hopen, Hstore.
  destruct (Z.eqb_spec (Pipeline.returncode w (burst_argv signature in_file)) 0)
    as [H1|H1].
  - destruct (Z.eqb_spec (Pipeline.returncode w (magick_argv signature)) 0)
      as [H2|H2].
    + destruct (Z.eqb_spec
                  (Pipeline.returncode w
                     (tesseract_argv signature out_file file_format)) 0)
        as [H3|H3]; [tauto|].
      eexists. eexists. split; [reflexivity|].
      split; [|repeat split; intros; (congruence || reflexivity)].
      intros path Hp. simpl in Hp. intuition discriminate.
    + eexists. eexists. split; [reflexivity|].
      split; [|repeat split; intros; (congruence || reflexivity)].
      intros path Hp. simpl in Hp. intuition discriminate.
  - eexists. eexists. split; [reflexivity|].
    split; [|repeat split; intros; (congruence || reflexivity)].
    intros path Hp. simpl in Hp. intuition discriminate.
Qed.

End PipelineProperties.

Lemma main_runs_three_tools_witness :
  Pipeline.main calm_world 12345678 ["pdf_to_text.py"; "scan.pdf"; "out"; "pdf"]
  = ([ Pipeline.Cli (IsFile "scan.pdf");
       Pipeline.Cli
         (Subprocess [ PStr "pdftk"; PStr "scan.pdf"; PStr "burst"; PStr "output";
                       PStr "tmp12345678_%04d.pdf" ]);
       Pipeline.Cli
         (Subprocess [ PStr "magick"; PStr "-density"; PStr "300";
                       PStr "tmp12345678*.pdf"; PStr "-type"; PStr "Grayscale";
                       PStr "-compress"; PStr "lzw"; PStr "-background";
                       PStr "white"; PStr "-alpha"; PStr "off"; PStr "-depth";
                       PStr "8"; PStr "tmp12345678_%04d.tiff" ]);
       Pipeline.Open "tmp12345678.txt";
       Pipeline.Glob "tmp12345678*.tiff";
       Pipeline.Write "tmp12345678.txt"
         (String.concat "" ["scan.pdf"; Pdftk.newline; "notes.txt"; Pdftk.newline]);
       Pipeline.Cli
         (Subprocess [ PStr "tesseract"; PStr "tmp12345678.txt"; PStr "out";
                       PStr "-l"; PStr "eng"; PStr "pdf" ]);
       Pipeline.Glob "tmp1234*";
       Pipeline.Remove "scan.pdf";
       Pipeline.Remove "notes.txt" ],
     Pipeline.Done 0%Z).
Proof.
  assert (Hrange : drawn 12345678) by (unfold drawn; lia).
  assert (Hin : Pipeline.isfile calm_world "scan.pdf" = true
                \/ "scan.pdf" = "PROMPT") by (left; reflexivity).
  assert (Hdiff : stem 12345678 ++ "_%04d.pdf" <> "scan.pdf") by discriminate.
  assert (Hnul : forallb no_nul ["scan.pdf"; "out"; "pdf"] = true) by reflexivity.
  assert (Hok : tools_succeed calm_world 12345678 "scan.pdf" "out" "pdf")
    by (repeat split).
  assert (Hlist : list_file_written calm_world 12345678) by (split; reflexivity).
  assert (Hrem : forallb (Pipeline.removable calm_world)
                   (Pipeline.glob calm_world (cleanup_pattern 12345678)) = true)
    by reflexivity.
  exact (main_runs_three_tools calm_world 12345678 "pdf_to_text.py" "scan.pdf"
           "out" "pdf" [] Hrange Hin Hdiff Hnul Hok Hlist Hrem).
Defined.

Lemma main_stops_at_failed_tool_witness :
  Pipeline.main magick_fails 12345678
    ["pdf_to_text.py"; "scan.pdf"; "out"; "pdf"]
  = ((burst_steps 12345678 "scan.pdf" ++ magick_steps 12345678)%list,
     tool_failure magick_fails (magick_argv 12345678)).
Proof.
  assert (Hrange : drawn 12345678) by (unfold drawn; lia).
  assert (Hin : Pipeline.isfile magick_fails "scan.pdf" = true
                \/ "scan.pdf" = "PROMPT") by (left; reflexivity).
  assert (Hdiff : stem 12345678 ++ "_%04d.pdf" <> "scan.pdf") by discriminate.
  assert (Hnul : forallb no_nul ["scan.pdf"; "out"; "pdf"] = true) by reflexivity.
  assert (Hlist : list_file_written magick_fails 12345678)
    by (split; reflexivity).
  assert (Hfail : ~ tools_succeed magick_fails 12345678 "scan.pdf" "out" "pdf").
  { intros (_ & H2 & _). discriminate H2. }
  destruct (main_stops_at_failed_tool magick_fails 12345678 "pdf_to_text.py"
              "scan.pdf" "out" "pdf" [] Hrange Hin Hdiff Hnul Hlist Hfail)
    as (steps & msg & Hmain & _ & _ & Hsteps & _).
  rewrite Hmain.
  destruct Hsteps as [-> ->]; [reflexivity|discriminate|reflexivity].
Defined.

Section CleanUp.

Lemma small_signatures_checked :
  forallb pattern_is_wide (seq 0 (Z.to_nat 10000)) = true.
Proof. vm_compute. reflexivity. Qed.

Lemma small_signature_pattern (signature : Z) :
  (0 <= signature < 10000)%Z -> In (cleanup_pattern signature) wide_patterns.
Proof.
  intros Hrange.
  pose proof small_signatures_checked as Hall. rewrite forallb_forall in Hall.
  assert (Hin : In (Z.to_nat signature) (seq 0 (Z.to_nat 10000)))
    by (apply in_seq; lia).
  apply Hall in Hin. unfold pattern_is_wide in Hin.
  rewrite Z2Nat.id in Hin by lia.
  apply existsb_exists in Hin. destruct Hin as (pattern & Hp & Heq).
  apply String.eqb_eq in Heq. rewrite Heq. exact Hp.
Qed.

Lemma one_digit_pattern (signature : Z) :
  (0 <= signature < 10)%Z -> cleanup_pattern signature = "*".
Proof.
  intros Hrange.
  assert (Hcases : (signature = 0 \/ signature = 1 \/ signature = 2
                    \/ signature = 3 \/ signature = 4 \/ signature = 5
                    \/ signature = 6 \/ signature = 7 \/ signature = 8
                    \/ signature = 9)%Z) by lia.
  repeat (destruct Hcases as [->|Hcases]; [reflexivity|]). subst. reflexivity.
Qed.

End CleanUp.

(** X20. The clean-up pattern is the temporary stem [tmp<n>] cut by
    its last four characters, followed by [*].  For a signature below
    10000 nothing of the number is left: the pattern is [tmp*], [tm*],
    [t*] or [*], and for a signature below 10 it is [*].  A run whose
    input is an existing file (or [PROMPT]) other than the temporary
    burst name, whose three arguments hold no NUL character, whose
    three tools end with status 0 and whose list file can be opened and
    written then calls [os.remove] on the paths this pattern matches,
    whatever they are, in order and up to the first one that cannot be
    removed, a directory for instance: if there is none the run
    returns 0, otherwise it ends with the [OSError] of that path. *)
Theorem small_signature_widens_clean_up
        (w : Pipeline.world) (signature : Z)
        (prog in_file out_file file_format : string) :
  (0 <= signature < 10000)%Z ->
  Pipeline.isfile w in_file = true \/ in_file = "PROMPT" ->
  stem signature ++ "_%04d.pdf" <> in_file ->
  forallb no_nul [in_file; out_file; file_format] = true ->
  tools_succeed w signature in_file out_file file_format ->
  list_file_written w signature ->
  exists pattern before,
    In pattern wide_patterns
    /\ ((signature < 10)%Z -> pattern = "*")
    /\ Pipeline.main w signature [prog; in_file; out_file; file_format]
       = ((before ++ Pipeline.Glob pattern
                  :: map Pipeline.Remove
                       (attempted w (Pipeline.glob w pattern)))%list,
          match stuck w (Pipeline.glob w pattern) with
          | None => Pipeline.Done 0%Z
          | Some f => Pipeline.Failed (Pipeline.OSError f)
          end)
    /\ (forallb (Pipeline.removable w) (Pipeline.glob w pattern) = true ->
        attempted w (Pipeline.glob w pattern) = Pipeline.glob w pattern
        /\ stuck w (Pipeline.glob w pattern) = None).
Proof.
  intros Hrange Hin Hdiff Hnul (H1 & H2 & H3) (Hopen & Hstore).
  exists (cleanup_pattern signature).
  exists (burst_steps signature in_file ++ magick_steps signature
          ++ ocr_steps w signature out_file file_format)%list.
  split; [apply small_signature_pattern; exact Hrange|].
  split; [intros Hsmall; apply one_digit_pattern; lia|].
  split; [|apply attempted_all].
  assert (Hdrawn : drawn signature) by (unfold drawn; lia).
  rewrite (main_steps w signature prog in_file out_file file_format []
             Hdrawn Hin Hdiff Hnul).
  unfold run_of_main, cleanup_steps, cleanup_outcome.
  rewrite H1, H2, H3, Hopen, Hstore.
  rewrite <- !app_assoc. reflexivity.
Qed.

Lemma small_signature_widens_clean_up_witness :
  (exists before,
      Pipeline.main calm_world 7 ["pdf_to_text.py"; "scan.pdf"; "out"; "pdf"]
      = ((before ++ [ Pipeline.Glob "*"; Pipeline.Remove "scan.pdf";
                      Pipeline.Remove "notes.txt" ])%list,
         Pipeline.Done 0%Z))
  /\ (exists before,
         Pipeline.main with_directory 7
           ["pdf_to_text.py"; "scan.pdf"; "out"; "pdf"]
         = ((before ++ [ Pipeline.Glob "*"; Pipeline.Remove "scan.pdf";
                         Pipeline.Remove "pages" ])%list,
            Pipeline.Failed (Pipeline.OSError "pages"))).
Proof.
  assert (Hrange : (0 <= 7 < 10000)%Z) by lia.
  assert (Hdiff : stem 7 ++ "_%04d.pdf" <> "scan.pdf") by discriminate.
  assert (Hnul : forallb no_nul ["scan.pdf"; "out"; "pdf"] = true) by reflexivity.
  split.
  - assert (Hin : Pipeline.isfile calm_world "scan.pdf" = true
                  \/ "scan.pdf" = "PROMPT") by (left; reflexivity).
    assert (Hok : tools_succeed calm_world 7 "scan.pdf" "out" "pdf")
      by (repeat split).
    assert (Hlist : list_file_written calm_world 7) by (split; reflexivity).
    destruct (small_signature_widens_clean_up calm_world 7 "pdf_to_text.py"
                "scan.pdf" "out" "pdf" Hrange Hin Hdiff Hnul Hok Hlist)
      as (pattern & before & _ & Hstar & Hmain & _).
    exists before. rewrite Hmain. rewrite Hstar by lia. reflexivity.
  - assert (Hin : Pipeline.isfile with_directory "scan.pdf" = true
                  \/ "scan.pdf" = "PROMPT") by (left; reflexivity).
    assert (Hok : tools_succeed with_directory 7 "scan.pdf" "out" "pdf")
      by (repeat split).
    assert (Hlist : list_file_written with_directory 7) by (split; reflexivity).
    destruct (small_signature_widens_clean_up with_directory 7 "pdf_to_text.py"
                "scan.pdf" "out" "pdf" Hrange Hin Hdiff Hnul Hok Hlist)
      as (pattern & before & _ & Hstar & Hmain & _).
    exists before. rewrite Hmain. rewrite Hstar by lia. reflexivity.
Defined.

(** X21. An input file that does not exist stops the run at the first
    step: for a signature in the range of the draw the only thing done
    is the file probe, the [ValidationError] of the PDF binding comes
    out, and no tool is started. *)
Theorem main_rejects_missing_input
        (w : Pipeline.world) (signature : Z)
        (prog in_file out_file file_format : string) (more : list string) :
  drawn signature ->
  Pipeline.isfile w in_file = false ->
  in_file <> "PROMPT" ->
  Pipeline.main w signature (prog :: in_file :: out_file :: file_format :: more)
  = ([Pipeline.Cli (IsFile in_file)],
     Pipeline.Failed
       (Pipeline.Raised (ValidationError ("Invalid input value: " ++ in_file)))).
Proof.
  intros Hrange Hmissing Hprompt.
  unfold Pipeline.main.
  change (firstn 3 (skipn 1 (prog :: in_file :: out_file :: file_format :: more)))
    with [in_file; out_file; file_format].
  cbv iota.
  assert (Hburst : Pdftk.burst (Pipeline.isfile w) (PStr in_file)
                     (PStr ("tmp" ++ decimal signature ++ "_%04d.pdf"))
                     PNone PNone PNone
                   = ([IsFile in_file],
                      Err (ValidationError ("Invalid input value: " ++ in_file)))).
  { change (Pdftk.burst (Pipeline.isfile w) (PStr in_file)
              (PStr ("tmp" ++ decimal signature ++ "_%04d.pdf"))
              PNone PNone PNone)
      with (Pdftk.make_command (Pipeline.isfile w) "burst" (PStr in_file)
              (PStr (stem signature ++ "_%04d.pdf")) (PDict []) PNone PNone).
    rewrite make_command_on_mapping.
    change (dict_set "operation_arguments" PNone
              (dict_set "operation" (PStr "burst") []))
      with [("operation", PStr "burst"); ("operation_arguments", PNone)].
    rewrite (shortcut_init "burst" in_file (stem signature ++ "_%04d.pdf") PNone []
               eq_refl).
    rewrite bind_lift_ok, pdftk_run_work by reflexivity.
    assert (Hvi : Pdftk.validate_input (Pipeline.isfile w)
                    (shortcut_self "burst" in_file
                       (stem signature ++ "_%04d.pdf") [])
                  = ([IsFile in_file],
                     Err (ValidationError ("Invalid input value: " ++ in_file)))).
    { unfold Pdftk.validate_input. simpl. rewrite Hmissing.
      destruct (String.eqb_spec in_file "PROMPT"); [contradiction|reflexivity]. }
    rewrite Hvi. reflexivity. }
  unfold Pipeline.burst_pdf.
  rewrite (py_str_signature signature Hrange).
  change (Pipeline.call (lift (Ok (decimal signature))))
    with (@pair (list Pipeline.step) _ [] (Pipeline.Done (decimal signature))).
  rewrite pbind_done, Hburst. reflexivity.
Qed.

Lemma main_rejects_missing_input_witness :
  Pipeline.main calm_world 12345678 ["pdf_to_text.py"; "missing.pdf"; "out"; "pdf"]
  = ([Pipeline.Cli (IsFile "missing.pdf")],
     Pipeline.Failed
       (Pipeline.Raised (ValidationError "Invalid input value: missing.pdf"))).
Proof.
  apply (main_rejects_missing_input calm_world 12345678 "pdf_to_text.py"
           "missing.pdf" "out" "pdf" []).
  - unfold drawn. lia.
  - reflexivity.
  - discriminate.
Defined.

(** X22. [main] needs three arguments after the program name: with
    fewer, the tuple assignment raises a [ValueError] before anything
    is done. *)
Theorem main_needs_three_arguments
        (w : Pipeline.world) (signature : Z) (argv : list string) :
  length argv < 4 ->
  Pipeline.main w signature argv
  = ([], Pipeline.Failed (Pipeline.Raised ValueError)).
Proof.
  intros Hshort.
  destruct argv as [|a0 [|a1 [|a2 [|a3 more]]]]; try reflexivity.
  simpl in Hshort. lia.
Qed.

Lemma main_needs_three_arguments_witness :
  Pipeline.main calm_world 12345678 ["pdf_to_text.py"; "scan.pdf"; "out"]
  = ([], Pipeline.Failed (Pipeline.Raised ValueError)).
Proof.
  apply main_needs_three_arguments. simpl. lia.
Defined.

(** X23. When the list file [tmp<n>.txt] cannot be opened for writing,
    or what is written does not reach it, a run whose first two tools
    ended with status 0 stops with the [OSError] of that file:
    [tesseract] is not started and nothing is cleaned up. *)
Theorem main_needs_its_list_file
        (w : Pipeline.world) (signature : Z)
        (prog in_file out_file file_format : string) (more : list string) :
  drawn signature ->
  Pipeline.isfile w in_file = true \/ in_file = "PROMPT" ->
  stem signature ++ "_%04d.pdf" <> in_file ->
  forallb no_nul [in_file; out_file; file_format] = true ->
  Pipeline.returncode w (burst_argv signature in_file) = 0%Z ->
  Pipeline.returncode w (magick_argv signature) = 0%Z ->
  ~ list_file_written w signature ->
  exists steps,
    Pipeline.main w signature (prog :: in_file :: out_file :: file_format :: more)
    = ((burst_steps signature in_file ++ magick_steps signature ++ steps)%list,
       Pipeline.Failed (Pipeline.OSError (stem signature ++ ".txt")))
    /\ (Pipeline.opens w (stem signature ++ ".txt") = false ->
        steps = [Pipeline.Open (stem signature ++ ".txt")])
    /\ (Pipeline.opens w (stem signature ++ ".txt") = true ->
        steps = list_steps w signature)
    /\ (forall st, In st steps -> In st (list_steps w signature)).
Proof.
  intros Hrange Hin Hdiff Hnul H1 H2 Hlist.
  rewrite (main_steps w signature prog in_file out_file file_format more
             Hrange Hin Hdiff Hnul).
  unfold run_of_main, list_file_written in *. rewrite H1, H2. simpl Z.eqb. cbv iota.
  destruct (Pipeline.opens w (stem signature ++ ".txt")) eqn:Hopen.
  - destruct (Pipeline.stores w (stem signature ++ ".txt")
                (list_content w signature)) eqn:Hstore; [tauto|].
    exists (list_steps w signature).
    repeat split; try reflexivity; try discriminate. tauto.
  - exists [Pipeline.Open (stem signature ++ ".txt")].
    repeat split; try reflexivity; try discriminate.
    intros st [<-|[]]. left. reflexivity.
Qed.

Lemma main_needs_its_list_file_witness :
  Pipeline.main read_only 12345678 ["pdf_to_text.py"; "scan.pdf"; "out"; "pdf"]
  = ((burst_steps 12345678 "scan.pdf" ++ magick_steps 12345678
      ++ [Pipeline.Open "tmp12345678.txt"])%list,
     Pipeline.Failed (Pipeline.OSError "tmp12345678.txt")).
Proof.
  assert (Hrange : drawn 12345678) by (unfold drawn; lia).
  assert (Hin : Pipeline.isfile read_only "scan.pdf" = true
                \/ "scan.pdf" = "PROMPT") by (left; reflexivity).
  assert (Hdiff : stem 12345678 ++ "_%04d.pdf" <> "scan.pdf") by discriminate.
  assert (Hnul : forallb no_nul ["scan.pdf"; "out"; "pdf"] = true) by reflexivity.
  assert (Hlist : ~ list_file_written read_only 12345678).
  { intros [Hopen _]. discriminate Hopen. }
  destruct (main_needs_its_list_file read_only 12345678 "pdf_to_text.py"
              "scan.pdf" "out" "pdf" [] Hrange Hin Hdiff Hnul eq_refl eq_refl Hlist)
    as (steps & Hmain & Hsteps & _).
  rewrite Hmain, Hsteps; reflexivity.
Defined.

(** X24. [clean_up] stops at the first matched path that [os.remove]
    cannot remove: in a run that got as far as the clean-up, the paths
    matched before it are removed, the removal of that path is
    attempted, the paths matched after it are left, and the run ends
    with the [OSError] of that path instead of returning 0. *)
Theorem clean_up_stops_at_first_failure
        (w : Pipeline.world) (signature : Z)
        (prog in_file out_file file_format stays : string) (more : list string) :
  drawn signature ->
  Pipeline.isfile w in_file = true \/ in_file = "PROMPT" ->
  stem signature ++ "_%04d.pdf" <> in_file ->
  forallb no_nul [in_file; out_file; file_format] = true ->
  tools_succeed w signature in_file out_file file_format ->
  list_file_written w signature ->
  stuck w (Pipeline.glob w (cleanup_pattern signature)) = Some stays ->
  exists before after,
    Pipeline.glob w (cleanup_pattern signature) = (before ++ stays :: after)%list
    /\ forallb (Pipeline.removable w) before = true
    /\ Pipeline.removable w stays = false
    /\ Pipeline.main w signature
         (prog :: in_file :: out_file :: file_format :: more)
       = ((burst_steps signature in_file ++ magick_steps signature
           ++ ocr_steps w signature out_file file_format
           ++ Pipeline.Glob (cleanup_pattern signature)
              :: map Pipeline.Remove (before ++ [stays]))%list,
          Pipeline.Failed (Pipeline.OSError stays)).
Proof.
  intros Hrange Hin Hdiff Hnul (H1 & H2 & H3) (Hopen & Hstore) Hstuck.
  destruct (attempted_stuck w _ stays Hstuck)
    as (before & after & Hglob & Hbefore & Hstays & Hatt).
  exists before, after.
  split; [exact Hglob|]. split; [exact Hbefore|]. split; [exact Hstays|].
  rewrite (main_steps w signature prog in_file out_file file_format more
             Hrange Hin Hdiff Hnul).
  unfold run_of_main, cleanup_steps, cleanup_outcome.
  rewrite H1, H2, H3, Hopen, Hstore, Hstuck, Hatt. reflexivity.
Qed.

Lemma clean_up_stops_at_first_failure_witness :
  Pipeline.main with_directory 12345678
    ["pdf_to_text.py"; "scan.pdf"; "out"; "pdf"]
  = ((burst_steps 12345678 "scan.pdf" ++ magick_steps 12345678
      ++ ocr_steps with_directory 12345678 "out" "pdf"
      ++ [ Pipeline.Glob "tmp1234*"; Pipeline.Remove "scan.pdf";
           Pipeline.Remove "pages" ])%list,
     Pipeline.Failed (Pipeline.OSError "pages")).
Proof.
  assert (Hrange : drawn 12345678) by (unfold drawn; lia).
  assert (Hin : Pipeline.isfile with_directory "scan.pdf" = true
                \/ "scan.pdf" = "PROMPT") by (left; reflexivity).
  assert (Hdiff : stem 12345678 ++ "_%04d.pdf" <> "scan.pdf") by discriminate.
  assert (Hnul : forallb no_nul ["scan.pdf"; "out"; "pdf"] = true) by reflexivity.
  assert (Hok : tools_succeed with_directory 12345678 "scan.pdf" "out" "pdf")
    by (repeat split).
  assert (Hlist : list_file_written with_directory 12345678)
    by (split; reflexivity).
  assert (Hstuck : stuck with_directory
                     (Pipeline.glob with_directory (cleanup_pattern 12345678))
                   = Some "pages") by reflexivity.
  destruct (clean_up_stops_at_first_failure with_directory 12345678
              "pdf_to_text.py" "scan.pdf" "out" "pdf" "pages" []
              Hrange Hin Hdiff Hnul Hok Hlist Hstuck)
    as (before & after & Hglob & Hbefore & _ & Hmain).
  rewrite Hmain.
  change (Pipeline.glob with_directory (cleanup_pattern 12345678))
    with ["scan.pdf"; "pages"; "notes.txt"] in Hglob.
  destruct before as [|b0 [|b1 before]]; simpl in Hglob.
  - discriminate Hglob.
  - injection Hglob as <- _. reflexivity.
  - injection Hglob as <- <- _. discriminate Hbefore.
Defined.
